(** * LLM-Components / elasticsearch-rag-manager: the ingestion job pipeline

    A shallow embedding of the backend's job queue, worker loop, pipeline
    executor, text extraction and chunking strategies
    ([backend/utils/_job_management.py], [backend/utils/_execute_job.py],
    [backend/utils/_chunking.py], [backend/utils/_text_extraction.py],
    [backend/utils/_elastic_search.py], [backend/main.py],
    [backend/config.py]), followed by the properties of the
    specification stated over it.

    Python values are modelled by the type [value]; a Python dict is an
    association list in insertion order.  Code that can raise returns a
    [result]; code that mutates objects threads a [World] explicitly. *)

From Stdlib Require Import String Ascii List ZArith QArith Lia Bool Arith.
From Stdlib Require Import DecimalString DecimalNat RelationClasses SpecFloat.
Import ListNotations.

Local Close Scope Q_scope.
Local Open Scope nat_scope.
Local Open Scope string_scope.
Local Open Scope list_scope.

Set Implicit Arguments.
Set Warnings "-register-all".

(* ================================================================== *)
(** * Python values, exceptions and dict operations *)
(* ================================================================== *)

Module Py.

(** The JSON-shaped Python values that flow through the pipeline.
    Floats are represented by the rational they denote; the only float
    arithmetic performed by the modelled code is [+= 1] and the product
    inside [int(chunk_size * overlap)]. *)
Inductive value : Type :=
| VNone
| VBool (b : bool)
| VInt (z : Z)
| VFloat (q : Q)
| VStr (s : string)
| VBytes (s : string)
| VList (l : list value)
| VDict (d : list (string * value)).

Definition dict := list (string * value).

Inductive exn : Type :=
| KeyError (k : string)
| TypeError
| AttributeError
| NameError (name : string)
| UnboundLocalError (name : string)
| ZeroDivisionError
| ValueError
| OverflowError
| NotFoundError (index id : string)
| TransportError
| CollaboratorError (who : string).

Inductive result (A : Type) : Type :=
| Ok (a : A)
| Raise (e : exn).
Arguments Ok {A} a.
Arguments Raise {A} e.

Definition rbind {A B} (r : result A) (k : A -> result B) : result B :=
  match r with
  | Ok a => k a
  | Raise e => Raise e
  end.

Definition is_ok {A} (r : result A) : bool :=
  match r with Ok _ => true | Raise _ => false end.

(** [d[k]] lookup, [k in d], and [d[k] = v]: a present key keeps its
    position, a new key goes last. *)
Fixpoint dict_get (d : dict) (k : string) : option value :=
  match d with
  | [] => None
  | (k', v) :: d' => if String.eqb k' k then Some v else dict_get d' k
  end.

Definition dict_mem (d : dict) (k : string) : bool :=
  match dict_get d k with Some _ => true | None => false end.

Fixpoint dict_set (d : dict) (k : string) (v : value) : dict :=
  match d with
  | [] => [(k, v)]
  | (k', v') :: d' =>
      if String.eqb k' k then (k', v) :: d' else (k', v') :: dict_set d' k v
  end.

(** [o[k]] on an arbitrary object. *)
Definition getitem (o : value) (k : string) : result value :=
  match o with
  | VDict d =>
      match dict_get d k with
      | Some v => Ok v
      | None => Raise (KeyError k)
      end
  | _ => Raise TypeError
  end.

(** [o[k] = v] on an arbitrary object. *)
Definition setitem (o : value) (k : string) (v : value) : result value :=
  match o with
  | VDict d => Ok (VDict (dict_set d k v))
  | _ => Raise TypeError
  end.

(** [o[k1][k2] = v]: the inner dict is updated in place, so the outer
    object sees the change. *)
Definition setitem2 (o : value) (k1 k2 : string) (v : value) : result value :=
  rbind (getitem o k1) (fun inner =>
  rbind (setitem inner k2 v) (fun inner' =>
  setitem o k1 inner')).

(** [o == "literal"]. *)
Definition eq_str (o : value) (s : string) : bool :=
  match o with
  | VStr t => String.eqb t s
  | _ => false
  end.

(** The truth value of an object ([if o:], [while o:]). *)
Definition truthy (o : value) : bool :=
  match o with
  | VNone => false
  | VBool b => b
  | VInt z => negb (Z.eqb z 0)
  | VFloat q => negb (Qeq_bool q 0)
  | VStr s | VBytes s => negb (String.eqb s "")
  | VList l => match l with [] => false | _ => true end
  | VDict d => match d with [] => false | _ => true end
  end.

(* ---------------------------------------------------------------- *)
(** ** Strings *)

Definition space : ascii := " "%char.
Definition newline : ascii := "010"%char.
Definition dot : ascii := "."%char.

(** Splitting at every character that [sep] accepts; [sep] also sees the
    character before the candidate (none at the start of the string). *)
Fixpoint split_aux (sep : option ascii -> ascii -> bool)
         (prev : option ascii) (s : string) : string * list string :=
  match s with
  | EmptyString => (EmptyString, [])
  | String c s' =>
      let (piece, pieces) := split_aux sep (Some c) s' in
      if sep prev c then (EmptyString, piece :: pieces)
      else (String c piece, pieces)
  end.

Definition split_by (sep : option ascii -> ascii -> bool) (s : string)
  : list string :=
  let (piece, pieces) := split_aux sep None s in piece :: pieces.

(** [s.split(" ")] *)
Definition split_space (s : string) : list string :=
  split_by (fun _ c => Ascii.eqb c space) s.

(** [re.split(r'(?<=\.) |\n', s)]: a space that follows a period, or a
    newline. *)
Definition sentence_sep (prev : option ascii) (c : ascii) : bool :=
  Ascii.eqb c newline
  || (Ascii.eqb c space
      && match prev with Some p => Ascii.eqb p dot | None => false end).

Definition re_split_sentences (s : string) : list string :=
  split_by sentence_sep s.

(** [str.isspace].  A character of the model is a code point below 256;
    among these the white space is TAB, LF, VT, FF, CR, FS, GS, RS, US,
    the space, NEL (U+0085) and the no-break space (U+00A0). *)
Definition isspace (c : ascii) : bool :=
  let n := nat_of_ascii c in
  ((9 <=? n)%nat && (n <=? 13)%nat) || ((28 <=? n)%nat && (n <=? 32)%nat)
  || (n =? 133)%nat || (n =? 160)%nat.

Fixpoint lstrip (s : string) : string :=
  match s with
  | EmptyString => EmptyString
  | String c s' => if isspace c then lstrip s' else s
  end.

Fixpoint rstrip (s : string) : string :=
  match s with
  | EmptyString => EmptyString
  | String c s' =>
      match rstrip s' with
      | EmptyString => if isspace c then EmptyString else String c EmptyString
      | r => String c r
      end
  end.

(** [s.strip()] *)
Definition strip (s : string) : string := rstrip (lstrip s).

(** [sep.join(l)] *)
Fixpoint join (sep : string) (l : list string) : string :=
  match l with
  | [] => EmptyString
  | [x] => x
  | x :: l' => x ++ sep ++ join sep l'
  end.

(** [needle in s] for strings. *)
Fixpoint contains (needle s : string) : bool :=
  String.prefix needle s
  || match s with
     | EmptyString => false
     | String _ s' => contains needle s'
     end.

(** The number of spaces of a string; [s.split(" ")] has one more piece. *)
Fixpoint count_spaces (s : string) : nat :=
  match s with
  | EmptyString => 0
  | String c s' => (if Ascii.eqb c space then 1 else 0) + count_spaces s'
  end.

(** [l[lo:hi]] with Python's treatment of negative and out-of-range
    bounds. *)
Definition clamp_index (n i : Z) : Z :=
  let i' := if (i <? 0)%Z then (i + n)%Z else i in
  Z.max 0 (Z.min n i').

Definition py_slice {A} (l : list A) (lo hi : Z) : list A :=
  let n := Z.of_nat (length l) in
  let lo' := clamp_index n lo in
  let hi' := clamp_index n hi in
  firstn (Z.to_nat (hi' - lo')) (skipn (Z.to_nat lo') l).

(** Python's floats are IEEE 754 binary64 numbers, computed with
    rounding to nearest, ties to even.  A float object is written
    [VFloat q] for the binary64 number nearest to the rational [q], as
    the literal or the JSON number that spells [q] is read. *)
Definition prec : Z := 53.
Definition emax : Z := 1024.

(** [float(z)] of an int, as [int * float] converts it. *)
Definition float_of_Z (z : Z) : result spec_float :=
  match binary_normalize prec emax z 0 false with
  | S754_infinity _ => Raise OverflowError
  | f => Ok f
  end.

Definition float_of_Q (q : Q) : spec_float :=
  SFdiv prec emax (binary_normalize prec emax (Qnum q) 0 false)
                  (binary_normalize prec emax (Zpos (Qden q)) 0 false).

(** [int(x)] of a float: truncation toward zero. *)
Definition int_of_float (x : spec_float) : result Z :=
  match x with
  | S754_zero _ => Ok 0%Z
  | S754_finite s m e =>
      let v := if (0 <=? e)%Z then (Zpos m * 2 ^ e)%Z
               else (Zpos m / 2 ^ (- e))%Z in
      Ok (if s then (- v)%Z else v)
  | S754_infinity _ => Raise OverflowError
  | S754_nan => Raise ValueError
  end.

(** [int(n * x)] for an int [n] and a float [x]. *)
Definition int_of_product (n : Z) (x : Q) : result Z :=
  rbind (float_of_Z n) (fun n =>
  int_of_float (SFmul prec emax n (float_of_Q x))).

End Py.
Import Py.

(* ================================================================== *)
(** * Collaborators *)
(* ================================================================== *)

(** The calls the backend makes on the Elasticsearch client
    ([client_sync.index], [client_sync.get], [client_sync.update]). *)
Inductive es_call : Type :=
| Index (index : string) (document : dict)
| Get (index id : string) (source : list string)
| Update (index id : string) (doc : dict).

(** What the executor is constructed with and what it imports: the
    document store's transport, the embedding provider, the text
    extractor, the semantic splitter, numpy's mean, [json] and the clock.
    None of them is specified by the backend; each is a parameter of the
    model. *)
Class Collaborators : Type := {
  (** [json.dumps(_, ensure_ascii=False)] and [json.loads] *)
  json_dumps : value -> string;
  json_loads : string -> result value;
  (** [str(_)] of an object that is not a string, None or a bool *)
  py_repr : value -> string;
  (** [str(e)] of an exception whose text the interpreter, numpy or the
      Elasticsearch client composes from the operands at hand *)
  exn_text : exn -> string;
  (** [naive_text_extraction.start(file_instance, doc_title, doc_type)] *)
  text_extraction_start : value -> value -> value -> result value;
  (** [semantic_chunking.start(retrieved_text)] after
      [set_instance_variable(info)] *)
  semantic_chunking_start : value -> value -> result (list value);
  (** [model.embedding(model_name, text_list)] *)
  embedding : value -> list value -> result (list value);
  (** [np.mean(_, axis=0)] *)
  np_mean : list value -> value;
  (** whether the transport fails on a call, given the calls completed
      so far *)
  es_fault : list es_call -> es_call -> bool;
  (** the [_id] Elasticsearch gives the n-th document it indexes *)
  es_new_id : nat -> string;
  (** [datetime.isoformat()] of the n-th clock reading *)
  isoformat : nat -> string
}.

(* ================================================================== *)
(** * [backend/config.py] *)
(* ================================================================== *)

Module cfg.

Definition max_queue_length : nat := 50.
Definition batch_size_base : Z := 8.

(** One entry of [embedding_models_info]; both configured models carry
    the same values. *)
Definition bge_m3_info : dict :=
  [ ("dimension", VInt 1024);
    ("sequence_length", VInt 8192);
    ("recommended_batch_size", VInt 12);
    ("original_model", VStr "BAAI/bge-m3") ].

Definition embedding_models_info : dict :=
  [ ("embedding/BAAI/bge-m3", VDict bge_m3_info);
    ("text-embedding-ada-002", VDict bge_m3_info) ].

Definition chunking_methods : dict :=
  [ ("naive_sentence_chunking",
      VDict [("chunk_size", VInt 512); ("overlap", VFloat (2 # 10))]);
    ("naive_word_chunking",
      VDict [("chunk_size", VInt 512); ("overlap", VFloat (2 # 10))]);
    ("semantic_chunking", VDict []) ].

End cfg.

(* ================================================================== *)
(** * [backend/utils/_chunking.py] *)
(* ================================================================== *)

Module Chunking.

Section Chunking.

Context {C : Collaborators}.

Definition set_template : dict :=
  [ ("document_title", VNone);
    ("document_type", VNone);
    ("content_index", VNone);
    ("content", VNone);
    ("content_index_type", VNone) ].

(** [len(s.split(" "))] *)
Definition words (s : string) : Z := Z.of_nat (length (split_space s)).

(** ** [naive_sentence_chunking] *)

(** The body of [for sentence in sentences] in
    [naive_sentence_chunking.start]: the texts flushed while the loop runs
    (each already [.strip()]ped, as stored under ["text"]), and the value
    of [chunked_text] when the loop ends. *)
Fixpoint sentence_loop (chunk_size : Z) (sentences : list string)
         (chunked_text : string) : list string * string :=
  match sentences with
  | [] => ([], chunked_text)
  | sentence :: rest =>
      let tokens_in_sentence := split_space sentence in
      if (words chunked_text + Z.of_nat (length tokens_in_sentence)
          <? chunk_size)%Z
      then sentence_loop chunk_size rest (chunked_text ++ sentence ++ " ")
      else
        let flushed := strip chunked_text in
        let (more, final) := sentence_loop chunk_size rest sentence in
        (flushed :: more, final)
  end.

(** The chunk texts one content unit contributes: the flushes of the loop
    and the final [chunked_text.strip()] after it. *)
Definition sentence_chunks (chunk_size : Z) (text : string) : list string :=
  let sentences := re_split_sentences text in
  let (flushed, final) := sentence_loop chunk_size sentences "" in
  flushed ++ [strip final].

(** Ghost view of the same loop: for every chunk, flushed or final, the
    sentences that went into it and the unstripped [chunked_text] it was
    cut from.  [group] holds the sentences accumulated in [chunked_text]
    so far. *)
Fixpoint sentence_trace (chunk_size : Z) (sentences : list string)
         (chunked_text : string) (group : list string)
  : list (list string * string) :=
  match sentences with
  | [] => [(group, chunked_text)]
  | sentence :: rest =>
      if (words chunked_text + words sentence <? chunk_size)%Z
      then sentence_trace chunk_size rest
                          (chunked_text ++ sentence ++ " ") (group ++ [sentence])
      else (group, chunked_text)
             :: sentence_trace chunk_size rest sentence [sentence]
  end.

(** [chunked_text] after the sentences of [group] have been appended to
    [start], each followed by a space. *)
Definition glue (start : string) (group : list string) : string :=
  fold_left (fun acc sentence => acc ++ sentence ++ " ")%string group start.

(** What a chunk of the ghost trace looks like: either it continues the buffer
    the loop was entered with, or it was restarted on a sentence; and it
    holds fewer than [chunk_size] words as soon as a sentence was appended
    to it. *)
Definition continues (chunk_size : Z) (chunked_text : string)
           (group : list string) (gb : list string * string) : Prop :=
  exists added,
    fst gb = group ++ added
    /\ snd gb = glue chunked_text added
    /\ (added = [] \/ (words (snd gb) < chunk_size)%Z).

Definition restarted (chunk_size : Z) (gb : list string * string) : Prop :=
  exists sentence added,
    fst gb = sentence :: added
    /\ snd gb = glue sentence added
    /\ (added = [] \/ (words (snd gb) < chunk_size)%Z).

(** Every flush but the last happened because the next sentence did not
    fit: its words added to those counted in [chunked_text] reach
    [chunk_size]. *)
Fixpoint flushed_when_full (chunk_size : Z)
         (trace : list (list string * string)) : Prop :=
  match trace with
  | (_, chunked_text) :: (((sentence :: _, _) :: _) as rest) =>
      (chunk_size <= words chunked_text + words sentence)%Z
      /\ flushed_when_full chunk_size rest
  | _ :: ((([], _) :: _)) => False
  | _ => True
  end.

(** ["text" not in content] followed by [content["text"]], for whatever
    object a unit holds: a dict is looked up; a string is searched for
    the substring and a list for the element, and neither can then be
    indexed by a string; anything else is not a container. *)
Definition unit_text (content : value) : result (option value) :=
  match content with
  | VDict d => Ok (dict_get d "text")
  | VStr s =>
      if contains "text" s then Raise TypeError else Ok None
  | VList l =>
      if existsb (fun v => eq_str v "text") l then Raise TypeError
      else Ok None
  | _ => Raise TypeError
  end.

(** The body of [for idx, content in retrieved_text["contents"].items()]:
    the records appended for the units of [contents], each serialised at
    the moment it is appended.  [template] is the one dict mutated
    throughout. *)
Fixpoint sentence_units (chunk_size : Z) (template : dict)
         (contents : dict) : result (list string) :=
  match contents with
  | [] => Ok []
  | (idx, content) :: rest =>
      rbind (unit_text content) (fun t =>
      match t with
      | None => sentence_units chunk_size template rest
      | Some (VStr text) =>
          let template := dict_set template "content" (VDict []) in
          let template := dict_set template "content_index" (VStr idx) in
          let chunks := sentence_chunks chunk_size text in
          let records :=
            map (fun chunk =>
                   json_dumps
                     (VDict (dict_set template "content"
                                      (VDict [("text", VStr chunk)]))))
                chunks in
          let template :=
            dict_set template "content"
                     (VDict [("text", VStr (last chunks ""))]) in
          rbind (sentence_units chunk_size template rest) (fun more =>
          Ok (records ++ more))
      | Some _ => Raise TypeError
      end)
  end.

(** [naive_sentence_chunking.start(retrieved_text)] with the instance's
    [chunk_size]. *)
Definition naive_sentence_chunking_start (chunk_size : Z)
           (retrieved_text : value) : result (list string) :=
  let template := set_template in
  rbind (getitem retrieved_text "document_title") (fun title =>
  let template := dict_set template "document_title" title in
  rbind (getitem retrieved_text "document_type") (fun type =>
  let template := dict_set template "document_type" type in
  rbind (getitem retrieved_text "contents_index_type") (fun index_type =>
  let template := dict_set template "content_index_type" index_type in
  rbind (getitem retrieved_text "contents") (fun contents =>
  match contents with
  | VDict units => sentence_units chunk_size template units
  | _ => Raise AttributeError
  end)))).

(** The record appended for one chunk, before it is serialised, and the
    unit the text extraction stores for a page. *)
Definition chunk_record (title type : value) (idx chunk : string)
           (index_type : value) : value :=
  VDict [ ("document_title", title);
          ("document_type", type);
          ("content_index", VStr idx);
          ("content", VDict [("text", VStr chunk)]);
          ("content_index_type", index_type) ].

Definition page_unit (page : string * string) : string * value :=
  (fst page, VDict [("text", VStr (snd page))]).

(** [naive_sentence_chunking.check] *)
Definition naive_sentence_chunking_check (chunk_size : Z) : bool :=
  if (chunk_size <? 1)%Z then false else true.

(** ** [naive_word_chunking] *)

(** [np.arange(0, stop, step)] on integers: [ceil(stop / step)] values;
    none when the step points away from [stop]; a zero step divides by
    zero. *)
Definition np_arange (stop step : Z) : result (list Z) :=
  if (step =? 0)%Z then Raise ZeroDivisionError
  else if (step <? 0)%Z then Ok []
  else
    let n := Z.to_nat ((stop + step - 1) / step) in
    Ok (map (fun k => (Z.of_nat k * step)%Z) (seq 0 n)).

(** [for content in retrieved_text] *)
Definition iterate (o : value) : result (list value) :=
  match o with
  | VList l => Ok l
  | VDict d => Ok (map (fun kv => VStr (fst kv)) d)
  | VStr s => Ok (map (fun c => VStr (String c EmptyString))
                      (list_ascii_of_string s))
  | _ => Raise TypeError
  end.

(** The windows computed for one unit: the value bound to the local
    [chunked_text]. *)
Definition word_windows (chunk_size : Z) (overlap : Q) (content : string)
  : result (list string) :=
  let tokens := split_space content in
  rbind (int_of_product chunk_size overlap) (fun overlap =>
  rbind (np_arange (Z.of_nat (length tokens)) (chunk_size - overlap))
        (fun indices =>
  Ok (map (fun i => join " " (py_slice tokens i (i + chunk_size)))
          indices))).

(** The body of [for content in retrieved_text]; its result is the last
    value of the local [chunked_text], which nothing reads. *)
Fixpoint word_loop (chunk_size : Z) (overlap : Q) (contents : list value)
         (chunked_text : list string) : result (list string) :=
  match contents with
  | [] => Ok chunked_text
  | VStr content :: rest =>
      rbind (word_windows chunk_size overlap content) (fun chunked_text =>
      word_loop chunk_size overlap rest chunked_text)
  | _ :: _ => Raise AttributeError
  end.

(** [naive_word_chunking.start(retrieved_text)]: [chunked_texts] is
    created empty, never appended to, and returned. *)
Definition naive_word_chunking_start (chunk_size : Z) (overlap : Q)
           (retrieved_text : value) : result (list string) :=
  let chunked_texts := [] in
  rbind (iterate retrieved_text) (fun contents =>
  rbind (word_loop chunk_size overlap contents []) (fun _ =>
  Ok chunked_texts)).

(** [naive_word_chunking.check] *)
Definition naive_word_chunking_check (chunk_size : Z) (overlap : Q) : bool :=
  if (chunk_size <? 1)%Z then false
  else if Qlt_le_dec overlap 0 then false
  else if Qlt_le_dec overlap 1 then true
  else false.

End Chunking.

End Chunking.

(* ================================================================== *)
(** * [collections.deque(maxlen=...)] *)
(* ================================================================== *)

Module Deque.

(** [q.append(x)] on a deque bounded by [maxlen]: once the deque is full,
    an item is discarded from the opposite end for each item added. *)
Definition append {A} (maxlen : nat) (q : list A) (x : A) : list A :=
  let q' := q ++ [x] in
  if (maxlen <? length q')%nat then tl q' else q'.

(** The newest [n] items of a list. *)
Definition keep_last {A} (n : nat) (l : list A) : list A :=
  skipn (length l - n) l.

(** [q.popleft()] *)
Definition popleft {A} (q : list A) : option (A * list A) :=
  match q with
  | [] => None
  | x :: q' => Some (x, q')
  end.

End Deque.

(* ================================================================== *)
(** * The objects the worker owns, and the monad of its methods *)
(* ================================================================== *)

Module Runtime.

Inductive log_level : Type := INFO | EXCEPTION.

(** One logger call: its level, the place it is made from, and the
    exception its message formats, if any. *)
Record log_entry : Type := Log {
  level : log_level;
  site : string;
  caught : option exn
}.

(** The document store behind the client: the stored documents by index
    name and id, the client calls completed so far (ghost), and how many
    documents have been indexed. *)
Record store : Type := Store {
  docs : list ((string * string) * dict);
  calls : list es_call;
  indexed : nat
}.

(** The [execute] instance ([info], [output], [current_step]), the
    attributes of the [naive_sentence_chunking] instance it drives, the
    store, the clock and the log.  [steps] is ghost: every value assigned
    to [current_step], in order. *)
Record World : Type := mkWorld {
  info : value;
  output : value;
  current_step : string;
  chunk_size : Z;
  overlap : value;
  es : store;
  clock : nat;
  log : list log_entry;
  steps : list string
}.

Definition M (A : Type) : Type := World -> result A * World.

Definition ret {A} (a : A) : M A := fun w => (Ok a, w).

Definition bind {A B} (m : M A) (k : A -> M B) : M B :=
  fun w =>
    match m w with
    | (Ok a, w') => k a w'
    | (Raise e, w') => (Raise e, w')
    end.

Definition lift {A} (r : result A) : M A := fun w => (r, w).

(** [try: m  except Exception as e: handler e] *)
Definition try_except {A} (m : M A) (handler : exn -> M A) : M A :=
  fun w =>
    match m w with
    | (Ok a, w') => (Ok a, w')
    | (Raise e, w') => handler e w'
    end.

Declare Scope py_scope.
Delimit Scope py_scope with py.
Notation "x <- m ;; k" := (bind m (fun x => k))
  (at level 61, m at next level, right associativity) : py_scope.
Notation "m ;; k" := (bind m (fun _ => k))
  (at level 61, right associativity) : py_scope.

Definition get_info : M value := fun w => (Ok (info w), w).
Definition get_output : M value := fun w => (Ok (output w), w).

Definition set_info (v : value) : M unit := fun w =>
  (Ok tt, mkWorld v (output w) (current_step w) (chunk_size w) (overlap w)
                  (es w) (clock w) (log w) (steps w)).

Definition set_output (v : value) : M unit := fun w =>
  (Ok tt, mkWorld (info w) v (current_step w) (chunk_size w) (overlap w)
                  (es w) (clock w) (log w) (steps w)).

(** [self.current_step = s] *)
Definition set_current_step (s : string) : M unit := fun w =>
  (Ok tt, mkWorld (info w) (output w) s (chunk_size w) (overlap w)
                  (es w) (clock w) (log w) (steps w ++ [s])).

Definition set_chunk_size (size : Z) : M unit := fun w =>
  (Ok tt, mkWorld (info w) (output w) (current_step w) size (overlap w)
                  (es w) (clock w) (log w) (steps w)).

Definition set_overlap (ov : value) : M unit := fun w =>
  (Ok tt, mkWorld (info w) (output w) (current_step w) (chunk_size w) ov
                  (es w) (clock w) (log w) (steps w)).

Definition get_chunk_size : M Z := fun w => (Ok (chunk_size w), w).

Definition set_es (s : store) (w : World) : World :=
  mkWorld (info w) (output w) (current_step w) (chunk_size w) (overlap w)
          s (clock w) (log w) (steps w).

Definition logger (l : log_level) (where_ : string) (e : option exn)
  : M unit := fun w =>
  (Ok tt, mkWorld (info w) (output w) (current_step w) (chunk_size w)
                  (overlap w) (es w) (clock w)
                  (log w ++ [Log l where_ e]) (steps w)).

(** A method [m] respects a relation between worlds when the world it
    leaves is related to the world it started in, whether it returns or
    raises. *)
Definition respects {A} (R : World -> World -> Prop) (m : M A) : Prop :=
  forall w r w', m w = (r, w') -> R w w'.

(** A relation on worlds read off one of their components. *)
Definition via {T} (proj : World -> T) (Q : T -> T -> Prop)
  : World -> World -> Prop :=
  fun w w' => Q (proj w) (proj w').

(** The component is left as it was. *)
Definition keeps {T} (proj : World -> T) : World -> World -> Prop :=
  via proj (fun a b => b = a).

Section Clock.
Context {C : Collaborators}.

(** [datetime.now().isoformat()]: every reading is later than the one
    before. *)
Definition datetime_now : M value := fun w =>
  (Ok (VStr (isoformat (clock w))),
   mkWorld (info w) (output w) (current_step w) (chunk_size w) (overlap w)
           (es w) (S (clock w)) (log w) (steps w)).

(** [str(v)], as an f-string formats a placeholder. *)
Definition py_str (v : value) : string :=
  match v with
  | VStr s => s
  | VNone => "None"
  | VBool true => "True"
  | VBool false => "False"
  | _ => py_repr v
  end.

End Clock.

(** An index name or a document id handed to the client; the jobs the
    frontend builds carry strings, and the model lets the client refuse
    anything else. *)
Definition as_str (v : value) : result string :=
  match v with
  | VStr s => Ok s
  | _ => Raise TypeError
  end.

End Runtime.
Import Runtime.
Local Open Scope py_scope.

(* ================================================================== *)
(** * [backend/utils/_elastic_search.py] *)
(* ================================================================== *)

Module ElasticSearch.

(** A call that creates a document. *)
Definition is_index (c : es_call) : bool :=
  match c with
  | Index _ _ => true
  | _ => false
  end.

(** The calls completed have grown, by calls that create no document. *)
Definition no_new_index (before after : list es_call) : Prop :=
  exists added,
    after = before ++ added /\ Forall (fun c => is_index c = false) added.

Section ElasticSearch.

Context {C : Collaborators}.

Definition same_doc (index id : string) (key : string * string) : bool :=
  String.eqb (fst key) index && String.eqb (snd key) id.

Fixpoint find_doc (ds : list ((string * string) * dict))
         (index id : string) : option dict :=
  match ds with
  | [] => None
  | (key, d) :: ds' =>
      if same_doc index id key then Some d else find_doc ds' index id
  end.

Fixpoint put_doc (ds : list ((string * string) * dict))
         (index id : string) (d : dict) : list ((string * string) * dict) :=
  match ds with
  | [] => [((index, id), d)]
  | (key, d') :: ds' =>
      if same_doc index id key then (key, d) :: ds'
      else (key, d') :: put_doc ds' index id d
  end.

(** The fields of a partial document written over a stored one. *)
Definition merge_doc (stored partial : dict) : dict :=
  fold_right (fun kv acc => dict_set acc (fst kv) (snd kv)) stored partial.

(** [_source=fields]: the stored fields that are asked for. *)
Definition source_filter (fields : list string) (d : dict) : dict :=
  filter (fun kv => existsb (String.eqb (fst kv)) fields) d.

(** [client_sync.index(index=..., document=...)] *)
Definition client_index (index : string) (document : dict) : M value :=
  fun w =>
    let s := es w in
    let c := Index index document in
    if es_fault (calls s) c then (Raise TransportError, w)
    else
      let id := es_new_id (indexed s) in
      (Ok (VDict [("_index", VStr index); ("_id", VStr id);
                  ("result", VStr "created")]),
       set_es (Store (put_doc (docs s) index id document)
                     (calls s ++ [c]) (S (indexed s))) w).

(** [client_sync.get(index=..., id=..., _source=...)] *)
Definition client_get (index id : string) (source : list string) : M value :=
  fun w =>
    let s := es w in
    let c := Get index id source in
    if es_fault (calls s) c then (Raise TransportError, w)
    else
      match find_doc (docs s) index id with
      | None => (Raise (NotFoundError index id), w)
      | Some d =>
          (Ok (VDict [("_index", VStr index); ("_id", VStr id);
                      ("found", VBool true);
                      ("_source", VDict (source_filter source d))]),
           set_es (Store (docs s) (calls s ++ [c]) (indexed s)) w)
      end.

(** [client_sync.update(index=..., id=..., body={"doc": ...})] *)
Definition client_update (index id : string) (doc : dict) : M value :=
  fun w =>
    let s := es w in
    let c := Update index id doc in
    if es_fault (calls s) c then (Raise TransportError, w)
    else
      match find_doc (docs s) index id with
      | None => (Raise (NotFoundError index id), w)
      | Some d =>
          (Ok (VDict [("_index", VStr index); ("_id", VStr id);
                      ("result", VStr "updated")]),
           set_es (Store (put_doc (docs s) index id (merge_doc d doc))
                         (calls s ++ [c]) (indexed s)) w)
      end.

Definition as_dict (v : value) : result dict :=
  match v with
  | VDict d => Ok d
  | _ => Raise TypeError
  end.

(** [post_add_data(index_name, properties)] *)
Definition post_add_data (index_name properties : value) : M value :=
  response <-
    try_except
      (index <- lift (as_str index_name) ;;
       document <- lift (as_dict properties) ;;
       client_index index document)
      (fun e =>
         logger EXCEPTION "post_add_data" (Some e) ;;
         lift (Raise e)) ;;
  ret (VDict [("status", VStr "success"); ("response", response)]).

(** [get_data_match_id(index_name, _id, target_fields)] *)
Definition get_data_match_id (index_name _id : value)
           (target_fields : list string) : M value :=
  index <- lift (as_str index_name) ;;
  id <- lift (as_str _id) ;;
  res <- client_get index id target_fields ;;
  lift (getitem res "_source").

(** [x + 1] as [+=] computes it. *)
Definition add_one (v : value) : result value :=
  match v with
  | VInt z => Ok (VInt (z + 1))
  | VBool b => Ok (VInt ((if b then 1 else 0) + 1))
  | VFloat q => Ok (VFloat (q + 1)%Q)
  | _ => Raise TypeError
  end.

(** [l.append(x)] *)
Definition list_append (l x : value) : result value :=
  match l with
  | VList xs => Ok (VList (xs ++ [x]))
  | _ => Raise AttributeError
  end.

(** [post_modify_data(modify_index_type, modify_index_name,
    target_data_id, fields, data_added_index_type, data_added_index_name,
    data_added_index_id, data_added_data_id)] *)
Definition post_modify_data (modify_index_type : string)
           (modify_index_name : string) (target_data_id : value)
           (fields : list string)
           (data_added_index_type data_added_index_name
            data_added_index_id data_added_data_id : value) : M unit :=
  (* retrieve the field to be modified *)
  id <- lift (as_str target_data_id) ;;
  res <- client_get modify_index_name id fields ;;
  fields <- lift (getitem res "_source") ;;
  (* modify the field *)
  fields <-
    (if String.eqb modify_index_type "metadata" then
       now <- datetime_now ;;
       fields <- lift (setitem fields "latest_update" now) ;;
       n <- lift (getitem fields "number_of_data") ;;
       n' <- lift (add_one n) ;;
       lift (setitem fields "number_of_data" n')
     else if String.eqb modify_index_type "full_text" then
       let t := py_str data_added_index_type in
       let key := ("child_" ++ t ++ "_indexes")%string in
       children <- lift (getitem fields key) ;;
       children' <-
         lift (list_append children
                 (VDict [(("index_name_" ++ t)%string, data_added_index_name);
                         (("index_id_" ++ t)%string, data_added_index_id);
                         (("data_id_" ++ t)%string, data_added_data_id)])) ;;
       lift (setitem fields key children')
     else ret fields) ;;
  (* update the field *)
  doc <- lift (as_dict fields) ;;
  client_update modify_index_name id doc ;;
  ret tt.

End ElasticSearch.

End ElasticSearch.

(* ================================================================== *)
(** * [backend/utils/_execute_job.py] *)
(* ================================================================== *)

Module Execute.

(** The values the specification lists for [current_step], and the
    values the executor assigns to it. *)
Definition documented_steps : list string :=
  ["idle"; "extract_text"; "modify_properties"; "add_to_es";
   "retrieve_text"; "chunk_text"; "embed_text"].

Definition assigned_steps : list string :=
  documented_steps ++ ["modify_data"].

(** The ghost trace and the current step, read together. *)
Definition trace_of (w : World) : list string * string :=
  (steps w, current_step w).

(** The steps assigned between two worlds are all known, and the current
    step is the last one assigned. *)
Definition assigns_known (a b : list string * string) : Prop :=
  exists assigned,
    fst b = fst a ++ assigned
    /\ Forall (fun s => In s assigned_steps) assigned
    /\ snd b = last assigned (snd a).

(** [k in o] for an object that can be indexed by [k]. *)
Definition has_key (o : value) (k : string) : bool := is_ok (getitem o k).

(** How the settings of a job change while it runs: only what is stored
    under ["properties"] is ever assigned. *)
Definition evolves (a b : value) : Prop :=
  a = b
  \/ exists d d',
      a = VDict d /\ b = VDict d'
      /\ forall k, k <> "properties" -> dict_get d' k = dict_get d k.

Section Execute.

Context {C : Collaborators}.

(** [o["properties"][k]] *)
Definition property (o : value) (k : string) : result value :=
  rbind (getitem o "properties") (fun p => getitem p k).

(** [cfg.embedding_models_info[model]] *)
Definition model_info (embedding_model : value) : result value :=
  match embedding_model with
  | VStr m => getitem (VDict cfg.embedding_models_info) m
  | VList _ | VDict _ => Raise TypeError
  | v => Raise (KeyError (py_str v))
  end.

(** [self.info["properties"][k] = v] *)
Definition set_property (k : string) (v : value) : M unit :=
  info <- get_info ;;
  info <- lift (setitem2 info "properties" k v) ;;
  set_info info.

Definition modify_data (modify_index_name : string)
           (data_added_index_name : value) : M unit :=
  set_current_step "modify_data" ;;
  if String.prefix "metadata" modify_index_name then
    (* modify metadata index *)
    let modify_index_type := "metadata" in
    info <- get_info ;;
    target_data_id <- lift (getitem info "metadata_index_modify_id") ;;
    let fields := ["latest_update"; "number_of_data"] in
    ElasticSearch.post_modify_data
      modify_index_type modify_index_name target_data_id fields
      VNone VNone VNone VNone
  else ret tt.

Definition extract_text (text_file : value) : M unit :=
  set_current_step "extract_text" ;;
  info <- get_info ;;
  doc_title <- lift (property info "title") ;;
  doc_type <- lift (property info "source_type") ;;
  extracted <- lift (text_extraction_start text_file doc_title doc_type) ;;
  set_output extracted ;;
  set_output (VStr (json_dumps extracted)).

Definition modify_properties : M unit :=
  set_current_step "modify_properties" ;;
  (* modify(add) properties which imcomplete sent from frontend *)
  now <- datetime_now ;;
  set_property "added_date" now ;;
  info <- get_info ;;
  t <- lift (getitem info "target_index_type") ;;
  if eq_str t "full_text" then
    target_index <- lift (getitem info "index_name_full_text") ;;
    ret tt
  else if eq_str t "full_vector" then
    target_index <- lift (getitem info "index_name_full_vector") ;;
    out <- get_output ;;
    set_property "vector" out
  else if eq_str t "chunked_pairs" then
    target_index <- lift (getitem info "index_name_chunked_pairs") ;;
    out <- get_output ;;
    set_property "chunked_text_vector_pairs" out
  else ret tt.

(** The write of [add_to_es] for a target type whose index is named by
    [index_key] and whose payload goes under [field]; the branches of
    [full_vector] and [chunked_pairs] also keep the new document's id. *)
Definition write_target (field index_key : string) (keep_id : bool)
  : M unit :=
  out <- get_output ;;
  set_property field out ;;
  info <- get_info ;;
  index_name <- lift (getitem info index_key) ;;
  properties <- lift (getitem info "properties") ;;
  res <- ElasticSearch.post_add_data index_name properties ;;
  if keep_id then
    response <- lift (getitem res "response") ;;
    id <- lift (getitem response "_id") ;;
    set_property "id" id
  else ret tt.

(** The [if]/[elif] chain of [add_to_es]: the write to the index of the
    job's target type. *)
Definition write_for (t : value) : M unit :=
  if eq_str t "full_text" then
    write_target "text" "index_name_full_text" false
  else if eq_str t "full_vector" then
    write_target "vector" "index_name_full_vector" true
  else if eq_str t "chunked_pairs" then
    write_target "chunked_text_vector_pairs" "index_name_chunked_pairs" true
  else ret tt.

(** The three target types with the property the payload is stored
    under, the key of the settings that names the target index, and
    whether the new document's id is kept. *)
Definition targets : list (string * (string * string * bool)) :=
  [ ("full_text", ("text", "index_name_full_text", false));
    ("full_vector", ("vector", "index_name_full_vector", true));
    ("chunked_pairs",
      ("chunked_text_vector_pairs", "index_name_chunked_pairs", true)) ].

Definition metadata_failure : string := "Error in add_to_es() in metadata".

(** The [try]/[except] that ends [add_to_es]: the update of the metadata
    record, whose failure is logged and goes no further. *)
Definition update_metadata : M unit :=
  try_except
    (info <- get_info ;;
     t <- lift (getitem info "target_index_type") ;;
     data_added_index_name <- lift (getitem info "index_name_full_vector") ;;
     modify_data ("metadata_" ++ py_str t)%string data_added_index_name)
    (fun e => logger EXCEPTION metadata_failure (Some e)).

Definition add_to_es : M unit :=
  set_current_step "add_to_es" ;;
  info <- get_info ;;
  t <- lift (getitem info "target_index_type") ;;
  write_for t ;;
  update_metadata.

Definition retrieve_text : M unit :=
  set_current_step "retrieve_text" ;;
  info <- get_info ;;
  index_name <- lift (property info "original_full_text_index_name") ;;
  _id <- lift (property info "original_full_text_data_id") ;;
  retrieved_full_text_in_str <-
    ElasticSearch.get_data_match_id index_name _id ["text"] ;;
  text <- lift (getitem retrieved_full_text_in_str "text") ;;
  set_output text ;;
  parsed <- lift (rbind (as_str text) json_loads) ;;
  set_output parsed.

(** The batch size [embed_text] settles on: the registry's
    [recommended_batch_size] when the model is known and has one,
    [cfg.batch_size_base] otherwise. *)
Definition batch_size_of (embedding_model : value) : result Z :=
  match embedding_model with
  | VStr m =>
      match dict_get cfg.embedding_models_info m with
      | Some (VDict minfo) =>
          match dict_get minfo "recommended_batch_size" with
          | Some (VInt b) => Ok b
          | Some _ => Raise TypeError
          | None => Ok cfg.batch_size_base
          end
      | Some _ => Raise TypeError
      | None => Ok cfg.batch_size_base
      end
  | VList _ | VDict _ => Raise TypeError
  | _ => Ok cfg.batch_size_base
  end.

(** [range(0, stop, step)] *)
Definition py_range (stop step : Z) : result (list Z) :=
  if (step =? 0)%Z then Raise ValueError
  else if (step <? 0)%Z then Ok []
  else
    let n := Z.to_nat ((stop + step - 1) / step) in
    Ok (map (fun k => (Z.of_nat k * step)%Z) (seq 0 n)).

Definition pair_of (tv : value * value) : value :=
  VDict [("text", fst tv); ("vector", snd tv)].

(** What the loop of [embed_text] is to accumulate when the provider
    embeds a text as [v text]: for [full_vector] the vectors, for
    [chunked_pairs] the texts paired with their vectors, one per text and
    in the order of the texts. *)
Definition embed_each (v : value -> value) (T : string)
           (texts : list value) : list value :=
  if String.eqb T "full_vector" then map v texts
  else map (fun text => pair_of (text, v text)) texts.

(** The body of [for i in range(0, len(self.output), batch_size)], with
    [texts] the list held by [self.output] and [acc] the local [output]. *)
Fixpoint embed_loop (embedding_model : value) (texts : list value)
         (batch_size : Z) (indices : list Z) (acc : list value)
  : M (list value) :=
  match indices with
  | [] => ret acc
  | i :: rest =>
      let batch_text := py_slice texts i (i + batch_size) in
      batch_vector <- lift (embedding embedding_model batch_text) ;;
      info <- get_info ;;
      t <- lift (getitem info "target_index_type") ;;
      let acc :=
        if eq_str t "full_vector" then acc ++ batch_vector
        else if eq_str t "chunked_pairs" then
          acc ++ map pair_of (combine batch_text batch_vector)
        else acc in
      embed_loop embedding_model texts batch_size rest acc
  end.

(** The batching of [embed_text] for a given batch size. *)
Definition embed_batches (embedding_model : value) (texts : list value)
           (batch_size : Z) : M (list value) :=
  indices <- lift (py_range (Z.of_nat (length texts)) batch_size) ;;
  embed_loop embedding_model texts batch_size indices [].

(** [self.output] as the list [chunk_text] left there; [embed_text] is
    only reached after [chunk_text], which stores a list. *)
Definition as_list (v : value) : result (list value) :=
  match v with
  | VList l => Ok l
  | _ => Raise TypeError
  end.

Definition embed_text : M unit :=
  set_current_step "embed_text" ;;
  (* get settings for embedding *)
  info <- get_info ;;
  embedding_model <- lift (getitem info "embedding_model") ;;
  batch_size <- lift (batch_size_of embedding_model) ;;
  (* embed text *)
  out <- get_output ;;
  texts <- lift (as_list out) ;;
  acc <- embed_batches embedding_model texts batch_size ;;
  (* if target index type is full_vector, perform pooling *)
  info <- get_info ;;
  t <- lift (getitem info "target_index_type") ;;
  if eq_str t "full_vector" then set_output (np_mean acc)
  else set_output (VList acc).

(** [n // 4] *)
Definition floordiv4 (v : value) : result Z :=
  match v with
  | VInt z => Ok (z / 4)%Z
  | VBool b => Ok 0%Z
  | _ => Raise TypeError
  end.

Definition chunk_text : M unit :=
  set_current_step "chunk_text" ;;
  info <- get_info ;;
  t <- lift (getitem info "target_index_type") ;;
  if eq_str t "full_vector" then
    embedding_model <- lift (getitem info "embedding_model") ;;
    minfo <- lift (model_info embedding_model) ;;
    sequence_length <- lift (getitem minfo "sequence_length") ;;
    size <- lift (floordiv4 sequence_length) ;;
    set_chunk_size size ;;
    method <- lift (getitem (VDict cfg.chunking_methods)
                            "naive_sentence_chunking") ;;
    ov <- lift (getitem method "overlap") ;;
    set_overlap ov ;;
    out <- get_output ;;
    chunks <- lift (Chunking.naive_sentence_chunking_start size out) ;;
    set_output (VList (map VStr chunks))
  else if eq_str t "chunked_pairs" then
    _ <- lift (getitem info "embedding_model") ;;
    out <- get_output ;;
    chunks <- lift (semantic_chunking_start info out) ;;
    set_output (VList chunks)
  else ret tt.

Definition add_full_text (info text_file : value) : M unit :=
  (* extract text *)
  extract_text text_file ;;
  (* modify properties *)
  modify_properties ;;
  (* add to es *)
  add_to_es.

Definition add_full_vector (info : value) : M unit :=
  (* retrieve text *)
  retrieve_text ;;
  (* chunk text *)
  chunk_text ;;
  (* embed text *)
  embed_text ;;
  (* modify properties *)
  modify_properties ;;
  (* add to es *)
  add_to_es.

Definition add_chunked_pairs (info : value) : M unit :=
  retrieve_text ;;
  chunk_text ;;
  embed_text ;;
  modify_properties ;;
  add_to_es.

Definition start (info job_type text_file : value) : M value :=
  set_info info ;;
  (if eq_str job_type "full_text" then add_full_text info text_file
   else if eq_str job_type "full_vector" then add_full_vector info
   else if eq_str job_type "chunked_pairs" then add_chunked_pairs info
   else ret tt) ;;
  (* reset *)
  set_info VNone ;;
  set_output VNone ;;
  set_current_step "idle" ;;
  ret (VBool true).

(** The state [execute.__init__] leaves, around a given store. *)
Definition init (s : store) : World :=
  mkWorld VNone VNone "idle" 512 (VFloat (2 # 10)) s 0 [] [].

End Execute.

End Execute.

(* ================================================================== *)
(** * [backend/utils/_job_management.py] *)
(* ================================================================== *)

Module JobManagement.

(** The [_JobManagement] instance: the bounded deque and its [maxlen],
    [status], [current_job], [jobs_history], and the executor it owns.
    [processed] is ghost: every job handed to [start_job] with the result
    that came back. *)
Record JobManager : Type := mkManager {
  queue : list value;
  maxlen : nat;
  status : string;
  current_job : value;
  jobs_history : value;
  world : World;
  processed : list (value * value)
}.

Definition set_queue (q : list value) (m : JobManager) : JobManager :=
  mkManager q (maxlen m) (status m) (current_job m) (jobs_history m)
            (world m) (processed m).

Definition set_status (s : string) (m : JobManager) : JobManager :=
  mkManager (queue m) (maxlen m) s (current_job m) (jobs_history m)
            (world m) (processed m).

Definition set_current_job (j : value) (m : JobManager) : JobManager :=
  mkManager (queue m) (maxlen m) (status m) j (jobs_history m)
            (world m) (processed m).

Definition set_world (w : World) (m : JobManager) : JobManager :=
  mkManager (queue m) (maxlen m) (status m) (current_job m) (jobs_history m)
            w (processed m).

Definition record_processed (job result : value) (m : JobManager)
  : JobManager :=
  mkManager (queue m) (maxlen m) (status m) (current_job m) (jobs_history m)
            (world m) (processed m ++ [(job, result)]).

(** The locals of [start_job]; a name is bound once its assignment has
    run. *)
Record locals : Type := mkLocals {
  l_info : option value;
  l_text_file : option value;
  l_target_index_type : option value;
  l_title : option value
}.

(** Reading a local of [start_job]: a name whose assignment has not run
    raises UnboundLocalError. *)
Definition local (name : string) (o : option value) : result value :=
  match o with
  | Some v => Ok v
  | None => Raise (UnboundLocalError name)
  end.

Section JobManagement.

Context {C : Collaborators}.

(** [str(e)]: the key of a KeyError in quotes; the sentences CPython
    (3.11 and later) writes for a name that is not defined and for a
    local read before its assignment; the text of the collaborator for
    every other exception. *)
Definition str_exn (e : exn) : string :=
  match e with
  | KeyError k => ("'" ++ k ++ "'")%string
  | NameError n => ("name '" ++ n ++ "' is not defined")%string
  | UnboundLocalError n =>
      ("cannot access local variable '" ++ n
         ++ "' where it is not associated with a value")%string
  | e => exn_text e
  end.

(** [_JobManagement.__init__] around a given store. *)
Definition init (s : store) : JobManager :=
  mkManager [] cfg.max_queue_length "idle" (VDict [])
            (VDict [("success", VList []); ("failed", VList [])])
            (Execute.init s) [].

(** The first [try] block of [start_job]: the names it manages to bind,
    and the exception that stopped it, if any. *)
Definition job_info (current_job : value) : locals * option exn :=
  match getitem current_job "settings" with
  | Raise e => (mkLocals None None None None, Some e)
  | Ok info =>
      match getitem current_job "text_file" with
      | Raise e => (mkLocals (Some info) None None None, Some e)
      | Ok text_file =>
          match getitem info "target_index_type" with
          | Raise e =>
              (mkLocals (Some info) (Some text_file) None None, Some e)
          | Ok target_index_type =>
              match
                (if eq_str target_index_type "full_text"
                 then Execute.property info "title"
                 else Execute.property info "original_full_text_data_title")
              with
              | Raise e =>
                  (mkLocals (Some info) (Some text_file)
                            (Some target_index_type) None, Some e)
              | Ok _title =>
                  (mkLocals (Some info) (Some text_file)
                            (Some target_index_type) (Some _title), None)
              end
          end
      end
  end.

(** [start_job()], reading [self.current_job]. *)
Definition start_job (current_job : value) : M value :=
  let (ls, err) := job_info current_job in
  match err with
  | None => logger INFO "start_job() - file title" None
  | Some e => logger EXCEPTION "Error retrieving job info from start_job()"
                     (Some e)
  end ;;
  try_except
    (info <- lift (local "info" (l_info ls)) ;;
     target_index_type <-
       lift (local "target_index_type" (l_target_index_type ls)) ;;
     text_file <- lift (local "text_file" (l_text_file ls)) ;;
     result <- Execute.start info target_index_type text_file ;;
     _title <- lift (local "_title" (l_title ls)) ;;
     logger INFO "start_job() - Jobs done" None ;;
     ret result)
    (fun e =>
       logger EXCEPTION "Error in job manager start_job()" (Some e) ;;
       ret (VDict [("status", VBool false); ("message", VStr (str_exn e))])).

(** The [while self.queue:] loop of [start_jobs].  [None]: the fuel ran
    out; [Some (Raise e, _)]: an exception left the loop. *)
Fixpoint start_jobs_loop (fuel : nat) (m : JobManager)
  : option (result unit * JobManager) :=
  match Deque.popleft (queue m) with
  | None => Some (Ok tt, m)
  | Some (job, rest) =>
      match fuel with
      | O => None
      | S fuel' =>
          let m := set_current_job job (set_queue rest m) in
          match start_job (current_job m) (world m) with
          | (Raise e, w) => Some (Raise e, set_world w m)
          | (Ok result, w) =>
              let m := record_processed job result (set_world w m) in
              let m := set_current_job (VDict []) m in
              start_jobs_loop fuel' m
          end
      end
  end.

(** [start_jobs()] *)
Definition start_jobs (fuel : nat) (m : JobManager)
  : option (result unit * JobManager) :=
  match start_jobs_loop fuel m with
  | Some (Ok tt, m') => Some (Ok tt, set_status "idle" m')
  | other => other
  end.

(** [record_job_history(result)]: the history has the keys ["success"]
    and ["failed"], and [job] is not a name of this scope. *)
Definition record_job_history (m : JobManager) (result : value)
  : Py.result value * JobManager :=
  let key := if truthy result then "Success" else "Failed" in
  (rbind (getitem (jobs_history m) key) (fun _ =>
   Raise (NameError "job")), m).

(** [add_new_jobs(jobs)] *)
Definition add_new_jobs (jobs : list value) (m : JobManager) : JobManager :=
  set_queue (fold_left (Deque.append (maxlen m)) jobs (queue m)) m.

(** [get_status_summary()] *)
Definition get_status_summary (m : JobManager) : result value :=
  rbind
    (if truthy (current_job m) then
       rbind (getitem (current_job m) "settings") (fun settings =>
       rbind (getitem settings "target_index_type") (fun t =>
       rbind (if eq_str t "full_text"
              then Execute.property settings "title"
              else Execute.property settings "original_full_text_data_title")
             (fun _title =>
       Ok (_title, t, VStr (current_step (world m))))))
     else Ok (VNone, VNone, VNone))
    (fun '(_title, _type, _step) =>
  Ok (VDict
        [ ("Current Job info",
            VDict [("Title", _title); ("Type", _type); ("Step", _step)]);
          ("Queue info",
            VDict [("Length", VInt (Z.of_nat (length (queue m))))]) ])).

End JobManagement.

End JobManagement.

(* ================================================================== *)
(** * [backend/main.py]: the submission route *)
(* ================================================================== *)

Module Main.

Import JobManagement.

Section Main.

Context {C : Collaborators}.

Definition str_nat (n : nat) : string :=
  NilZero.string_of_uint (Nat.to_uint n).

(** The jobs built by [for setting, text_file in zip(settings,
    text_files)]. *)
Fixpoint build_jobs (pairs : list (string * value)) : result (list value) :=
  match pairs with
  | [] => Ok []
  | (setting, text_file) :: rest =>
      rbind (json_loads setting) (fun settings =>
      let job := VDict [("settings", settings); ("text_file", text_file)] in
      rbind (build_jobs rest) (fun jobs => Ok (job :: jobs)))
  end.

(** [zip(settings, text_files)], after an empty [text_files] has been
    replaced by one [None] per setting; the default [None] cannot be
    zipped. *)
Definition zip_files (settings : list string)
           (text_files : option (list value))
  : result (list (string * value)) :=
  match text_files with
  | None => Raise TypeError
  | Some [] => Ok (combine settings (map (fun _ => VNone) settings))
  | Some text_files => Ok (combine settings text_files)
  end.

(** [add_jobs(settings, text_files)]: the response, the manager after the
    call, and whether a [start_jobs()] task was created. *)
Definition add_jobs (settings : list string)
           (text_files : option (list value)) (m : JobManager)
  : result value * JobManager * bool :=
  match rbind (zip_files settings text_files) build_jobs with
  | Raise e => (Raise e, m, false)
  | Ok jobs =>
      let previous_queue_size := length (queue m) in
      let m := add_new_jobs jobs m in
      let spawn := String.eqb (status m) "idle" in
      let m := if spawn then set_status "busy" m else m in
      (Ok (VDict
             [ ("status", VStr "success");
               ("queue_size",
                 VStr (str_nat previous_queue_size ++ " -> "
                       ++ str_nat (length (queue m)))%string) ]),
       m, spawn)
  end.

End Main.

End Main.

(* ================================================================== *)
(** * [backend/utils/_text_extraction.py] *)
(* ================================================================== *)

Module TextExtraction.

(** [self.line_num_threshold] and [self.space_num_threshold] *)
Definition line_num_threshold : nat := 3.
Definition space_num_threshold : nat := 3.

(** [re.sub(c{n,}, c * n, text)] for a character [c] and [1 <= n]: every
    maximal run of [n] or more [c] is replaced by [n] of them, so the
    characters of a run are copied up to the [n]-th and left out from
    there on.  [run] counts the characters of the current run already
    read. *)
Fixpoint cap_runs (c : ascii) (n run : nat) (text : string) : string :=
  match text with
  | EmptyString => EmptyString
  | String x rest =>
      if Ascii.eqb x c then
        if (run <? n)%nat then String x (cap_runs c n (S run) rest)
        else cap_runs c n (S run) rest
      else String x (cap_runs c n 0 rest)
  end.

Definition remove_excessive_lines_and_spaces (text : string) : string :=
  (* Replace 3 or more consecutive newlines with 3 newlines *)
  let text := cap_runs newline line_num_threshold 0 text in
  (* Replace 3 or more consecutive spaces with 3 spaces *)
  cap_runs space space_num_threshold 0 text.

(** No run of [c] in [text] is longer than [n], where [text] continues a
    run of [run] characters. *)
Fixpoint run_bounded (c : ascii) (n run : nat) (text : string) : bool :=
  match text with
  | EmptyString => true
  | String x rest =>
      if Ascii.eqb x c then (S run <=? n)%nat && run_bounded c n (S run) rest
      else run_bounded c n 0 rest
  end.

(** [c] repeated [n] times. *)
Fixpoint run_of (c : ascii) (n : nat) : string :=
  match n with
  | O => EmptyString
  | S n' => String c (run_of c n')
  end.

(** The characters of a text that are neither newlines nor spaces. *)
Definition other_characters (text : string) : list ascii :=
  filter (fun x => negb (Ascii.eqb x newline || Ascii.eqb x space))
         (list_ascii_of_string text).

(** [s.lower()] on the code points below 256: the letters A to Z and
    the capital letters of Latin-1, which lie 32 below their small
    forms. *)
Definition lower_ascii (c : ascii) : ascii :=
  let n := nat_of_ascii c in
  if ((65 <=? n)%nat && (n <=? 90)%nat)
     || ((192 <=? n)%nat && (n <=? 222)%nat && negb (n =? 215)%nat)
  then ascii_of_nat (n + 32) else c.

Fixpoint lower (s : string) : string :=
  match s with
  | EmptyString => EmptyString
  | String c s' => String (lower_ascii c) (lower s')
  end.

(** [doc_type.lower()] *)
Definition lower_of (doc_type : value) : result string :=
  match doc_type with
  | VStr s => Ok (lower s)
  | _ => Raise AttributeError
  end.

(** An integer key of [contents], as [json.dumps] writes it and as the
    chunkers read it back. *)
Definition key (n : nat) : string := NilZero.string_of_uint (Nat.to_uint n).

(** What the readers of the three formats find in a file: the pages of
    [pdfplumber] with their [page_number] and [extract_text()]; the
    paragraph texts and the tables (rows of cell texts) of [python-docx];
    the slides of [python-pptx], each the list of its shapes, a shape
    with the runs of the paragraphs of its text frame, if it has one, and
    the rows of its table, if it is one, a cell holding the text of its
    text frame, if it has one. *)
Record pdf_page : Type := PdfPage {
  page_number : nat;
  extract_text : option string
}.

Record docx_document : Type := Docx {
  paragraphs : list string;
  tables : list (list (list string))
}.

Record shape : Type := Shape {
  text_frame : option (list (list string));
  table : option (list (list (option string)))
}.

Class Readers : Type := {
  (** [pdfplumber.open(file_instance).pages] *)
  read_pdf : value -> result (list pdf_page);
  (** [Document(file_instance)] *)
  read_docx : value -> result docx_document;
  (** [pptx.Presentation(file_instance).slides] *)
  read_pptx : value -> result (list (list shape))
}.

Section TextExtraction.

Context {R : Readers}.

(** The text stored for a page; a page with no text gets the empty
    string. *)
Definition page_text (page : pdf_page) : string :=
  match extract_text page with
  | Some text_blocks =>
      if negb (String.eqb text_blocks "")
      then remove_excessive_lines_and_spaces text_blocks
      else ""
  | None => ""
  end.

(** [for page in pdf.pages] *)
Fixpoint pdf_pages (pages : list pdf_page) (extracted_text : value)
  : result value :=
  match pages with
  | [] => Ok extracted_text
  | page :: rest =>
      let page_num := page_number page in
      rbind (setitem2 extracted_text "contents" (key page_num)
                      (VDict [("text", VStr (page_text page))]))
            (fun extracted_text => pdf_pages rest extracted_text)
  end.

Definition parse_pdf (file_instance extracted_text : value) : result value :=
  rbind (setitem extracted_text "contents_index_type" (VStr "page_number"))
        (fun extracted_text =>
  rbind (read_pdf file_instance) (fun pages =>
  pdf_pages pages extracted_text)).

(** [text in ["", " ", None]] *)
Definition blank (text : string) : bool :=
  String.eqb text "" || String.eqb text " ".

(** [for para in doc.paragraphs]: the value of [full_text] after the
    loop. *)
Definition docx_full_text (paragraphs : list string) : string :=
  fold_left (fun full_text text =>
               if blank text then full_text
               else (full_text ++ text ++ String newline "")%string)
            paragraphs "".

(** The rows joined by commas, the lines joined by newlines. *)
Definition csv_of (rows : list (list string)) : string :=
  join (String newline "") (map (join ",") rows).

(** [for table in doc.tables], with [cnt_table_idx] *)
Fixpoint docx_tables (tables : list (list (list string)))
         (cnt_table_idx : nat) (extracted_text : value) : result value :=
  match tables with
  | [] => Ok extracted_text
  | table :: rest =>
      let csv_table := csv_of (map (map strip) table) in
      rbind (getitem extracted_text "contents") (fun contents =>
      rbind (if Execute.has_key contents (key cnt_table_idx)
             then rbind (getitem contents (key cnt_table_idx)) (fun unit =>
                  setitem unit "table" (VStr csv_table))
             else Ok (VDict [("table", VStr csv_table)])) (fun unit =>
      rbind (setitem2 extracted_text "contents" (key cnt_table_idx) unit)
            (fun extracted_text =>
      docx_tables rest (S cnt_table_idx) extracted_text)))
  end.

Definition parse_docx (file_instance extracted_text : value) : result value :=
  rbind (read_docx file_instance) (fun doc =>
  rbind (setitem extracted_text "contents_index_type"
                 (VStr "whole_text_or_table_number")) (fun extracted_text =>
  let cnt_text_idx := 1 in
  let cnt_table_idx := 1 in
  let full_text := docx_full_text (paragraphs doc) in
  let full_text := remove_excessive_lines_and_spaces full_text in
  rbind (setitem2 extracted_text "contents" (key cnt_text_idx)
                  (VDict [("text", VStr full_text)])) (fun extracted_text =>
  docx_tables (tables doc) cnt_table_idx extracted_text))).

(** What one shape adds to [texts] and to [tables]. *)
Definition shape_texts (s : shape) : string :=
  match text_frame s with
  | Some paragraphs =>
      let text :=
        fold_left (fun text run => (text ++ run ++ String newline "")%string)
                  (concat paragraphs) "" in
      (text ++ String newline (String newline ""))%string
  | None => ""
  end.

Definition shape_tables (s : shape) : string :=
  match table s with
  | Some rows =>
      let cell_text cell :=
        match cell with Some text => text | None => "" end in
      (csv_of (map (map cell_text) rows)
         ++ String newline (String newline ""))%string
  | None => ""
  end.

(** [for shape in slide.shapes]: the values of [texts] and [tables]
    after the loop. *)
Definition slide_texts (shapes : list shape) : string :=
  fold_left (fun texts s => (texts ++ shape_texts s)%string) shapes "".

Definition slide_tables (shapes : list shape) : string :=
  fold_left (fun tables s => (tables ++ shape_tables s)%string) shapes "".

(** The unit stored for a slide. *)
Definition slide_unit (shapes : list shape) : dict :=
  let texts := slide_texts shapes in
  let tables := slide_tables shapes in
  let unit := [] in
  let unit :=
    if negb (String.eqb texts "")
    then dict_set unit "text" (VStr (remove_excessive_lines_and_spaces texts))
    else unit in
  if negb (String.eqb tables "")
  then dict_set unit "table" (VStr tables)
  else unit.

(** [for slide in presentation.slides], with the slide's position *)
Fixpoint ppt_slides (slides : list (list shape)) (slide_number : nat)
         (extracted_text : value) : result value :=
  match slides with
  | [] => Ok extracted_text
  | shapes :: rest =>
      rbind (setitem2 extracted_text "contents" (key slide_number)
                      (VDict (slide_unit shapes)))
            (fun extracted_text =>
      ppt_slides rest (S slide_number) extracted_text)
  end.

Definition parse_ppt (file_instance extracted_text : value) : result value :=
  rbind (read_pptx file_instance) (fun slides =>
  rbind (setitem extracted_text "contents_index_type" (VStr "slide_number"))
        (fun extracted_text =>
  ppt_slides slides 1 extracted_text)).

(** [naive_text_extraction.start(file_instance, doc_title, doc_type)] *)
Definition start (file_instance doc_title doc_type : value) : result value :=
  let extracted_text :=
    VDict [ ("contents", VDict []);
            ("document_title", doc_title);
            ("document_type", doc_type) ] in
  rbind (lower_of doc_type) (fun t =>
  if String.eqb t "pdf" then parse_pdf file_instance extracted_text
  else if String.eqb t "docx" then parse_docx file_instance extracted_text
  else if String.eqb t "pptx" || String.eqb t "ppt"
  then parse_ppt file_instance extracted_text
  else Ok extracted_text).

End TextExtraction.

(** The unit of [contents] that holds a text, a table, or both. *)
Definition unit_of (text table : option string) : value :=
  VDict ((match text with Some t => [("text", VStr t)] | None => [] end)
           ++ (match table with Some t => [("table", VStr t)] | None => [] end)).

End TextExtraction.

(* ================================================================== *)
(** * [semantic_chunking] of [backend/utils/_chunking.py] *)
(* ================================================================== *)

Module SemanticChunking.

Section SemanticChunking.

Context {C : Collaborators}.

(** The [RollingWindowSplitter] the method builds from the instance's
    settings: whether building it and its encoder succeeds, and the
    [docs] of every split it makes of a text. *)
Variable splitter_built : result unit.
Variable splitter : string -> result (list (list string)).

(** The records appended by [for chunk in splits]. *)
Definition split_records (template : dict) (splits : list (list string))
  : list string :=
  map (fun docs =>
         let chunk := join " " docs in
         json_dumps (VDict (dict_set template "content"
                                     (VDict [("text", VStr chunk)]))))
      splits.

(** [template] after [for chunk in splits]. *)
Definition template_after (template : dict) (splits : list (list string))
  : dict :=
  match splits with
  | [] => template
  | _ =>
      dict_set template "content"
               (VDict [("text", VStr (join " " (last splits [])))])
  end.

(** The loop of the integrating branch: the value of [chunked_text]
    after it. *)
Fixpoint integrated_text (contents : dict) (chunked_text : string)
  : result string :=
  match contents with
  | [] => Ok chunked_text
  | (idx, content) :: rest =>
      rbind (Chunking.unit_text content) (fun t =>
      match t with
      | None => integrated_text rest chunked_text
      | Some (VStr text) => integrated_text rest (chunked_text ++ text)
      | Some _ => Raise TypeError
      end)
  end.

(** The loop of the other branch, unit by unit. *)
Fixpoint split_units (template : dict) (contents : dict)
  : result (list string) :=
  match contents with
  | [] => Ok []
  | (idx, content) :: rest =>
      let template := dict_set template "content" (VDict []) in
      let template := dict_set template "content_index" (VStr idx) in
      rbind (getitem content "text") (fun text =>
      rbind (as_str text) (fun text =>
      rbind (splitter text) (fun splits =>
      let records := split_records template splits in
      let template := template_after template splits in
      rbind (split_units template rest) (fun more =>
      Ok (records ++ more)))))
  end.

(** [semantic_chunking.start(retrieved_text)]; [integrate_doc] is True
    for the instance the job manager builds. *)
Definition start (integrate_doc : bool) (retrieved_text : value)
  : result (list string) :=
  rbind splitter_built (fun _ =>
  let template := Chunking.set_template in
  rbind (getitem retrieved_text "document_title") (fun title =>
  let template := dict_set template "document_title" title in
  rbind (getitem retrieved_text "document_type") (fun type =>
  let template := dict_set template "document_type" type in
  rbind (getitem retrieved_text "contents_index_type") (fun index_type =>
  let template := dict_set template "content_index_type" index_type in
  if integrate_doc then
    (* Integrate all retrieved_text into one *)
    let template := dict_set template "content_index" (VStr "integrated") in
    rbind (getitem retrieved_text "contents") (fun contents =>
    match contents with
    | VDict units =>
        rbind (integrated_text units "") (fun chunked_text =>
        rbind (splitter chunked_text) (fun splits =>
        Ok (split_records template splits)))
    | _ => Raise AttributeError
    end)
  else
    rbind (getitem retrieved_text "contents") (fun contents =>
    match contents with
    | VDict units => split_units template units
    | _ => Raise AttributeError
    end))))).

(** [semantic_chunking.check] *)
Definition check (chunk_base : string) (max_tokens min_tokens : Z)
           (min_base_chunks num_overlap_base_chunks : Z) : bool :=
  if negb (existsb (String.eqb chunk_base) ["sentence"; "word"; "paragraph"])
  then false
  else if (max_tokens <? 1)%Z || (min_tokens <? 1)%Z
          || (max_tokens <? min_tokens)%Z
  then false
  else if (min_base_chunks <=? num_overlap_base_chunks)%Z then false
  else true.

End SemanticChunking.

(** The texts of the units that hold one, in the order of the units. *)
Definition texts_of (units : dict) : list string :=
  flat_map (fun kv =>
              match snd kv with
              | VDict d =>
                  match dict_get d "text" with
                  | Some (VStr t) => [t]
                  | _ => []
                  end
              | _ => []
              end) units.

End SemanticChunking.

(* ================================================================== *)
(** * Routes of [backend/main.py] *)
(* ================================================================== *)

Module Routes.

Section Routes.

Context {C : Collaborators}.

(** [{model["id"]: {} for model in models_list["data"]}] *)
Fixpoint models_by_id (data : list value) (models_list : dict)
  : result dict :=
  match data with
  | [] => Ok models_list
  | model :: rest =>
      rbind (getitem model "id") (fun id =>
      rbind (as_str id) (fun id =>
      models_by_id rest (dict_set models_list id (VDict []))))
  end.

(** [for model in models_list.keys()] *)
Fixpoint embedding_info (keys : list string) (models_list : dict)
  : result dict :=
  match keys with
  | [] => Ok models_list
  | model :: rest =>
      if contains "embedding" model then
        rbind (getitem (VDict cfg.embedding_models_info) model) (fun info =>
        embedding_info rest (dict_set models_list model info))
      else embedding_info rest models_list
  end.

(** [get_models_list()], given the answer of [fastchat.get_models_list()] *)
Definition get_models_list (models_list : value) : result dict :=
  rbind (getitem models_list "data") (fun data =>
  rbind (Execute.as_list data) (fun data =>
  rbind (models_by_id data []) (fun models_list =>
  embedding_info (map fst models_list) models_list))).

(** [HTTPException(status_code=..., detail=...)], which the route
    returns. *)
Definition HTTPException (status_code : Z) (detail : value) : value :=
  VDict [("status_code", VInt status_code); ("detail", detail)].

(** [add_data_to_metadata_index(info)] *)
Definition add_data_to_metadata_index (index_type : string)
           (metadata_properties : value) : M value :=
  (* Add new data to metadata index *)
  result <-
    ElasticSearch.post_add_data (VStr ("metadata_" ++ index_type))
                                metadata_properties ;;
  status <- lift (getitem result "status") ;;
  if negb (eq_str status "success") then
    detail <- lift (getitem result "error") ;;
    ret (HTTPException 400 detail)
  else ret result.

End Routes.

End Routes.

(* ================================================================== *)
(** * Relations used to state what methods leave behind *)
(* ================================================================== *)

Module Relations.

(** The second list is the first with entries added at its end. *)
Definition grows {A} (before after : list A) : Prop :=
  exists added, after = before ++ added.

(** The record [start_job] answers for a job that failed with [e]. *)
Definition failure {C : Collaborators} (e : exn) : value :=
  VDict [("status", VBool false);
         ("message", VStr (JobManagement.str_exn e))].

(** A world whose log has received more entries. *)
Definition with_log (entries : list log_entry) (w : World) : World :=
  mkWorld (info w) (output w) (current_step w) (chunk_size w) (overlap w)
          (es w) (clock w) (log w ++ entries) (steps w).

Definition retrieving_failed : string :=
  "Error retrieving job info from start_job()".

Definition job_failed : string := "Error in job manager start_job()".


End Relations.

(* ================================================================== *)
(** * A test double for the collaborators *)
(* ================================================================== *)

Module Mock.

(** A store that never fails, an extractor that returns one page, a
    provider whose vector for a text is labelled with that text, a mean
    that is only asked for some vector, and a serialiser that is only
    asked for some string. *)
Definition extracted_page : value :=
  VDict [ ("contents", VDict [("1", VDict [("text", VStr "Hello world.")])]);
          ("document_title", VStr "Report");
          ("document_type", VStr "pdf");
          ("contents_index_type", VStr "page_number") ].

Definition collaborators : Collaborators := {|
  json_dumps := fun _ => "{}";
  json_loads := fun s => Ok (VDict [("raw", VStr s)]);
  py_repr := fun _ => "<object>";
  exn_text := fun _ => "<exception>";
  text_extraction_start := fun _ _ _ => Ok extracted_page;
  semantic_chunking_start := fun _ _ => Ok [VStr "{}"];
  embedding := fun _ texts => Ok (map (fun t => VList [t]) texts);
  np_mean := fun vectors => hd VNone vectors;
  es_fault := fun _ _ => false;
  es_new_id := fun n => Main.str_nat n;
  isoformat := fun n => Main.str_nat n
|}.

(** A full-text job as the frontend builds it. *)
Definition full_text_settings : value :=
  VDict [ ("target_index_type", VStr "full_text");
          ("index_name_full_text", VStr "papers");
          ("index_name_full_vector", VNone);
          ("index_name_chunked_pairs", VNone);
          ("properties",
            VDict [("title", VStr "Report"); ("source_type", VStr "pdf")]);
          ("embedding_model", VNone);
          ("metadata_index_modify_id", VStr "m1") ].

Definition full_text_job : value :=
  VDict [("settings", full_text_settings); ("text_file", VBytes "%PDF")].

(** The same job with no title among its properties. *)
Definition untitled_settings : value :=
  VDict [ ("target_index_type", VStr "full_text");
          ("index_name_full_text", VStr "papers");
          ("index_name_full_vector", VNone);
          ("index_name_chunked_pairs", VNone);
          ("properties", VDict [("source_type", VStr "pdf")]);
          ("embedding_model", VNone);
          ("metadata_index_modify_id", VStr "m1") ].

Definition untitled_job : value :=
  VDict [("settings", untitled_settings); ("text_file", VBytes "%PDF")].

(** A store holding the metadata record of the index ["papers"]. *)
Definition store0 : store :=
  Store [ (("metadata_full_text", "m1"),
           [ ("index_name", VStr "papers");
             ("latest_update", VStr "never");
             ("number_of_data", VInt 7) ]) ]
        [] 0.

Definition world0 : World := Execute.init store0.

(** The job [add_jobs] builds from the setting that spells [n], and a
    manager whose queue holds the jobs 1 to [cfg.max_queue_length]. *)
Definition numbered_job (n : nat) : value :=
  VDict [ ("settings", VDict [("raw", VStr (Main.str_nat n))]);
          ("text_file", VNone) ].

Definition full_manager : JobManagement.JobManager :=
  JobManagement.set_status "busy"
    (JobManagement.set_queue
       (map numbered_job (seq 1 cfg.max_queue_length))
       (JobManagement.init store0)).

(** The report of one page with a given text, and a codec for such
    reports: a report is written as the text of its page and read back
    from it; anything else is written as the empty string. *)
Definition one_page (text : string) : value :=
  VDict [ ("contents", VDict [("1", VDict [("text", VStr text)])]);
          ("document_title", VStr "Report");
          ("document_type", VStr "pdf");
          ("contents_index_type", VStr "page_number") ].

Definition page_text_of (v : value) : string :=
  match rbind (getitem v "contents") (fun c =>
        rbind (getitem c "1") (fun u => getitem u "text")) with
  | Ok (VStr text) => text
  | _ => ""
  end.

Definition text_codec : Collaborators := {|
  json_dumps := page_text_of;
  json_loads := fun s => Ok (one_page s);
  py_repr := fun _ => "<object>";
  exn_text := fun _ => "<exception>";
  text_extraction_start := fun _ _ _ => Ok extracted_page;
  semantic_chunking_start := fun _ _ => Ok [VStr "{}"];
  embedding := fun _ texts => Ok (map (fun t => VList [t]) texts);
  np_mean := fun vectors => hd VNone vectors;
  es_fault := fun _ _ => false;
  es_new_id := fun n => Main.str_nat n;
  isoformat := fun n => Main.str_nat n
|}.


(** The same collaborators as [collaborators] behind a transport that
    fails every call. *)
Definition offline : Collaborators := {|
  json_dumps := fun _ => "{}";
  json_loads := fun s => Ok (VDict [("raw", VStr s)]);
  py_repr := fun _ => "<object>";
  exn_text := fun _ => "<exception>";
  text_extraction_start := fun _ _ _ => Ok extracted_page;
  semantic_chunking_start := fun _ _ => Ok [VStr "{}"];
  embedding := fun _ texts => Ok (map (fun t => VList [t]) texts);
  np_mean := fun vectors => hd VNone vectors;
  es_fault := fun _ _ => true;
  es_new_id := fun n => Main.str_nat n;
  isoformat := fun n => Main.str_nat n
|}.

(** Readers that find the same content in every file: a pdf of two
    pages, the second without text; a docx of paragraphs and two tables;
    a deck of two slides, the second holding a table only. *)
Definition two_pages : list TextExtraction.pdf_page :=
  [ TextExtraction.PdfPage 1 (Some "Hello     world.");
    TextExtraction.PdfPage 2 None ].

Definition minutes : TextExtraction.docx_document :=
  TextExtraction.Docx
    ["Agenda"; ""; " "; "Decisions"]
    [ [["a "; " b"]; ["c"; "d"]]; [["x"]] ].

Definition deck : list (list TextExtraction.shape) :=
  [ [TextExtraction.Shape (Some [["Title"]]) None];
    [TextExtraction.Shape None (Some [[Some "p"; Some "q"]])] ].

Definition readers : TextExtraction.Readers := {|
  TextExtraction.read_pdf := fun _ => Ok two_pages;
  TextExtraction.read_docx := fun _ => Ok minutes;
  TextExtraction.read_pptx := fun _ => Ok deck
|}.

(** A retrieved document of a text unit, a table unit and another text
    unit, and a splitter that makes one split of its text. *)
Definition mixed_units : dict :=
  [ ("1", VDict [("text", VStr "One.")]);
    ("2", VDict [("table", VStr "a,b")]);
    ("3", VDict [("text", VStr "Two.")]) ].

Definition mixed_document : value :=
  VDict [ ("contents", VDict mixed_units);
          ("document_title", VStr "Report");
          ("document_type", VStr "docx");
          ("contents_index_type", VStr "whole_text_or_table_number") ].

Definition one_split (text : string) : result (list (list string)) :=
  Ok [[text]].

(** A store that holds a full-text document and the metadata record of
    the vector indexes, and a full_vector job as the frontend builds it
    for that document, but for the title of the original document. *)
Definition store1 : store :=
  Store [ (("papers", "0"),
           [ ("title", VStr "Report"); ("source_type", VStr "pdf");
             ("text", VStr "Hello world.") ]);
          (("metadata_full_vector", "m2"),
           [ ("index_name", VStr "vectors");
             ("latest_update", VStr "never");
             ("number_of_data", VInt 3) ]) ]
        [] 1.

Definition vector_settings : value :=
  VDict [ ("target_index_type", VStr "full_vector");
          ("index_name_full_text", VNone);
          ("index_name_full_vector", VStr "vectors");
          ("index_name_chunked_pairs", VNone);
          ("properties",
            VDict [ ("original_full_text_index_name", VStr "papers");
                    ("original_full_text_data_id", VStr "0") ]);
          ("embedding_model", VStr "text-embedding-ada-002");
          ("metadata_index_modify_id", VStr "m2") ].

Definition vector_job : value :=
  VDict [("settings", vector_settings); ("text_file", VNone)].

(** A job of a type the executor does not know, with no title among its
    properties. *)
Definition summary_settings : value :=
  VDict [ ("target_index_type", VStr "summary");
          ("properties", VDict [("source_type", VStr "pdf")]) ].

Definition summary_job : value :=
  VDict [("settings", summary_settings); ("text_file", VNone)].

End Mock.

(* ================================================================== *)
(** * Properties of the chunking strategies *)
(* ================================================================== *)

Module ChunkingProps.

Import Chunking.

Lemma split_aux_length (prev : option ascii) (s : string) :
  length (snd (split_aux (fun _ c => Ascii.eqb c space) prev s))
  = count_spaces s.
Proof.
  revert prev.
  induction s as [|c s IH]; intros prev; simpl; [reflexivity|].
  specialize (IH (Some c)).
  destruct (split_aux _ (Some c) s) as [piece pieces].
  destruct (Ascii.eqb c space); simpl in *; now rewrite IH.
Qed.

Lemma words_spaces (s : string) :
  words s = Z.of_nat (S (count_spaces s)).
Proof.
  unfold words, split_space, split_by.
  pose proof (split_aux_length None s) as H.
  destruct (split_aux _ None s) as [piece pieces].
  simpl in *. now rewrite H.
Qed.

Lemma count_spaces_app (a b : string) :
  count_spaces (a ++ b) = count_spaces a + count_spaces b.
Proof.
  induction a as [|c a IH]; simpl; [reflexivity|].
  rewrite IH. lia.
Qed.

Lemma count_spaces_lstrip (s : string) :
  count_spaces (lstrip s) <= count_spaces s.
Proof.
  induction s as [|c s IH]; simpl; [lia|].
  destruct (isspace c); simpl; lia.
Qed.

Lemma count_spaces_rstrip (s : string) :
  count_spaces (rstrip s) <= count_spaces s.
Proof.
  induction s as [|c s IH]; simpl; [lia|].
  destruct (rstrip s) as [|c' r] eqn:E.
  - destruct (isspace c); simpl in *; lia.
  - simpl in *. lia.
Qed.

Lemma words_strip (s : string) : (words (strip s) <= words s)%Z.
Proof.
  rewrite !words_spaces. unfold strip.
  pose proof (count_spaces_rstrip (lstrip s)).
  pose proof (count_spaces_lstrip s). lia.
Qed.

(** Appending a sentence and its separator adds the sentence's words to
    the count. *)
Lemma words_append (chunked_text sentence : string) :
  words (chunked_text ++ sentence ++ " ")
  = (words chunked_text + words sentence)%Z.
Proof.
  rewrite !words_spaces, !count_spaces_app. simpl. lia.
Qed.

Lemma words_positive (s : string) : (1 <= words s)%Z.
Proof. rewrite words_spaces. lia. Qed.

(** The ghost trace projects onto what the loop computes. *)
Lemma trace_loop (chunk_size : Z) (sentences : list string) :
  forall chunked_text group,
    map (fun gb => strip (snd gb))
        (sentence_trace chunk_size sentences chunked_text group)
    = fst (sentence_loop chunk_size sentences chunked_text)
      ++ [strip (snd (sentence_loop chunk_size sentences chunked_text))].
Proof.
  induction sentences as [|sentence rest IH]; intros chunked_text group.
  - reflexivity.
  - simpl. fold (words sentence).
    destruct (words chunked_text + words sentence <? chunk_size)%Z.
    + apply IH.
    + specialize (IH sentence [sentence]).
      destruct (sentence_loop chunk_size rest sentence) as [more final].
      simpl in *. now rewrite IH.
Qed.

(** The groups, in order, are the sentences, in order. *)
Lemma trace_concat (chunk_size : Z) (sentences : list string) :
  forall chunked_text group,
    concat (map fst (sentence_trace chunk_size sentences chunked_text group))
    = group ++ sentences.
Proof.
  induction sentences as [|sentence rest IH]; intros chunked_text group;
    simpl.
  - reflexivity.
  - destruct (words chunked_text + words sentence <? chunk_size)%Z; simpl.
    + rewrite IH, <- app_assoc. reflexivity.
    + rewrite IH. reflexivity.
Qed.

Lemma glue_snoc (start : string) (group : list string) (sentence : string) :
  glue start (group ++ [sentence])
  = (glue start group ++ sentence ++ " ")%string.
Proof. unfold glue. now rewrite fold_left_app. Qed.

Lemma trace_shape (chunk_size : Z) (sentences : list string) :
  forall chunked_text group,
    exists first others,
      sentence_trace chunk_size sentences chunked_text group
      = first :: others
      /\ continues chunk_size chunked_text group first
      /\ Forall (restarted chunk_size) others.
Proof.
  induction sentences as [|sentence rest IH]; intros chunked_text group;
    simpl.
  - exists (group, chunked_text), []. split; [reflexivity|]. split; [|constructor].
    exists []. simpl. rewrite app_nil_r. auto.
  - destruct (words chunked_text + words sentence <? chunk_size)%Z eqn:Hfit.
    + destruct (IH (chunked_text ++ sentence ++ " ")%string (group ++ [sentence]))
        as (first & others & Htrace & (added & Hg & Hb & Hbound) & Hothers).
      exists first, others. split; [exact Htrace|]. split; [|exact Hothers].
      exists (sentence :: added). split; [|split].
      * rewrite Hg, <- app_assoc. reflexivity.
      * rewrite Hb. reflexivity.
      * right. destruct Hbound as [->|Hlt]; [|exact Hlt].
        rewrite Hb. simpl. rewrite words_append.
        now apply Z.ltb_lt.
    + destruct (IH sentence [sentence])
        as (first & others & Htrace & (added & Hg & Hb & Hbound) & Hothers).
      exists (group, chunked_text), (first :: others).
      split; [now rewrite Htrace|]. split.
      * exists []. simpl. rewrite app_nil_r. auto.
      * constructor; [|exact Hothers].
        exists sentence, added. simpl in Hg. auto.
Qed.

Lemma trace_flushed_when_full (chunk_size : Z) (sentences : list string) :
  forall chunked_text group,
    flushed_when_full chunk_size
      (sentence_trace chunk_size sentences chunked_text group).
Proof.
  induction sentences as [|sentence rest IH]; intros chunked_text group;
    simpl; [exact I|].
  destruct (words chunked_text + words sentence <? chunk_size)%Z eqn:Hfit.
  - apply IH.
  - specialize (IH sentence [sentence]).
    destruct (trace_shape chunk_size rest sentence [sentence])
      as (first & others & Htrace & (added & Hg & _) & _).
    rewrite Htrace in *. destruct first as [g b]. simpl in Hg. subst g.
    simpl. split; [|exact IH].
    apply Z.ltb_ge in Hfit. lia.
Qed.

(** C5 (as amended).  Fixed-sentence chunking of one content unit: the
    emitted chunks are the stripped buffers of consecutive groups of
    whole sentences, in order and with none lost, the last buffer being
    flushed too; a buffer is cut exactly when the next sentence would
    bring its count to [chunk_size]; and a chunk holds fewer than
    [chunk_size] words unless it consists of at most one sentence. *)
Theorem sentence_chunks_groups (chunk_size : Z) (text : string) :
  let sentences := re_split_sentences text in
  let trace := sentence_trace chunk_size sentences "" [] in
  sentence_chunks chunk_size text = map (fun gb => strip (snd gb)) trace
  /\ concat (map fst trace) = sentences
  /\ Forall (fun gb => continues chunk_size "" [] gb
                       \/ restarted chunk_size gb) trace
  /\ flushed_when_full chunk_size trace
  /\ Forall (fun gb => (length (fst gb) <= 1)%nat
                       \/ (words (strip (snd gb)) < chunk_size)%Z) trace.
Proof.
  intros sentences trace.
  destruct (trace_shape chunk_size sentences "" [])
    as (first & others & Htrace & Hfirst & Hothers).
  fold trace in Htrace.
  split; [|split; [|split; [|split]]].
  - unfold sentence_chunks. fold sentences.
    pose proof (trace_loop chunk_size sentences "" []) as H.
    fold trace in H.
    destruct (sentence_loop chunk_size sentences "") as [flushed final].
    simpl in H. now rewrite H.
  - apply (trace_concat chunk_size sentences "" []).
  - rewrite Htrace. constructor; [now left|].
    eapply Forall_impl; [|exact Hothers]. intros gb H. now right.
  - apply trace_flushed_when_full.
  - rewrite Htrace. constructor.
    + destruct Hfirst as (added & Hg & Hb & [->|Hlt]).
      * left. rewrite Hg. simpl. lia.
      * right. pose proof (words_strip (snd first)). lia.
    + eapply Forall_impl; [|exact Hothers].
      intros gb (sentence & added & Hg & Hb & [->|Hlt]).
      * left. rewrite Hg. simpl. lia.
      * right. pose proof (words_strip (snd gb)). lia.
Qed.

(** The cut can come before the bound is reached: with [chunk_size = 5]
    the two sentences of ["a b. c d."], four words in all, go to two
    chunks. *)
Lemma sentence_chunks_cut_early :
  sentence_chunks 5 "a b. c d." = ["a b."; "c d."].
Proof. reflexivity. Qed.

Section Start.

Context {C : Collaborators}.

Lemma sentence_units_pages (chunk_size : Z) (title type index_type : value)
      (pages : list (string * string)) :
  forall a b,
    sentence_units chunk_size
      [ ("document_title", title); ("document_type", type);
        ("content_index", a); ("content", b);
        ("content_index_type", index_type) ]
      (map page_unit pages)
    = Ok (flat_map
            (fun page =>
               map (fun chunk =>
                      json_dumps
                        (chunk_record title type (fst page) chunk index_type))
                   (sentence_chunks chunk_size (snd page)))
            pages).
Proof.
  induction pages as [|[idx text] pages IH]; intros a b; [reflexivity|].
  cbn [map page_unit fst snd sentence_units unit_text dict_get String.eqb
       Ascii.eqb Bool.eqb rbind flat_map].
  cbn [dict_set String.eqb Ascii.eqb Bool.eqb].
  rewrite IH. reflexivity.
Qed.

(** [naive_sentence_chunking.start] on the extraction of a document whose
    pages all carry text: the chunks of each page in page order, each in
    a record that names the page. *)
Lemma naive_sentence_chunking_start_pages (chunk_size : Z)
      (title type index_type : value) (pages : list (string * string)) :
  naive_sentence_chunking_start chunk_size
    (VDict [ ("contents", VDict (map page_unit pages));
             ("document_title", title);
             ("document_type", type);
             ("contents_index_type", index_type) ])
  = Ok (flat_map
          (fun page =>
             map (fun chunk =>
                    json_dumps
                      (chunk_record title type (fst page) chunk index_type))
                 (sentence_chunks chunk_size (snd page)))
          pages).
Proof.
  unfold naive_sentence_chunking_start. simpl.
  apply sentence_units_pages.
Qed.

End Start.

(** C5 as stated fails: with [chunk_size = 2] the one-sentence unit
    ["a b c"] is emitted whole, as a chunk of three words (after an empty
    chunk). *)
Lemma sentence_chunk_exceeds_chunk_size :
  sentence_chunks 2 "a b c" = [""; "a b c"]
  /\ In "a b c" (sentence_chunks 2 "a b c")
  /\ (2 < words "a b c")%Z.
Proof.
  split; [reflexivity|]. split; [right; left; reflexivity|].
  vm_compute. reflexivity.
Qed.

(** Whatever it is given, [naive_word_chunking.start] returns the empty
    list when it returns. *)
Lemma naive_word_chunking_start_nil (chunk_size : Z) (overlap : Q)
      (retrieved_text : value) (chunks : list string) :
  naive_word_chunking_start chunk_size overlap retrieved_text = Ok chunks ->
  chunks = [].
Proof.
  unfold naive_word_chunking_start.
  destruct (iterate retrieved_text) as [contents|e]; simpl; [|discriminate].
  destruct (word_loop chunk_size overlap contents []); simpl;
    [|discriminate].
  intros H. now inversion H.
Qed.

(** C6 (the code against the claim).  For the unit ["a b c"] with
    [chunk_size = 2] and no overlap the windows ["a b"] and ["c"] are
    computed, and the strategy returns no chunk at all. *)
Theorem naive_word_chunking_drops_windows :
  word_windows 2 0 "a b c" = Ok ["a b"; "c"]
  /\ naive_word_chunking_start 2 0 (VList [VStr "a b c"]) = Ok [].
Proof. split; reflexivity. Qed.

End ChunkingProps.

(* ================================================================== *)
(** * Properties of queue admission *)
(* ================================================================== *)

Module QueueProps.

Import JobManagement.

Lemma skipn_app_le {A} (n : nat) (a b : list A) :
  n <= length a -> skipn n (a ++ b) = skipn n a ++ b.
Proof.
  intros H. rewrite skipn_app.
  replace (n - length a) with 0 by lia. reflexivity.
Qed.

(** One [append] keeps the newest [maxlen] items. *)
Lemma append_keep_last {A} (maxlen : nat) (q : list A) (x : A) :
  length q <= maxlen ->
  Deque.append maxlen q x = Deque.keep_last maxlen (q ++ [x])
  /\ length (Deque.append maxlen q x) <= maxlen.
Proof.
  intros Hq. unfold Deque.append, Deque.keep_last.
  rewrite length_app. simpl.
  destruct (maxlen <? length q + 1)%nat eqn:E.
  - apply Nat.ltb_lt in E.
    replace (length q + 1 - maxlen) with 1 by lia.
    split; [reflexivity|].
    destruct q; simpl in *; [lia|]. rewrite length_app. simpl. lia.
  - apply Nat.ltb_ge in E.
    replace (length q + 1 - maxlen) with 0 by lia.
    split; [reflexivity|]. rewrite length_app. simpl. lia.
Qed.

Lemma keep_last_app {A} (n : nat) (a b : list A) :
  Deque.keep_last n (Deque.keep_last n a ++ b) = Deque.keep_last n (a ++ b).
Proof.
  unfold Deque.keep_last.
  destruct (Nat.le_gt_cases (length a) n) as [Hle|Hgt].
  - replace (length a - n) with 0 by lia. reflexivity.
  - rewrite !length_app, length_skipn.
    replace (length a - (length a - n) + length b - n) with (length b) by lia.
    replace (length a + length b - n) with ((length a - n) + length b) by lia.
    rewrite (Nat.add_comm (length a - n)), <- skipn_skipn.
    rewrite (@skipn_app_le _ (length a - n) a b) by lia.
    reflexivity.
Qed.

(** [add_new_jobs] on a deque within its bound keeps the newest [maxlen]
    of the queued jobs followed by the submitted ones. *)
Lemma fold_append_keep_last {A} (maxlen : nat) (jobs : list A) :
  forall q,
    length q <= maxlen ->
    fold_left (Deque.append maxlen) jobs q
    = Deque.keep_last maxlen (q ++ jobs).
Proof.
  induction jobs as [|job jobs IH]; intros q Hq; simpl.
  - unfold Deque.keep_last. rewrite app_nil_r.
    replace (length q - maxlen) with 0 by lia. reflexivity.
  - destruct (@append_keep_last _ maxlen q job Hq) as [Heq Hlen].
    rewrite IH by exact Hlen.
    rewrite Heq, keep_last_app, <- app_assoc. reflexivity.
Qed.

Section Admission.

Context {C : Collaborators}.

(** C2 (as amended).  A submission that finds the queue at capacity is
    never refused: it reports success with unchanged queue size, and the
    queue afterwards is the old queue followed by the new jobs without
    its first [length jobs] entries; nothing else of the manager records
    the entries that fell out. *)
Theorem add_jobs_at_capacity (m : JobManager) (settings : list string)
        (text_files : option (list value)) (jobs : list value) :
  length (queue m) = maxlen m ->
  rbind (Main.zip_files settings text_files) Main.build_jobs = Ok jobs ->
  exists m' spawn,
    Main.add_jobs settings text_files m
    = (Ok (VDict
             [ ("status", VStr "success");
               ("queue_size",
                 VStr (Main.str_nat (maxlen m) ++ " -> "
                       ++ Main.str_nat (maxlen m))%string) ]),
       m', spawn)
    /\ queue m' = skipn (length jobs) (queue m ++ jobs)
    /\ length (queue m') = maxlen m
    /\ maxlen m' = maxlen m
    /\ jobs_history m' = jobs_history m
    /\ processed m' = processed m
    /\ world m' = world m.
Proof.
  intros Hfull Hjobs.
  assert (Hq : fold_left (Deque.append (maxlen m)) jobs (queue m)
               = skipn (length jobs) (queue m ++ jobs)).
  { rewrite fold_append_keep_last by lia.
    unfold Deque.keep_last. rewrite length_app.
    f_equal. lia. }
  assert (Hlen : length (skipn (length jobs) (queue m ++ jobs)) = maxlen m).
  { rewrite length_skipn, length_app. lia. }
  unfold Main.add_jobs. rewrite Hjobs.
  unfold add_new_jobs. rewrite Hq.
  destruct (String.eqb (status (set_queue _ m)) "idle") eqn:E;
    simpl; rewrite ?Hlen, ?Hfull;
    (eexists; eexists; split; [reflexivity|]);
    simpl; repeat split; auto.
Qed.

End Admission.

(** The hypotheses of [add_jobs_at_capacity] hold of one more job
    submitted to the full queue of the test double. *)
Lemma add_jobs_at_capacity_witness :
  exists m' spawn,
    Main.add_jobs (C := Mock.collaborators) ["51"] (Some []) Mock.full_manager
    = (Ok (VDict
             [ ("status", VStr "success");
               ("queue_size", VStr "50 -> 50") ]),
       m', spawn)
    /\ queue m' = skipn 1 (queue Mock.full_manager ++ [Mock.numbered_job 51])
    /\ length (queue m') = 50.
Proof.
  destruct (@add_jobs_at_capacity Mock.collaborators Mock.full_manager
              ["51"] (Some []) [Mock.numbered_job 51])
    as (m' & spawn & H1 & H2 & H3 & _).
  - reflexivity.
  - reflexivity.
  - exists m', spawn. split; [exact H1|]. split; [exact H2|exact H3].
Defined.

(** C2 as stated fails: a job submitted to the full queue is accepted
    with ["status": "success"], and the oldest queued job is gone from
    the queue without ever having been handed to the worker. *)
Lemma add_jobs_silently_drops :
  let outcome :=
    Main.add_jobs (C := Mock.collaborators) ["51"] (Some [])
                  Mock.full_manager in
  fst (fst outcome)
  = Ok (VDict [("status", VStr "success"); ("queue_size", VStr "50 -> 50")])
  /\ In (Mock.numbered_job 1) (queue Mock.full_manager)
  /\ ~ In (Mock.numbered_job 1) (queue (snd (fst outcome)))
  /\ processed (snd (fst outcome)) = [].
Proof.
  vm_compute. split; [reflexivity|]. split; [now left|]. split; [|reflexivity].
  intros H.
  repeat (destruct H as [H|H]; [discriminate H|]).
  exact H.
Qed.

End QueueProps.

(* ================================================================== *)
(** * Reasoning about methods: what a method leaves untouched *)
(* ================================================================== *)

Module Frame.

Section Respects.

Context {T : Type} (proj : World -> T) (Q : T -> T -> Prop).
Context {HQ : PreOrder Q}.

Lemma respects_ret {A} (a : A) : respects (via proj Q) (ret a).
Proof. intros w r w' H. inversion H. unfold via. reflexivity. Qed.

Lemma respects_lift {A} (x : result A) : respects (via proj Q) (lift x).
Proof. intros w r w' H. inversion H. unfold via. reflexivity. Qed.

Lemma respects_bind {A B} (m : M A) (k : A -> M B) :
  respects (via proj Q) m ->
  (forall a, respects (via proj Q) (k a)) ->
  respects (via proj Q) (bind m k).
Proof.
  intros Hm Hk w r w' H. unfold bind in H.
  destruct (m w) as [[a|e] w1] eqn:E.
  - unfold via. transitivity (proj w1).
    + exact (Hm _ _ _ E).
    + exact (Hk a _ _ _ H).
  - inversion H. subst. exact (Hm _ _ _ E).
Qed.

Lemma respects_try_except {A} (m : M A) (handler : exn -> M A) :
  respects (via proj Q) m ->
  (forall e, respects (via proj Q) (handler e)) ->
  respects (via proj Q) (try_except m handler).
Proof.
  intros Hm Hh w r w' H. unfold try_except in H.
  destruct (m w) as [[a|e] w1] eqn:E.
  - inversion H. subst. exact (Hm _ _ _ E).
  - unfold via. transitivity (proj w1).
    + exact (Hm _ _ _ E).
    + exact (Hh e _ _ _ H).
Qed.

Lemma respects_frame {A} (m : M A) :
  (forall w r w', m w = (r, w') -> proj w' = proj w) ->
  respects (via proj Q) m.
Proof.
  intros Hm w r w' H. unfold via. rewrite (Hm _ _ _ H). reflexivity.
Qed.

End Respects.

#[export] Instance keeps_preorder {T} : PreOrder (fun a b : T => b = a).
Proof. split; [intros x; reflexivity | intros x y z H1 H2; congruence]. Qed.

#[export] Instance evolves_preorder : PreOrder Execute.evolves.
Proof.
  split.
  - intros a. now left.
  - intros a b c [->|(d & d' & -> & -> & H1)] [<-|(e & e' & He & -> & H2)].
    + now left.
    + right. eauto.
    + right. eauto.
    + inversion He. subst. right. exists d, e'. repeat split.
      intros k Hk. rewrite H2, H1 by exact Hk. reflexivity.
Qed.

(** A primitive is unfolded and run on every path. *)
Ltac run_primitive H :=
  unfold get_info, get_output, set_info, set_output, set_current_step,
    set_chunk_size, set_overlap, get_chunk_size, logger, datetime_now,
    ElasticSearch.client_index, ElasticSearch.client_get,
    ElasticSearch.client_update, set_es in H;
  cbv zeta in H;
  repeat match type of H with
         | context [if ?b then _ else _] => destruct b
         | context [match ?x with _ => _ end] => destruct x
         end;
  inversion H; subst; clear H.

Ltac order := try (match goal with |- PreOrder _ => typeclasses eauto end).

Ltac frame_primitive :=
  apply respects_frame; order;
  let w := fresh "w" in
  let r := fresh "r" in
  let w' := fresh "w'" in
  let H := fresh "H" in
  intros w r w' H; run_primitive H; reflexivity.

Create HintDb respects discriminated.
Create HintDb methods discriminated.

#[export] Hint Unfold
  ElasticSearch.post_add_data ElasticSearch.get_data_match_id
  ElasticSearch.post_modify_data
  Execute.set_property Execute.modify_data Execute.extract_text
  Execute.modify_properties Execute.write_target Execute.retrieve_text
  Execute.embed_batches Execute.chunk_text
  Execute.add_full_text Execute.add_full_vector Execute.add_chunked_pairs
  : methods.

(** A method built from [bind], [try_except], conditionals and
    primitives respects what each of its parts respects; a part is
    settled by a lemma of the hint database, as a primitive, or after
    unfolding it. *)
Ltac respects_steps :=
  repeat first
    [ assumption
    | solve [auto with respects nocore]
    | apply respects_ret; order
    | apply respects_lift; order
    | apply respects_bind; order; [| intros ?]
    | apply respects_try_except; order; [| intros ?]
    | match goal with
      | |- respects _ (if ?b then _ else _) => destruct b
      | |- respects _ (match ?x with _ => _ end) => destruct x
      | |- respects _ (let _ := _ in _) => cbv zeta
      end
    | frame_primitive
    | progress autounfold with methods ].

End Frame.

(* ================================================================== *)
(** * Properties of the pipeline executor *)
(* ================================================================== *)

Module ExecuteProps.

Import Frame Execute.

Lemma last_cons {A} (a : A) (l : list A) (d : A) :
  last (a :: l) d = last l a.
Proof.
  revert a d. induction l as [|b l IH]; intros a d; [reflexivity|].
  change (last (a :: b :: l) d) with (last (b :: l) d).
  rewrite (IH b d), (IH b a). reflexivity.
Qed.

Lemma last_append {A} (l1 l2 : list A) (d : A) :
  last (l1 ++ l2) d = last l2 (last l1 d).
Proof.
  revert d. induction l1 as [|a l1 IH]; intros d; [reflexivity|].
  rewrite <- app_comm_cons, !last_cons. apply IH.
Qed.

#[export] Instance assigns_known_preorder : PreOrder assigns_known.
Proof.
  split.
  - intros [s c]. exists []. simpl. rewrite app_nil_r. auto.
  - intros [s1 c1] [s2 c2] [s3 c3] (l1 & H1 & F1 & L1) (l2 & H2 & F2 & L2).
    simpl in *. subst. exists (l1 ++ l2). simpl. repeat split.
    + now rewrite app_assoc.
    + apply Forall_app. auto.
    + symmetry. apply last_append.
Qed.

Lemma bind_inv {A B} (m : M A) (k : A -> M B) w r w' :
  bind m k w = (r, w') ->
  (exists e, m w = (Raise e, w') /\ r = Raise e)
  \/ (exists a w1, m w = (Ok a, w1) /\ k a w1 = (r, w')).
Proof.
  unfold bind. destruct (m w) as [[a|e] w1].
  - intros H. right. eauto.
  - intros H. inversion H. left. eauto.
Qed.

Ltac bind_step H a w1 H1 :=
  apply bind_inv in H;
  let e := fresh "e" in
  let Hr := fresh "Hr" in
  destruct H as [(e & H & Hr)|(a & w1 & H1 & H)].

Ltac known := simpl; tauto.

Section Stages.

Context {C : Collaborators}.

(** ** The step trace *)

Lemma stamped {A} (name : string) (rest : M A) (w : World)
      (r : result A) (w' : World) :
  respects (keeps trace_of) rest ->
  (set_current_step name ;; rest) w = (r, w') ->
  trace_of w' = (steps w ++ [name], name).
Proof.
  intros Hrest H. unfold bind, set_current_step in H.
  apply Hrest in H. exact H.
Qed.

Lemma embed_loop_keeps {T} (proj : World -> T) model texts batch_size :
  forall indices acc,
    respects (via proj (fun a b => b = a))
             (embed_loop model texts batch_size indices acc).
Proof.
  induction indices as [|i rest IH]; intros acc; simpl.
  - apply respects_ret; order.
  - apply respects_bind; order; [apply respects_lift; order|intros batch_vector].
    apply respects_bind; order;
      [apply respects_frame; order; intros w r w' H; now inversion H
      |intros info].
    apply respects_bind; order; [apply respects_lift; order|intros t].
    apply IH.
Qed.

Lemma embed_loop_respects {T} (proj : World -> T) (Q : T -> T -> Prop)
      {HQ : PreOrder Q} model texts batch_size :
  forall indices acc,
    respects (via proj Q) (embed_loop model texts batch_size indices acc).
Proof.
  intros indices acc w r w' H. unfold via.
  pose proof (@embed_loop_keeps T proj model texts batch_size indices acc
                                w r w' H) as E.
  unfold via in E. rewrite E. reflexivity.
Qed.

Hint Extern 1 (respects _ (embed_loop _ _ _ _ _)) =>
  apply embed_loop_respects; order : respects.

Tactic Notation "stage" reference(method) :=
  let H := fresh "H" in
  intros H; unfold method in H;
  eapply stamped; [|exact H]; unfold keeps; respects_steps.

Lemma modify_data_trace name arg w r w' :
  modify_data name arg w = (r, w') ->
  trace_of w' = (steps w ++ ["modify_data"], "modify_data").
Proof. stage modify_data. Qed.

Lemma extract_text_trace text_file w r w' :
  extract_text text_file w = (r, w') ->
  trace_of w' = (steps w ++ ["extract_text"], "extract_text").
Proof. stage extract_text. Qed.

Lemma modify_properties_trace w r w' :
  modify_properties w = (r, w') ->
  trace_of w' = (steps w ++ ["modify_properties"], "modify_properties").
Proof. stage modify_properties. Qed.

Lemma retrieve_text_trace w r w' :
  retrieve_text w = (r, w') ->
  trace_of w' = (steps w ++ ["retrieve_text"], "retrieve_text").
Proof. stage retrieve_text. Qed.

Lemma chunk_text_trace w r w' :
  chunk_text w = (r, w') ->
  trace_of w' = (steps w ++ ["chunk_text"], "chunk_text").
Proof. stage chunk_text. Qed.

Lemma embed_text_trace w r w' :
  embed_text w = (r, w') ->
  trace_of w' = (steps w ++ ["embed_text"], "embed_text").
Proof. stage embed_text. Qed.

(** ** The settings while a job runs *)

Lemma dict_get_set_other (d : dict) (k k' : string) (v : value) :
  k' <> k -> dict_get (dict_set d k v) k' = dict_get d k'.
Proof.
  intros Hk. induction d as [|[k0 v0] d IH]; simpl.
  - destruct (String.eqb_spec k k'); [congruence|reflexivity].
  - destruct (String.eqb_spec k0 k) as [->|Hne]; simpl.
    + destruct (String.eqb_spec k k'); [congruence|reflexivity].
    + destruct (String.eqb_spec k0 k'); [reflexivity|exact IH].
Qed.

Lemma dict_get_set_same (d : dict) (k : string) (v : value) :
  dict_get (dict_set d k v) k = Some v.
Proof.
  induction d as [|[k0 v0] d IH]; simpl.
  - now rewrite String.eqb_refl.
  - destruct (String.eqb_spec k0 k) as [->|Hne]; simpl.
    + now rewrite String.eqb_refl.
    + destruct (String.eqb_spec k0 k); [congruence|exact IH].
Qed.

(** What [o["properties"][k] = v] does to [o]. *)
Lemma setitem2_properties (o : value) (k : string) (v o' : value) :
  setitem2 o "properties" k v = Ok o' ->
  exists d p,
    o = VDict d
    /\ dict_get d "properties" = Some (VDict p)
    /\ o' = VDict (dict_set d "properties" (VDict (dict_set p k v))).
Proof.
  unfold setitem2, getitem, setitem, rbind.
  destruct o as [| | | | | | |d]; try discriminate.
  destruct (dict_get d "properties") as [[| | | | | | |p]|] eqn:E;
    try discriminate.
  intros H. inversion H. eauto.
Qed.

Lemma setitem2_evolves (o : value) (k : string) (v o' : value) :
  setitem2 o "properties" k v = Ok o' -> evolves o o'.
Proof.
  intros H. apply setitem2_properties in H.
  destruct H as (d & p & -> & _ & ->).
  right. exists d, (dict_set d "properties" (VDict (dict_set p k v))).
  repeat split. intros k' Hk'. now apply dict_get_set_other.
Qed.

Lemma set_property_evolves (k : string) (v : value) :
  respects (via info evolves) (set_property k v).
Proof.
  intros w r w' H. unfold via.
  unfold set_property, bind, get_info, lift, set_info in H.
  destruct (setitem2 (info w) "properties" k v) as [o'|e] eqn:E;
    inversion H; subst; simpl.
  - now apply setitem2_evolves in E.
  - reflexivity.
Qed.

Hint Resolve set_property_evolves : respects.

Lemma evolves_getitem (a b : value) (k : string) :
  evolves a b -> k <> "properties" -> getitem b k = getitem a k.
Proof.
  intros [->|(d & d' & -> & -> & H)] Hk; [reflexivity|].
  simpl. now rewrite H.
Qed.

Lemma extract_text_evolves text_file :
  respects (via info evolves) (extract_text text_file).
Proof. respects_steps. Qed.

Lemma modify_properties_evolves :
  respects (via info evolves) modify_properties.
Proof. respects_steps. Qed.

Lemma write_for_evolves t : respects (via info evolves) (write_for t).
Proof. unfold write_for. respects_steps. Qed.

Lemma update_metadata_evolves : respects (via info evolves) update_metadata.
Proof. unfold update_metadata. respects_steps. Qed.

Lemma add_to_es_evolves : respects (via info evolves) add_to_es.
Proof.
  pose proof write_for_evolves. pose proof update_metadata_evolves.
  unfold add_to_es. respects_steps.
Qed.

Lemma retrieve_text_evolves : respects (via info evolves) retrieve_text.
Proof. respects_steps. Qed.

Lemma chunk_text_evolves : respects (via info evolves) chunk_text.
Proof. respects_steps. Qed.

Lemma embed_text_evolves : respects (via info evolves) embed_text.
Proof. unfold embed_text. respects_steps. Qed.

(** ** [add_to_es] *)

Lemma write_for_trace t : respects (keeps trace_of) (write_for t).
Proof. unfold keeps, write_for. respects_steps. Qed.

Lemma update_metadata_returns w :
  exists w', update_metadata w = (Ok tt, w').
Proof.
  unfold update_metadata, try_except.
  match goal with |- context [match ?body w with _ => _ end] =>
    destruct (body w) as [[[]|e] w1] end.
  - eauto.
  - unfold logger. eauto.
Qed.

(** The metadata update is entered, and [current_step] becomes
    ["modify_data"], exactly when the settings carry both keys read for
    the call. *)
Lemma update_metadata_trace w r w' :
  update_metadata w = (r, w') ->
  trace_of w'
  = if has_key (info w) "target_index_type"
       && has_key (info w) "index_name_full_vector"
    then (steps w ++ ["modify_data"], "modify_data")
    else trace_of w.
Proof.
  unfold update_metadata, try_except, has_key.
  match goal with |- context [match ?body w with _ => _ end] =>
    assert (Hbody : forall rb wb, body w = (rb, wb) ->
              trace_of wb
              = if is_ok (getitem (info w) "target_index_type")
                   && is_ok (getitem (info w) "index_name_full_vector")
                then (steps w ++ ["modify_data"], "modify_data")
                else trace_of w);
    [|destruct (body w) as [[[]|e] w1] eqn:E]
  end.
  - intros rb wb. unfold bind at 1 2 3. unfold get_info, lift.
    destruct (getitem (info w) "target_index_type") as [t|e]; simpl;
      [|intros H; now inversion H].
    destruct (getitem (info w) "index_name_full_vector") as [v|e]; simpl;
      [|intros H; now inversion H].
    apply modify_data_trace.
  - intros H. inversion H. subst. now apply (Hbody (Ok tt)).
  - intros H. unfold logger in H. inversion H. subst.
    rewrite <- (Hbody (Raise e) w1 eq_refl). reflexivity.
Qed.

Lemma add_to_es_trace w r w' :
  add_to_es w = (r, w') ->
  trace_of w'
  = match r with
    | Raise _ => (steps w ++ ["add_to_es"], "add_to_es")
    | Ok _ =>
        if has_key (info w) "index_name_full_vector"
        then (steps w ++ ["add_to_es"; "modify_data"], "modify_data")
        else (steps w ++ ["add_to_es"], "add_to_es")
    end.
Proof.
  unfold add_to_es. intros H.
  apply bind_inv in H. destruct H as [(e & H & _)|(u & w1 & H1 & H)];
    [discriminate H|].
  unfold set_current_step in H1. injection H1 as _ <-.
  apply bind_inv in H. destruct H as [(e & H & _)|(i & w1 & H1 & H)];
    [discriminate H|].
  unfold get_info in H1. injection H1 as <- <-. simpl in H.
  apply bind_inv in H. destruct H as [(e & H & ->)|(t & w1 & H1 & H)].
  - unfold lift in H. injection H as _ <-. reflexivity.
  - unfold lift in H1. injection H1 as Ht <-.
    apply bind_inv in H. destruct H as [(e & H & ->)|([] & w2 & H1 & H)].
    + apply write_for_trace in H. exact H.
    + pose proof (@write_for_trace t _ _ _ H1) as Htrace.
      pose proof (@write_for_evolves t _ _ _ H1) as Hinfo.
      unfold keeps, via in Htrace, Hinfo. simpl in Htrace, Hinfo.
      destruct (update_metadata_returns w2) as (w3 & Hret).
      rewrite Hret in H. injection H as <- <-.
      apply update_metadata_trace in Hret. rewrite Hret.
      unfold has_key.
      rewrite !(evolves_getitem Hinfo) by discriminate.
      rewrite Ht. simpl.
      destruct (is_ok (getitem (info w) "index_name_full_vector")).
      * unfold trace_of in Htrace. injection Htrace as Hs Hc.
        rewrite Hs, <- app_assoc. reflexivity.
      * exact Htrace.
Qed.

(** ** Every assignment to [current_step] is one of eight values *)

Lemma stamped_known {A} (name : string) (m : M A) :
  In name assigned_steps ->
  (forall w r w', m w = (r, w') -> trace_of w' = (steps w ++ [name], name)) ->
  respects (via trace_of assigns_known) m.
Proof.
  intros Hin Hm w r w' H. apply Hm in H.
  exists [name]. rewrite H. simpl. split; [reflexivity|split; [|reflexivity]].
  apply Forall_cons; [exact Hin|apply Forall_nil].
Qed.

Lemma extract_text_known text_file :
  respects (via trace_of assigns_known) (extract_text text_file).
Proof.
  apply stamped_known with (name := "extract_text");
    [known|apply extract_text_trace].
Qed.

Lemma modify_properties_known :
  respects (via trace_of assigns_known) modify_properties.
Proof.
  apply stamped_known with (name := "modify_properties");
    [known|apply modify_properties_trace].
Qed.

Lemma retrieve_text_known :
  respects (via trace_of assigns_known) retrieve_text.
Proof.
  apply stamped_known with (name := "retrieve_text");
    [known|apply retrieve_text_trace].
Qed.

Lemma chunk_text_known : respects (via trace_of assigns_known) chunk_text.
Proof.
  apply stamped_known with (name := "chunk_text");
    [known|apply chunk_text_trace].
Qed.

Lemma embed_text_known : respects (via trace_of assigns_known) embed_text.
Proof.
  apply stamped_known with (name := "embed_text");
    [known|apply embed_text_trace].
Qed.

Lemma add_to_es_known : respects (via trace_of assigns_known) add_to_es.
Proof.
  intros w r w' H. apply add_to_es_trace in H. unfold via.
  destruct r as [[]|e];
    [destruct (has_key (info w) "index_name_full_vector")|];
    rewrite H;
    [exists ["add_to_es"; "modify_data"]
    |exists ["add_to_es"]|exists ["add_to_es"]];
    simpl; (split; [reflexivity|split; [|reflexivity]]);
    repeat (apply Forall_cons; [known|]); apply Forall_nil.
Qed.

Lemma set_idle_known :
  respects (via trace_of assigns_known) (set_current_step "idle").
Proof.
  intros w r w' H. unfold set_current_step in H. injection H as _ <-.
  exists ["idle"]. simpl. split; [reflexivity|split; [|reflexivity]].
  apply Forall_cons; [known|apply Forall_nil].
Qed.

Hint Resolve extract_text_known modify_properties_known retrieve_text_known
  chunk_text_known embed_text_known add_to_es_known set_idle_known
  extract_text_evolves modify_properties_evolves retrieve_text_evolves
  chunk_text_evolves embed_text_evolves add_to_es_evolves : respects.

(** Whatever the job and however it ends, [execute.start] only assigns
    known steps. *)
Lemma start_assigns_known (settings job_type text_file : value) :
  respects (via trace_of assigns_known) (start settings job_type text_file).
Proof. unfold start. respects_steps. Qed.

Lemma add_full_text_evolves (settings text_file : value) :
  respects (via info evolves) (add_full_text settings text_file).
Proof. unfold add_full_text. respects_steps. Qed.

Lemma add_full_vector_evolves (settings : value) :
  respects (via info evolves) (add_full_vector settings).
Proof. unfold add_full_vector. respects_steps. Qed.

(** ** The run of a job *)

(** The reset that ends [execute.start]. *)
Lemma reset_returns (w : World) :
  (set_info VNone ;; set_output VNone ;; set_current_step "idle" ;;
   ret (VBool true)) w
  = (Ok (VBool true),
     mkWorld VNone VNone "idle" (chunk_size w) (overlap w) (es w)
             (clock w) (log w) (steps w ++ ["idle"])).
Proof. reflexivity. Qed.

(** The stage whose exception leaves a pipeline is the one
    [current_step] names. *)
Lemma add_full_text_raises (settings text_file : value) w e w' :
  add_full_text settings text_file w = (Raise e, w') ->
  In (current_step w') ["extract_text"; "modify_properties"; "add_to_es"].
Proof.
  unfold add_full_text. intros H.
  bind_step H u1 w1 H1.
  { apply extract_text_trace in H. injection H as _ ->. known. }
  bind_step H u2 w2 H2.
  { apply modify_properties_trace in H. injection H as _ ->. known. }
  apply add_to_es_trace in H. injection H as _ ->. known.
Qed.

Lemma add_full_vector_raises (settings : value) w e w' :
  add_full_vector settings w = (Raise e, w') ->
  In (current_step w')
     ["retrieve_text"; "chunk_text"; "embed_text"; "modify_properties";
      "add_to_es"].
Proof.
  unfold add_full_vector. intros H.
  bind_step H u1 w1 H1.
  { apply retrieve_text_trace in H. injection H as _ ->. known. }
  bind_step H u2 w2 H2.
  { apply chunk_text_trace in H. injection H as _ ->. known. }
  bind_step H u3 w3 H3.
  { apply embed_text_trace in H. injection H as _ ->. known. }
  bind_step H u4 w4 H4.
  { apply modify_properties_trace in H. injection H as _ ->. known. }
  apply add_to_es_trace in H. injection H as _ ->. known.
Qed.

(** The steps a full-text pipeline assigns when it returns. *)
Lemma add_full_text_returns (settings text_file : value) w w' :
  add_full_text settings text_file w = (Ok tt, w') ->
  steps w'
  = steps w ++ ["extract_text"; "modify_properties"; "add_to_es"]
      ++ (if has_key (info w) "index_name_full_vector"
          then ["modify_data"] else []).
Proof.
  unfold add_full_text. intros H.
  bind_step H u1 w1 H1; [discriminate Hr|].
  bind_step H u2 w2 H2; [discriminate Hr|].
  pose proof (@extract_text_evolves _ _ _ _ H1) as E1.
  pose proof (@modify_properties_evolves _ _ _ H2) as E2.
  unfold via in E1, E2.
  apply extract_text_trace in H1. injection H1 as S1 _.
  apply modify_properties_trace in H2. injection H2 as S2 _.
  apply add_to_es_trace in H. unfold has_key in *.
  rewrite (evolves_getitem E2), (evolves_getitem E1) in H by discriminate.
  destruct (is_ok (getitem (info w) "index_name_full_vector"));
    injection H as -> _; rewrite S2, S1, <- !app_assoc; reflexivity.
Qed.

End Stages.

(** C1 (as amended).  A job run as [full_text] that completes assigns
    to [current_step], in this order, extract_text, modify_properties,
    add_to_es, modify_data, idle, whatever the step held when the job
    started (idle in a new executor and after a job that returned, the
    stage that raised after a job that failed); the step modify_data is
    missing only when the settings have no key [index_name_full_vector],
    which the metadata update reads.  The run ends in idle, and every
    value assigned is one of the eight [assigned_steps]: the seven
    documented ones and modify_data. *)
Theorem full_text_steps {C : Collaborators}
        (settings text_file : value) (w : World) (r : value) (w' : World) :
  start settings (VStr "full_text") text_file w = (Ok r, w') ->
  steps w'
  = steps w
      ++ ["extract_text"; "modify_properties"; "add_to_es"]
      ++ (if has_key settings "index_name_full_vector"
          then ["modify_data"] else [])
      ++ ["idle"]
  /\ current_step w' = "idle"
  /\ Forall (fun s => In s assigned_steps)
            (["extract_text"; "modify_properties"; "add_to_es"]
               ++ (if has_key settings "index_name_full_vector"
                   then ["modify_data"] else [])
               ++ ["idle"]).
Proof.
  intros H. unfold start in H.
  bind_step H u0 w0 H0; [discriminate Hr|].
  unfold set_info in H0. injection H0 as _ <-.
  simpl eq_str in H. cbv iota in H.
  bind_step H u1 w1 H1; [discriminate Hr|].
  destruct u1. apply add_full_text_returns in H1. simpl in H1.
  rewrite reset_returns in H. injection H as _ <-. simpl.
  rewrite H1.
  destruct (has_key settings "index_name_full_vector");
    (split; [rewrite <- !app_assoc; reflexivity|]);
    (split; [reflexivity|]);
    repeat (apply Forall_cons; [known|]); apply Forall_nil.
Qed.

(** The hypothesis of [full_text_steps] holds of the frontend's
    full-text job run in the executor that the untitled job left at
    extract_text, the stage that raised: the step is assigned
    extract_text again and then the rest of the sequence. *)
Lemma full_text_steps_witness :
  let failed := start (C := Mock.collaborators) Mock.untitled_settings
                      (VStr "full_text") (VBytes "%PDF") Mock.world0 in
  let run := start (C := Mock.collaborators) Mock.full_text_settings
                   (VStr "full_text") (VBytes "%PDF") (snd failed) in
  fst failed = Raise (KeyError "title")
  /\ current_step (snd failed) = "extract_text"
  /\ steps (snd run)
     = steps (snd failed)
         ++ ["extract_text"; "modify_properties"; "add_to_es";
             "modify_data"; "idle"]
  /\ current_step (snd run) = "idle".
Proof.
  cbv zeta.
  split; [vm_compute; reflexivity|]. split; [vm_compute; reflexivity|].
  destruct (@full_text_steps Mock.collaborators Mock.full_text_settings
              (VBytes "%PDF")
              (snd (start (C := Mock.collaborators) Mock.untitled_settings
                          (VStr "full_text") (VBytes "%PDF") Mock.world0))
              (VBool true)
              (snd (start (C := Mock.collaborators) Mock.full_text_settings
                          (VStr "full_text") (VBytes "%PDF")
                          (snd (start (C := Mock.collaborators)
                                      Mock.untitled_settings
                                      (VStr "full_text") (VBytes "%PDF")
                                      Mock.world0))))
              ltac:(vm_compute; reflexivity))
    as (H1 & H2 & _).
  split; [exact H1|exact H2].
Defined.

(** C1 as stated fails: the frontend's full-text job passes through the
    step modify_data, which is none of the seven documented values. *)
Lemma full_text_passes_modify_data :
  let run := start (C := Mock.collaborators) Mock.full_text_settings
                   (VStr "full_text") (VBytes "%PDF") Mock.world0 in
  fst run = Ok (VBool true)
  /\ current_step Mock.world0 :: steps (snd run)
     = ["idle"; "extract_text"; "modify_properties"; "add_to_es";
        "modify_data"; "idle"]
  /\ ~ In "modify_data" documented_steps.
Proof.
  split; [vm_compute; reflexivity|]. split; [vm_compute; reflexivity|].
  simpl. intros H.
  repeat (destruct H as [H|H]; [discriminate H|]). exact H.
Qed.

(** C3 (as amended).  [execute.start] resets the context only when it
    returns: then [info] and [output] are None and [current_step] is
    idle.  When a stage raises, the exception leaves [start] with no
    reset: [info] still holds the job's settings (with the properties
    assigned so far) and [current_step] still names the stage that
    raised. *)
Theorem start_resets_only_on_return {C : Collaborators}
        (settings job_type text_file : value) (w : World)
        (r : result value) (w' : World) :
  start settings job_type text_file w = (r, w') ->
  match r with
  | Ok v =>
      v = VBool true /\ info w' = VNone /\ output w' = VNone
      /\ current_step w' = "idle"
  | Raise _ =>
      evolves settings (info w')
      /\ In (current_step w')
            ["extract_text"; "modify_properties"; "add_to_es";
             "retrieve_text"; "chunk_text"; "embed_text"]
      /\ exists assigned,
          steps w' = steps w ++ assigned
          /\ current_step w' = last assigned (current_step w)
  end.
Proof.
  intros H.
  pose proof (@start_assigns_known C settings job_type text_file _ _ _ H)
    as (assigned & Hsteps & _ & Hlast).
  unfold start in H.
  bind_step H u0 w0 H0; [discriminate H|].
  unfold set_info in H0. injection H0 as _ <-.
  bind_step H u1 w1 H1.
  - subst r.
    destruct (eq_str job_type "full_text");
      [|destruct (eq_str job_type "full_vector");
        [|destruct (eq_str job_type "chunked_pairs")]].
    + split; [|split; [|now exists assigned]].
      * exact (@add_full_text_evolves _ _ _ _ _ _ H).
      * apply add_full_text_raises in H. simpl in *. tauto.
    + split; [|split; [|now exists assigned]].
      * exact (@add_full_vector_evolves _ _ _ _ _ H).
      * apply add_full_vector_raises in H. simpl in *. tauto.
    + change (add_chunked_pairs settings) with (add_full_vector settings)
        in H.
      split; [|split; [|now exists assigned]].
      * exact (@add_full_vector_evolves _ _ _ _ _ H).
      * apply add_full_vector_raises in H. simpl in *. tauto.
    + discriminate H.
  - rewrite reset_returns in H. injection H as <- <-. simpl. auto.
Qed.

(** The hypothesis of [start_resets_only_on_return] holds of the untitled
    job, whose first stage raises. *)
Lemma start_resets_only_on_return_witness :
  let run := start (C := Mock.collaborators) Mock.untitled_settings
                   (VStr "full_text") (VBytes "%PDF") Mock.world0 in
  evolves Mock.untitled_settings (info (snd run))
  /\ In (current_step (snd run))
        ["extract_text"; "modify_properties"; "add_to_es";
         "retrieve_text"; "chunk_text"; "embed_text"]
  /\ exists assigned,
      steps (snd run) = steps Mock.world0 ++ assigned
      /\ current_step (snd run) = last assigned (current_step Mock.world0).
Proof.
  exact (@start_resets_only_on_return Mock.collaborators
           Mock.untitled_settings (VStr "full_text") (VBytes "%PDF")
           Mock.world0 (Raise (KeyError "title"))
           (snd (start (C := Mock.collaborators) Mock.untitled_settings
                       (VStr "full_text") (VBytes "%PDF") Mock.world0))
           eq_refl).
Defined.

(** C3 as stated fails: the job without a title raises in extract_text,
    and [start] leaves [info] holding the settings and [current_step] at
    extract_text. *)
Lemma start_leaves_context_on_exception :
  let run := start (C := Mock.collaborators) Mock.untitled_settings
                   (VStr "full_text") (VBytes "%PDF") Mock.world0 in
  fst run = Raise (KeyError "title")
  /\ info (snd run) = Mock.untitled_settings
  /\ info (snd run) <> VNone
  /\ current_step (snd run) = "extract_text"
  /\ current_step (snd run) <> "idle".
Proof.
  vm_compute. repeat split; discriminate.
Qed.

Lemma eq_str_false (v : value) (s : string) :
  v <> VStr s -> eq_str v s = false.
Proof.
  destruct v; simpl; try reflexivity.
  intros H. destruct (String.eqb_spec s0 s); [subst; congruence|reflexivity].
Qed.

(** C10.  A job whose type is none of the three runs no stage and
    touches neither the store nor the log; [start] clears the context,
    assigns idle and returns True. *)
Theorem start_unknown_type {C : Collaborators}
        (settings job_type text_file : value) (w : World) :
  job_type <> VStr "full_text" ->
  job_type <> VStr "full_vector" ->
  job_type <> VStr "chunked_pairs" ->
  start settings job_type text_file w
  = (Ok (VBool true),
     mkWorld VNone VNone "idle" (chunk_size w) (overlap w) (es w)
             (clock w) (log w) (steps w ++ ["idle"])).
Proof.
  intros H1 H2 H3. unfold start.
  rewrite (eq_str_false H1), (eq_str_false H2), (eq_str_false H3).
  reflexivity.
Qed.

(** The hypotheses of [start_unknown_type] hold of a job typed
    ["summary"]. *)
Lemma start_unknown_type_witness :
  start (C := Mock.collaborators) Mock.full_text_settings (VStr "summary")
        VNone Mock.world0
  = (Ok (VBool true),
     mkWorld VNone VNone "idle" 512 (VFloat (2 # 10)) Mock.store0 0 []
             ["idle"]).
Proof.
  apply (@start_unknown_type Mock.collaborators Mock.full_text_settings
           (VStr "summary") VNone Mock.world0); discriminate.
Defined.

End ExecuteProps.


(* ================================================================== *)
(** * Properties of [add_to_es] *)
(* ================================================================== *)

Module AddToEsProps.

Import Frame Execute ExecuteProps ElasticSearch.

#[export] Instance no_new_index_preorder : PreOrder no_new_index.
Proof.
  split.
  - intros l. exists []. rewrite app_nil_r. split; [reflexivity|constructor].
  - intros a b c (l1 & -> & F1) (l2 & -> & F2).
    exists (l1 ++ l2). rewrite app_assoc. split; [reflexivity|].
    apply Forall_app. auto.
Qed.

Lemma run_ok {A B} (m : M A) (k : A -> M B) w a w1 :
  m w = (Ok a, w1) -> bind m k w = k a w1.
Proof. unfold bind. now intros ->. Qed.

Lemma run_get_info {B} (k : value -> M B) w :
  bind get_info k w = k (info w) w.
Proof. reflexivity. Qed.

Lemma run_get_output {B} (k : value -> M B) w :
  bind get_output k w = k (output w) w.
Proof. reflexivity. Qed.

Lemma run_lift_ok {A B} (a : A) (k : A -> M B) w :
  bind (lift (Ok a)) k w = k a w.
Proof. reflexivity. Qed.

Lemma run_set_current_step {B} (s : string) (k : unit -> M B) w :
  bind (set_current_step s) k w
  = k tt (mkWorld (info w) (output w) s (chunk_size w) (overlap w) (es w)
                  (clock w) (log w) (steps w ++ [s])).
Proof. reflexivity. Qed.

Lemma find_doc_put_same ds (index id : string) (d : dict) :
  find_doc (put_doc ds index id d) index id = Some d.
Proof.
  assert (Hsame : same_doc index id (index, id) = true).
  { unfold same_doc. simpl. now rewrite !String.eqb_refl. }
  induction ds as [|[key d0] ds IH]; simpl.
  - now rewrite Hsame.
  - destruct (same_doc index id key) eqn:E; simpl; rewrite E; auto.
Qed.

Lemma dict_get_source_filter (fields : list string) (d : dict) (k : string) :
  dict_get (source_filter fields d) k
  = if existsb (String.eqb k) fields then dict_get d k else None.
Proof.
  unfold source_filter.
  induction d as [|[k0 v0] d IH]; simpl.
  - now destruct (existsb (String.eqb k) fields).
  - destruct (String.eqb_spec k0 k) as [->|Hne].
    + destruct (existsb (String.eqb k) fields) eqn:E; simpl.
      * now rewrite String.eqb_refl.
      * exact IH.
    + destruct (existsb (String.eqb k0) fields); simpl.
      * destruct (String.eqb_spec k0 k); [congruence|exact IH].
      * exact IH.
Qed.

Lemma dict_get_merge_doc (stored partial : dict) (k : string) :
  dict_get (merge_doc stored partial) k
  = match dict_get partial k with
    | Some v => Some v
    | None => dict_get stored k
    end.
Proof.
  unfold merge_doc.
  induction partial as [|[k0 v0] partial IH]; simpl; [reflexivity|].
  destruct (String.eqb_spec k0 k) as [->|Hne].
  - apply dict_get_set_same.
  - rewrite dict_get_set_other by congruence. exact IH.
Qed.

#[local] Arguments dict_set : simpl never.
#[local] Arguments put_doc : simpl never.
#[local] Arguments find_doc : simpl never.
#[local] Arguments merge_doc : simpl never.
#[local] Arguments source_filter : simpl never.

Ltac fields :=
  cbn [info output current_step chunk_size overlap es clock log steps
       docs calls indexed set_es].

Ltac fields_in H :=
  cbn [info output current_step chunk_size overlap es clock log steps
       docs calls indexed set_es] in H.

(** A component that the first part of a sequence never changes, and
    that the second part has not changed when it raises, is as it was
    when the sequence raises. *)
Lemma raise_keeps_bind {T A B} (proj : World -> T) (m : M A)
      (k : A -> M B) :
  respects (keeps proj) m ->
  (forall a w e w', k a w = (Raise e, w') -> proj w' = proj w) ->
  forall w e w', bind m k w = (Raise e, w') -> proj w' = proj w.
Proof.
  intros Hm Hk w e w' H.
  bind_step H a w1 H1.
  - exact (Hm _ _ _ H).
  - rewrite (Hk _ _ _ _ H). exact (Hm _ _ _ H1).
Qed.

(** One step of a sequence that raises, for the stored documents. *)
Ltac raise_step :=
  refine (@raise_keeps_bind _ _ _ (fun w => docs (es w)) _ _ _ _);
  [unfold keeps; respects_steps|].

Section AddToEs.

Context {C : Collaborators}.

(** ** The write *)

Lemma set_property_returns (k : string) (v : value) (w : World)
      (d p : dict) :
  info w = VDict d ->
  dict_get d "properties" = Some (VDict p) ->
  set_property k v w
  = (Ok tt,
     mkWorld (VDict (dict_set d "properties" (VDict (dict_set p k v))))
             (output w) (current_step w) (chunk_size w) (overlap w)
             (es w) (clock w) (log w) (steps w)).
Proof.
  intros Hinfo Hp. unfold set_property.
  rewrite run_get_info, Hinfo.
  unfold setitem2, getitem. rewrite Hp. reflexivity.
Qed.

Lemma post_add_data_returns (index : string) (document : dict) (w : World) :
  es_fault (calls (es w)) (Index index document) = false ->
  post_add_data (VStr index) (VDict document) w
  = (Ok (VDict
           [ ("status", VStr "success");
             ("response",
               VDict [ ("_index", VStr index);
                       ("_id", VStr (es_new_id (indexed (es w))));
                       ("result", VStr "created") ]) ]),
     set_es (Store (put_doc (docs (es w)) index
                      (es_new_id (indexed (es w))) document)
                   (calls (es w) ++ [Index index document])
                   (S (indexed (es w)))) w).
Proof.
  intros Hfault.
  unfold post_add_data, try_except, bind, lift, client_index.
  simpl. rewrite Hfault. reflexivity.
Qed.

(** When the transport accepts the document, [write_target] returns,
    having made the one [Index] call. *)
Lemma write_target_returns (field key : string) (keep : bool) (w : World)
      (d p : dict) (idx : string) :
  info w = VDict d ->
  dict_get d "properties" = Some (VDict p) ->
  dict_get d key = Some (VStr idx) ->
  key <> "properties" ->
  es_fault (calls (es w)) (Index idx (dict_set p field (output w))) = false ->
  exists info',
    write_target field key keep w
    = (Ok tt,
       mkWorld info' (output w) (current_step w) (chunk_size w) (overlap w)
               (Store (put_doc (docs (es w)) idx
                         (es_new_id (indexed (es w)))
                         (dict_set p field (output w)))
                      (calls (es w)
                         ++ [Index idx (dict_set p field (output w))])
                      (S (indexed (es w))))
               (clock w) (log w) (steps w)).
Proof.
  intros Hinfo Hp Hidx Hkey Hfault.
  unfold write_target.
  rewrite run_get_output.
  rewrite (@run_ok _ _ _ _ _ _ _
             (@set_property_returns field (output w) w d p Hinfo Hp)).
  rewrite run_get_info. fields.
  unfold getitem at 1. rewrite dict_get_set_other by exact Hkey.
  rewrite Hidx, run_lift_ok.
  unfold getitem at 1. rewrite dict_get_set_same, run_lift_ok.
  erewrite run_ok by (apply post_add_data_returns; exact Hfault).
  fields. unfold set_es. fields.
  destruct keep.
  - repeat (simpl getitem; rewrite run_lift_ok).
    erewrite set_property_returns;
      [|reflexivity|fields; apply dict_get_set_same].
    fields. eexists. reflexivity.
  - eexists. reflexivity.
Qed.

Lemma write_for_target (T field key : string) (keep : bool) :
  In (T, (field, key, keep)) targets ->
  write_for (VStr T) = write_target field key keep /\ key <> "properties".
Proof.
  intros [H|[H|[H|[]]]]; injection H as <- <- <- <-;
    (split; [reflexivity|discriminate]).
Qed.

(** ** The metadata update *)

(** What [post_modify_data] has done to a metadata record when it
    returns: it read the record, stamped [latest_update] with the clock,
    added one to [number_of_data], and wrote both fields back. *)
Lemma post_modify_metadata_returns (name : string) (target : value)
      (fields : list string) (w w' : World) :
  post_modify_data "metadata" name target fields VNone VNone VNone VNone w
  = (Ok tt, w') ->
  exists mid stored n n',
    target = VStr mid
    /\ find_doc (docs (es w)) name mid = Some stored
    /\ dict_get (source_filter fields stored) "number_of_data" = Some n
    /\ add_one n = Ok n'
    /\ w' = mkWorld (info w) (output w) (current_step w) (chunk_size w)
                    (overlap w)
                    (Store
                       (put_doc (docs (es w)) name mid
                          (merge_doc stored
                             (dict_set
                                (dict_set (source_filter fields stored)
                                   "latest_update"
                                   (VStr (isoformat (clock w))))
                                "number_of_data" n')))
                       (calls (es w)
                          ++ [Get name mid fields;
                              Update name mid
                                (dict_set
                                   (dict_set (source_filter fields stored)
                                      "latest_update"
                                      (VStr (isoformat (clock w))))
                                   "number_of_data" n')])
                       (indexed (es w)))
                    (S (clock w)) (log w) (steps w).
Proof.
  unfold post_modify_data. intros H.
  bind_step H mid w1 H1; [discriminate Hr|].
  destruct target; try discriminate H1.
  unfold lift in H1. simpl in H1. injection H1 as <- <-.
  bind_step H res w1 H1; [discriminate Hr|].
  unfold client_get in H1. cbv zeta in H1.
  destruct (es_fault (calls (es w)) (Get name s fields));
    [discriminate H1|].
  destruct (find_doc (docs (es w)) name s) as [stored|] eqn:Hfind;
    [|discriminate H1].
  injection H1 as <- <-.
  simpl getitem in H. rewrite run_lift_ok in H.
  simpl String.eqb in H. cbv iota in H.
  bind_step H fields2 w2 H2; [discriminate Hr|].
  unfold datetime_now in H2. rewrite run_ok with (a := VStr (isoformat (clock w)))
    (w1 := mkWorld (info w) (output w) (current_step w) (chunk_size w)
             (overlap w)
             (Store (docs (es w)) (calls (es w) ++ [Get name s fields])
                    (indexed (es w)))
             (S (clock w)) (log w) (steps w)) in H2 by reflexivity.
  simpl setitem in H2. rewrite run_lift_ok in H2.
  unfold getitem in H2 at 1.
  rewrite dict_get_set_other in H2 by discriminate.
  destruct (dict_get (source_filter fields stored) "number_of_data")
    as [n|] eqn:Hn; [|discriminate H2].
  rewrite run_lift_ok in H2.
  destruct (add_one n) as [n'|] eqn:Hn'; [|discriminate H2].
  rewrite run_lift_ok in H2. simpl in H2. injection H2 as <- <-.
  simpl as_dict in H. rewrite run_lift_ok in H.
  bind_step H upd w3 H3; [discriminate Hr|].
  unfold client_update in H3. cbv zeta in H3. fields_in H3.
  match type of H3 with
  | context [if ?b then _ else _] => destruct b; [discriminate H3|]
  end.
  rewrite Hfind in H3. injection H3 as <- <-.
  injection H as <-.
  exists s, stored, n, n'. repeat split; try assumption.
  unfold set_es. fields. rewrite <- app_assoc. reflexivity.
Qed.

Lemma prefix_metadata (T : string) :
  String.prefix "metadata" ("metadata_" ++ T) = true.
Proof. reflexivity. Qed.

Lemma update_metadata_calls :
  respects (via (fun w => calls (es w)) no_new_index) update_metadata.
Proof.
  assert (Hget : forall index id source,
             respects (via (fun w => calls (es w)) no_new_index)
                      (client_get index id source)).
  { intros index id source w r w' H. unfold client_get in H. cbv zeta in H.
    destruct (es_fault _ _);
      [injection H as _ <-; unfold via; reflexivity|].
    destruct (find_doc _ _ _);
      injection H as _ <-; unfold via; [|reflexivity].
    exists [Get index id source]. split; [reflexivity|].
    repeat constructor. }
  assert (Hupd : forall index id doc,
             respects (via (fun w => calls (es w)) no_new_index)
                      (client_update index id doc)).
  { intros index id doc w r w' H. unfold client_update in H. cbv zeta in H.
    destruct (es_fault _ _);
      [injection H as _ <-; unfold via; reflexivity|].
    destruct (find_doc _ _ _);
      injection H as _ <-; unfold via; [|reflexivity].
    exists [Update index id doc]. split; [reflexivity|].
    repeat constructor. }
  unfold update_metadata. respects_steps.
Qed.

Lemma update_metadata_indexed :
  respects (keeps (fun w => indexed (es w))) update_metadata.
Proof. unfold keeps, update_metadata. respects_steps. Qed.

(** [post_modify_data] changes the documents with its last call only:
    when it raises, they are as they were. *)
Lemma post_modify_data_raises (type name : string) (target : value)
      (fields : list string) (a b c d : value) :
  forall w e w',
    post_modify_data type name target fields a b c d w = (Raise e, w') ->
    docs (es w') = docs (es w).
Proof.
  unfold post_modify_data.
  raise_step. intros id.
  raise_step. intros res.
  raise_step. intros fields1.
  raise_step. intros fields2.
  raise_step. intros doc.
  intros w e w' H. bind_step H u w1 H1.
  - run_primitive H; reflexivity.
  - discriminate H.
Qed.

Lemma modify_data_raises (name : string) (arg : value) :
  forall w e w',
    modify_data name arg w = (Raise e, w') -> docs (es w') = docs (es w).
Proof.
  unfold modify_data.
  raise_step. intros [].
  destruct (String.prefix "metadata" name).
  - raise_step. intros info. raise_step. intros target.
    apply post_modify_data_raises.
  - intros w e w' H. discriminate H.
Qed.

(** [post_modify_data] on a metadata record that counts [z] documents,
    when the store answers the read and the write: the record is read,
    and written back with the clock in [latest_update] and [z + 1] in
    [number_of_data]. *)
Lemma post_modify_metadata_happens (name mid : string) (w : World)
      (stored : dict) (z : Z) :
  find_doc (docs (es w)) name mid = Some stored ->
  dict_get stored "number_of_data" = Some (VInt z) ->
  let fields := ["latest_update"; "number_of_data"] in
  let update :=
    dict_set (dict_set (source_filter fields stored) "latest_update"
                       (VStr (isoformat (clock w))))
             "number_of_data" (VInt (z + 1)) in
  es_fault (calls (es w)) (Get name mid fields) = false ->
  es_fault (calls (es w) ++ [Get name mid fields]) (Update name mid update)
  = false ->
  post_modify_data "metadata" name (VStr mid) fields VNone VNone VNone VNone
                   w
  = (Ok tt,
     mkWorld (info w) (output w) (current_step w) (chunk_size w) (overlap w)
             (Store (put_doc (docs (es w)) name mid (merge_doc stored update))
                    (calls (es w)
                       ++ [Get name mid fields; Update name mid update])
                    (indexed (es w)))
             (S (clock w)) (log w) (steps w)).
Proof.
  intros Hfind Hn fields update Hget Hupdate.
  unfold post_modify_data.
  cbn [as_str]. rewrite run_lift_ok.
  erewrite run_ok
    by (unfold client_get; cbv zeta; rewrite Hget, Hfind; reflexivity).
  simpl getitem. rewrite run_lift_ok.
  simpl String.eqb. cbv iota.
  unfold bind, lift, ret, set_es, datetime_now. fields.
  cbn [setitem]. unfold getitem.
  rewrite dict_get_set_other by discriminate.
  rewrite dict_get_source_filter.
  change (existsb (String.eqb "number_of_data") fields) with true.
  cbv iota. rewrite Hn. cbn [add_one setitem as_dict].
  unfold client_update. cbv zeta. fields.
  fold update. rewrite Hupdate, Hfind.
  unfold set_es. fields. rewrite <- app_assoc. reflexivity.
Qed.

(** The metadata update of [add_to_es] when nothing stands in its
    way. *)
Lemma update_metadata_happens (w : World) (T mid : string) (stored : dict)
      (z : Z) :
  getitem (info w) "target_index_type" = Ok (VStr T) ->
  is_ok (getitem (info w) "index_name_full_vector") = true ->
  getitem (info w) "metadata_index_modify_id" = Ok (VStr mid) ->
  find_doc (docs (es w)) ("metadata_" ++ T) mid = Some stored ->
  dict_get stored "number_of_data" = Some (VInt z) ->
  let fields := ["latest_update"; "number_of_data"] in
  let update :=
    dict_set (dict_set (source_filter fields stored) "latest_update"
                       (VStr (isoformat (clock w))))
             "number_of_data" (VInt (z + 1)) in
  es_fault (calls (es w)) (Get ("metadata_" ++ T) mid fields) = false ->
  es_fault (calls (es w) ++ [Get ("metadata_" ++ T) mid fields])
           (Update ("metadata_" ++ T) mid update)
  = false ->
  update_metadata w
  = (Ok tt,
     mkWorld (info w) (output w) "modify_data" (chunk_size w) (overlap w)
             (Store (put_doc (docs (es w)) ("metadata_" ++ T) mid
                             (merge_doc stored update))
                    (calls (es w)
                       ++ [Get ("metadata_" ++ T) mid fields;
                           Update ("metadata_" ++ T) mid update])
                    (indexed (es w)))
             (S (clock w)) (log w) (steps w ++ ["modify_data"])).
Proof.
  intros HT Hkey Hmid Hfind Hn fields update Hget Hupdate.
  unfold update_metadata, try_except.
  rewrite run_get_info, HT, run_lift_ok.
  destruct (getitem (info w) "index_name_full_vector") as [name|];
    [|discriminate Hkey].
  rewrite run_lift_ok.
  unfold modify_data.
  rewrite run_set_current_step.
  simpl py_str. rewrite prefix_metadata.
  rewrite run_get_info. fields. rewrite Hmid, run_lift_ok.
  rewrite (@post_modify_metadata_happens ("metadata_" ++ T) mid _ stored z);
    fields; try assumption.
  reflexivity.
Qed.

(** The metadata update either is caught failing, which the log shows
    and which leaves the documents as they were, or has rewritten the
    record of the job's metadata index: one more in [number_of_data],
    the clock in [latest_update], the other fields as they were. *)
Lemma update_metadata_returns_spec (w w' : World) (T : string) :
  getitem (info w) "target_index_type" = Ok (VStr T) ->
  update_metadata w = (Ok tt, w') ->
  (exists e,
      log w' = log w ++ [Log EXCEPTION metadata_failure (Some e)]
      /\ docs (es w') = docs (es w))
  \/ (exists mid stored n n' stored',
        getitem (info w) "metadata_index_modify_id" = Ok (VStr mid)
        /\ find_doc (docs (es w)) ("metadata_" ++ T) mid = Some stored
        /\ dict_get stored "number_of_data" = Some n
        /\ add_one n = Ok n'
        /\ docs (es w') = put_doc (docs (es w)) ("metadata_" ++ T) mid stored'
        /\ dict_get stored' "number_of_data" = Some n'
        /\ dict_get stored' "latest_update"
           = Some (VStr (isoformat (clock w)))
        /\ (forall k, k <> "number_of_data" -> k <> "latest_update" ->
                      dict_get stored' k = dict_get stored k)
        /\ log w' = log w).
Proof.
  intros HT H. unfold update_metadata, try_except in H.
  match type of H with
  | context [match ?body w with _ => _ end] =>
      destruct (body w) as [[[]|e] w1] eqn:E
  end.
  - right. injection H as <-.
    rewrite run_get_info, HT, run_lift_ok in E.
    bind_step E arg w2 H2; [discriminate Hr|].
    unfold lift in H2.
    destruct (getitem (info w) "index_name_full_vector"); [|discriminate H2].
    injection H2 as <- <-.
    unfold modify_data in E.
    rewrite run_set_current_step in E.
    simpl py_str in E. rewrite prefix_metadata in E.
    rewrite run_get_info in E. fields_in E.
    bind_step E target w3 H3; [discriminate Hr|].
    unfold lift in H3.
    destruct (getitem (info w) "metadata_index_modify_id") as [mid|] eqn:Hmid;
      [|discriminate H3].
    injection H3 as <- <-.
    apply post_modify_metadata_returns in E.
    destruct E as (m & stored & n & n' & -> & Hfind & Hn & Hn' & ->).
    fields_in Hfind. fields.
    rewrite dict_get_source_filter in Hn. simpl existsb in Hn.
    exists m, stored, n, n'. eexists.
    split; [reflexivity|]. split; [exact Hfind|]. split; [exact Hn|].
    split; [exact Hn'|]. split; [reflexivity|].
    split; [|split; [|split; [|reflexivity]]].
    + rewrite dict_get_merge_doc, dict_get_set_same. reflexivity.
    + rewrite dict_get_merge_doc, dict_get_set_other by discriminate.
      rewrite dict_get_set_same. reflexivity.
    + intros k Hk1 Hk2.
      rewrite dict_get_merge_doc, !dict_get_set_other by congruence.
      rewrite dict_get_source_filter.
      destruct (existsb (String.eqb k) _); [|reflexivity].
      now destruct (dict_get stored k).
  - left. exists e. unfold logger in H. injection H as <-. fields.
    assert (Hlog : respects (keeps log)
              (info <- get_info ;;
               t <- lift (getitem info "target_index_type") ;;
               data_added_index_name <-
                 lift (getitem info "index_name_full_vector") ;;
               modify_data ("metadata_" ++ py_str t)%string
                           data_added_index_name)).
    { unfold keeps. respects_steps. }
    assert (Hdocs : forall w0 e0 w0',
              (info <- get_info ;;
               t <- lift (getitem info "target_index_type") ;;
               data_added_index_name <-
                 lift (getitem info "index_name_full_vector") ;;
               modify_data ("metadata_" ++ py_str t)%string
                           data_added_index_name) w0 = (Raise e0, w0') ->
              docs (es w0') = docs (es w0)).
    { raise_step. intros info0. raise_step. intros t.
      raise_step. intros name. apply modify_data_raises. }
    split.
    + apply Hlog in E. unfold keeps, via in E. rewrite E. reflexivity.
    + exact (Hdocs _ _ _ E).
Qed.

Lemma getitem_dict (d : dict) (k : string) (v : value) :
  getitem (VDict d) k = Ok v -> dict_get d k = Some v.
Proof.
  unfold getitem. destruct (dict_get d k); [|discriminate].
  intros H. now injection H as ->.
Qed.

(** [+= 1] on a number: an int, a bool read as an int, or a float. *)
Lemma add_one_cases (n n' : value) :
  add_one n = Ok n' ->
  (exists z, n = VInt z /\ n' = VInt (z + 1))
  \/ (exists b, n = VBool b /\ n' = VInt ((if b then 1 else 0) + 1))
  \/ (exists q, n = VFloat q /\ n' = VFloat (q + 1)%Q).
Proof.
  destruct n; simpl; intros H; try discriminate H; injection H as <-; eauto.
Qed.

End AddToEs.

(** C8.  For a job of one of the three target types whose primary write
    the store accepts, [add_to_es] returns normally, having created
    exactly one document, in the job's target index.  It then issues
    the metadata update: when the settings carry the key
    [index_name_full_vector] and name a record of the job's metadata
    index that counts [z] documents, and the store answers the read and
    the write, the calls after the primary write are that read and that
    write and the record counts [z + 1] with [latest_update] set to the
    clock, nothing else changed and nothing logged.  In every case
    either the record has been rewritten in this way, or the update
    raised, the exception was caught and logged, the documents are as
    the primary write left them, and [add_to_es] returned all the
    same. *)
Theorem add_to_es_one_write_then_metadata {C : Collaborators}
        (w : World) (d p : dict) (T field key idx : string) (keep : bool) :
  info w = VDict d ->
  dict_get d "target_index_type" = Some (VStr T) ->
  In (T, (field, key, keep)) targets ->
  dict_get d key = Some (VStr idx) ->
  dict_get d "properties" = Some (VDict p) ->
  es_fault (calls (es w)) (Index idx (dict_set p field (output w))) = false ->
  let document := dict_set p field (output w) in
  let written :=
    put_doc (docs (es w)) idx (es_new_id (indexed (es w))) document in
  let name := ("metadata_" ++ T)%string in
  let fields := ["latest_update"; "number_of_data"] in
  exists w' rest,
    add_to_es w = (Ok tt, w')
    /\ calls (es w') = calls (es w) ++ Index idx document :: rest
    /\ Forall (fun c => is_index c = false) rest
    /\ indexed (es w') = S (indexed (es w))
    /\ (forall (mid : string) (stored : dict) (z : Z),
          has_key (VDict d) "index_name_full_vector" = true ->
          dict_get d "metadata_index_modify_id" = Some (VStr mid) ->
          find_doc written name mid = Some stored ->
          dict_get stored "number_of_data" = Some (VInt z) ->
          let update :=
            dict_set (dict_set (source_filter fields stored) "latest_update"
                               (VStr (isoformat (clock w))))
                     "number_of_data" (VInt (z + 1)) in
          es_fault (calls (es w) ++ [Index idx document])
                   (Get name mid fields) = false ->
          es_fault (calls (es w) ++ [Index idx document; Get name mid fields])
                   (Update name mid update) = false ->
          exists stored',
            rest = [Get name mid fields; Update name mid update]
            /\ docs (es w') = put_doc written name mid stored'
            /\ dict_get stored' "number_of_data" = Some (VInt (z + 1))
            /\ dict_get stored' "latest_update"
               = Some (VStr (isoformat (clock w)))
            /\ (forall k, k <> "number_of_data" -> k <> "latest_update" ->
                          dict_get stored' k = dict_get stored k)
            /\ log w' = log w)
    /\ ((exists e,
           log w' = log w ++ [Log EXCEPTION metadata_failure (Some e)]
           /\ docs (es w') = written)
        \/ (exists mid stored n n' stored',
              dict_get d "metadata_index_modify_id" = Some (VStr mid)
              /\ find_doc written name mid = Some stored
              /\ dict_get stored "number_of_data" = Some n
              /\ ((exists z, n = VInt z /\ n' = VInt (z + 1))
                  \/ (exists b,
                         n = VBool b
                         /\ n' = VInt ((if b then 1 else 0) + 1))
                  \/ (exists q, n = VFloat q /\ n' = VFloat (q + 1)%Q))
              /\ docs (es w') = put_doc written name mid stored'
              /\ dict_get stored' "number_of_data" = Some n'
              /\ dict_get stored' "latest_update"
                 = Some (VStr (isoformat (clock w)))
              /\ (forall k, k <> "number_of_data" -> k <> "latest_update" ->
                            dict_get stored' k = dict_get stored k)
              /\ log w' = log w)).
Proof.
  intros Hinfo HT Hin Hidx Hp Hfault document written name fields.
  destruct (write_for_target Hin) as [Hwf Hkey].
  unfold add_to_es.
  rewrite run_set_current_step, run_get_info. fields.
  rewrite Hinfo. unfold getitem at 1. rewrite HT, run_lift_ok, Hwf.
  destruct (@write_target_returns C field key keep
              (mkWorld (VDict d) (output w) "add_to_es" (chunk_size w)
                       (overlap w) (es w) (clock w) (log w)
                       (steps w ++ ["add_to_es"]))
              d p idx eq_refl Hp Hidx Hkey Hfault) as (info' & Hw).
  fields_in Hw.
  pose proof (@write_for_evolves C (VStr T) _ _ _
                (eq_ind_r (fun m => m _ = _) Hw Hwf)) as Hev.
  unfold via in Hev. fields_in Hev.
  rewrite (@run_ok _ _ _ _ _ _ _ Hw).
  match goal with
  | |- context [update_metadata ?w2] =>
      destruct (update_metadata_returns w2) as (w3 & Hret);
      pose proof (@update_metadata_calls C _ _ _ Hret) as Hcalls;
      pose proof (@update_metadata_indexed C _ _ _ Hret) as Hindexed;
      assert (Htype : getitem (info w2) "target_index_type" = Ok (VStr T))
        by (fields; rewrite (evolves_getitem Hev) by discriminate;
            unfold getitem; now rewrite HT);
      pose proof (@update_metadata_returns_spec C _ _ T Htype Hret) as Hspec;
      pose proof (@update_metadata_happens C w2 T) as Hhappens
  end.
  unfold keeps, via in Hcalls, Hindexed. fields_in Hcalls. fields_in Hindexed.
  fields_in Hspec. fields_in Hhappens.
  destruct Hcalls as (rest & Hrest & Hnoindex).
  exists w3, rest. split; [exact Hret|].
  split; [rewrite Hrest, <- app_assoc; reflexivity|].
  split; [exact Hnoindex|]. split; [exact Hindexed|].
  split.
  - intros mid stored z Hhas Hmid Hfind Hn Hget Hupdate.
    rewrite !(evolves_getitem Hev) in Hhappens by discriminate.
    specialize (Hhappens mid stored z).
    rewrite Hret in Hhappens.
    assert (G1 : getitem (VDict d) "target_index_type" = Ok (VStr T))
      by (unfold getitem; now rewrite HT).
    assert (G2 : getitem (VDict d) "metadata_index_modify_id"
                 = Ok (VStr mid))
      by (unfold getitem; now rewrite Hmid).
    rewrite <- app_assoc in Hhappens.
    specialize (Hhappens G1 Hhas G2 Hfind Hn Hget Hupdate).
    injection Hhappens as Hw3. subst w3. fields_in Hrest. fields.
    rewrite <- !app_assoc in Hrest.
    apply app_inv_head in Hrest. apply app_inv_head in Hrest.
    subst rest.
    eexists. split; [reflexivity|]. split; [reflexivity|].
    split; [|split; [|split; [|reflexivity]]].
    + rewrite dict_get_merge_doc, dict_get_set_same. reflexivity.
    + rewrite dict_get_merge_doc, dict_get_set_other by discriminate.
      rewrite dict_get_set_same. reflexivity.
    + intros k Hk1 Hk2.
      rewrite dict_get_merge_doc, !dict_get_set_other by congruence.
      rewrite dict_get_source_filter.
      destruct (existsb (String.eqb k) _); [|reflexivity].
      now destruct (dict_get stored k).
  - destruct Hspec
      as [(e & Hlog & Hdocs)
         |(mid & stored & n & n' & stored' & Hmid & Hfind & Hn & Hn'
           & Hrec)].
    + left. exists e. split; [exact Hlog|exact Hdocs].
    + right. exists mid, stored, n, n', stored'.
      split.
      { rewrite (evolves_getitem Hev) in Hmid by discriminate.
        now apply getitem_dict. }
      split; [exact Hfind|]. split; [exact Hn|].
      split; [exact (add_one_cases _ Hn')|exact Hrec].
Qed.

(** The hypotheses of [add_to_es_one_write_then_metadata] hold of the
    frontend's full-text job about to be written to the store of the
    test double: the document is written, and the record of the index,
    which counted seven documents, counts eight. *)
Lemma add_to_es_one_write_then_metadata_witness :
  exists w' stored',
    add_to_es (C := Mock.collaborators)
              (mkWorld Mock.full_text_settings (VStr "{}") "modify_properties"
                       512 (VFloat (2 # 10)) Mock.store0 1 [] [])
    = (Ok tt, w')
    /\ calls (es w')
       = [ Index "papers"
                 [ ("title", VStr "Report"); ("source_type", VStr "pdf");
                   ("text", VStr "{}") ];
           Get "metadata_full_text" "m1" ["latest_update"; "number_of_data"];
           Update "metadata_full_text" "m1"
                  [ ("latest_update", VStr "1");
                    ("number_of_data", VInt 8) ] ]
    /\ indexed (es w') = 1
    /\ find_doc (docs (es w')) "metadata_full_text" "m1" = Some stored'
    /\ dict_get stored' "number_of_data" = Some (VInt 8)
    /\ dict_get stored' "latest_update" = Some (VStr "1")
    /\ dict_get stored' "index_name" = Some (VStr "papers").
Proof.
  destruct (@add_to_es_one_write_then_metadata Mock.collaborators
              (mkWorld Mock.full_text_settings (VStr "{}") "modify_properties"
                       512 (VFloat (2 # 10)) Mock.store0 1 [] [])
              _ [("title", VStr "Report"); ("source_type", VStr "pdf")]
              "full_text" "text" "index_name_full_text" "papers" false
              eq_refl eq_refl (or_introl eq_refl) eq_refl eq_refl eq_refl)
    as (w' & rest & H1 & H2 & _ & H4 & Hupdate & _).
  destruct (Hupdate "m1"
              [ ("index_name", VStr "papers");
                ("latest_update", VStr "never");
                ("number_of_data", VInt 7) ]
              7%Z eq_refl eq_refl eq_refl eq_refl eq_refl eq_refl)
    as (stored' & Hrest & Hdocs & Hn & Hlatest & Hother & _).
  exists w', stored'.
  split; [exact H1|]. split; [rewrite H2, Hrest; reflexivity|].
  split; [exact H4|].
  split; [rewrite Hdocs; apply find_doc_put_same|].
  split; [exact Hn|]. split; [exact Hlatest|].
  rewrite Hother by discriminate. reflexivity.
Defined.

End AddToEsProps.


(* ================================================================== *)
(** * Properties of the embedding batcher *)
(* ================================================================== *)

Module EmbedProps.

Import Frame Execute ExecuteProps.

Lemma firstn_plus {A} (a b : nat) (l : list A) :
  firstn (a + b) l = firstn a l ++ firstn b (skipn a l).
Proof.
  revert l. induction a as [|a IH]; intros l; simpl; [reflexivity|].
  destruct l as [|x l]; simpl.
  - now rewrite firstn_nil.
  - now rewrite IH.
Qed.

(** A slice of [batch_size] items from a non-negative index. *)
Lemma py_slice_batch {A} (l : list A) (i b : nat) :
  py_slice l (Z.of_nat i) (Z.of_nat i + Z.of_nat b)
  = firstn b (skipn i l).
Proof.
  unfold py_slice, clamp_index.
  destruct (Z.ltb_spec (Z.of_nat i) 0); [lia|].
  destruct (Z.ltb_spec (Z.of_nat i + Z.of_nat b) 0); [lia|].
  destruct (Nat.le_gt_cases (length l) i) as [Hout|Hin].
  - rewrite !skipn_all2 by lia. now rewrite !firstn_nil.
  - replace (Z.to_nat (Z.max 0 (Z.min (Z.of_nat (length l)) (Z.of_nat i))))
      with i by lia.
    destruct (Nat.le_gt_cases (length l) (i + b)) as [Hshort|Hlong].
    + replace (Z.to_nat _) with (length l - i) by lia.
      rewrite <- (length_skipn i l).
      rewrite firstn_all.
      rewrite firstn_all2; [reflexivity|rewrite length_skipn; lia].
    + f_equal. lia.
Qed.

Lemma combine_with_map {A B D} (f : A -> B) (g : A * B -> D) (l : list A) :
  map g (combine l (map f l)) = map (fun a => g (a, f a)) l.
Proof. induction l as [|a l IH]; simpl; [reflexivity|now rewrite IH]. Qed.

Section Batches.

Context {C : Collaborators}.

Variable model : value.
Variable v : value -> value.

(** The provider's contract: one vector per text, in the order given. *)
Hypothesis provider : forall texts, embedding model texts = Ok (map v texts).

Lemma embed_loop_in_order (T : string) (texts : list value) (b : nat)
      (w : World) :
  getitem (info w) "target_index_type" = Ok (VStr T) ->
  T = "full_vector" \/ T = "chunked_pairs" ->
  forall n k0 acc,
    embed_loop model texts (Z.of_nat b)
               (map (fun k => (Z.of_nat k * Z.of_nat b)%Z) (seq k0 n)) acc w
    = (Ok (acc ++ embed_each v T (firstn (n * b) (skipn (k0 * b) texts))),
       w).
Proof.
  intros HT Htype.
  assert (Hsplit : forall l1 l2,
             embed_each v T (l1 ++ l2)
             = embed_each v T l1 ++ embed_each v T l2).
  { intros l1 l2. unfold embed_each.
    destruct (String.eqb T "full_vector"); apply map_app. }
  induction n as [|n IH]; intros k0 acc.
  - simpl. unfold embed_each, ret.
    destruct (String.eqb T "full_vector"); simpl; now rewrite app_nil_r.
  - cbn [seq map embed_loop].
    rewrite <- Nat2Z.inj_mul, py_slice_batch, provider.
    unfold bind at 1. unfold lift at 1.
    unfold bind at 1. unfold get_info at 1.
    rewrite HT. unfold bind at 1. unfold lift at 1.
    rewrite IH.
    replace (S n * b) with (b + n * b) by lia.
    rewrite firstn_plus, skipn_skipn, Hsplit, app_assoc.
    replace (S k0 * b) with (b + k0 * b) by lia.
    do 3 f_equal.
    unfold embed_each. simpl eq_str.
    destruct Htype as [-> | ->]; simpl; [reflexivity|].
    f_equal. apply combine_with_map.
Qed.

Lemma embed_each_length (T : string) (texts : list value) :
  length (embed_each v T texts) = length texts.
Proof.
  unfold embed_each. destruct (String.eqb T "full_vector");
    apply length_map.
Qed.

Lemma embed_batches_returns (T : string) (texts : list value)
      (batch_size : Z) (w : World) :
  (1 <= batch_size)%Z ->
  getitem (info w) "target_index_type" = Ok (VStr T) ->
  T = "full_vector" \/ T = "chunked_pairs" ->
  embed_batches model texts batch_size w = (Ok (embed_each v T texts), w).
Proof.
  intros Hb HT Htype.
  unfold embed_batches, py_range.
  destruct (Z.eqb_spec batch_size 0) as [Hz|Hnz]; [lia|].
  destruct (Z.ltb_spec batch_size 0) as [Hneg|Hnn]; [lia|].
  rewrite <- (Z2Nat.id batch_size) by lia.
  set (b := Z.to_nat batch_size).
  set (n := Z.to_nat ((Z.of_nat (length texts) + Z.of_nat b - 1)
                      / Z.of_nat b)).
  unfold bind at 1. unfold lift at 1.
  rewrite (@embed_loop_in_order T texts b w HT Htype n 0 []).
  simpl skipn. simpl app.
  rewrite firstn_all2; [reflexivity|].
  assert (Hpos : (0 < Z.of_nat b)%Z) by lia.
  pose proof (Z.div_mod (Z.of_nat (length texts) + Z.of_nat b - 1)
                         (Z.of_nat b) ltac:(lia)) as Hdiv.
  pose proof (Z.mod_pos_bound (Z.of_nat (length texts) + Z.of_nat b - 1)
                               (Z.of_nat b) Hpos) as Hmod.
  assert (Hq : (0 <= (Z.of_nat (length texts) + Z.of_nat b - 1)
                     / Z.of_nat b)%Z)
    by (apply Z.div_pos; lia).
  unfold n. nia.
Qed.

(** With the batch size the registry gives, [embed_text] stores the
    pairs for a [chunked_pairs] job, and for a [full_vector] job the
    pooled mean of the vectors. *)
Lemma embed_text_output (T : string) (texts : list value) (w : World) :
  getitem (info w) "embedding_model" = Ok model ->
  is_ok (batch_size_of model) = true ->
  output w = VList texts ->
  getitem (info w) "target_index_type" = Ok (VStr T) ->
  T = "full_vector" \/ T = "chunked_pairs" ->
  embed_text w
  = (Ok tt,
     mkWorld (info w)
             (if String.eqb T "full_vector"
              then np_mean (embed_each v T texts)
              else VList (embed_each v T texts))
             "embed_text" (chunk_size w) (overlap w) (es w) (clock w)
             (log w) (steps w ++ ["embed_text"])).
Proof.
  intros Hmodel Hsize Hout HT Htype.
  assert (Hb : exists b, batch_size_of model = Ok b /\ (1 <= b)%Z).
  { destruct (batch_size_of model) as [b|] eqn:E; [|discriminate Hsize].
    exists b. split; [reflexivity|].
    unfold batch_size_of in E.
    destruct model; try (injection E as <-; unfold cfg.batch_size_base; lia);
      try discriminate E.
    simpl in E.
    repeat match type of E with
           | context [if ?c then _ else _] => destruct c
           end;
      injection E as <-; unfold cfg.batch_size_base; lia. }
  destruct Hb as (b & Hbs & Hb).
  unfold embed_text.
  unfold bind at 1. unfold set_current_step at 1.
  unfold bind at 1. unfold get_info at 1. cbn [info].
  rewrite Hmodel. unfold bind at 1. unfold lift at 1.
  rewrite Hbs. unfold bind at 1. unfold lift at 1.
  unfold bind at 1. unfold get_output at 1. cbn [output].
  rewrite Hout. unfold bind at 1. unfold lift at 1. simpl as_list.
  unfold bind at 1.
  match goal with
  | |- context [embed_batches model texts b ?w1] =>
      rewrite (@embed_batches_returns T texts b w1 Hb HT Htype)
  end.
  unfold bind at 1. unfold get_info at 1. cbn [info].
  rewrite HT. unfold bind at 1. unfold lift at 1.
  unfold eq_str. destruct (String.eqb T "full_vector"); reflexivity.
Qed.

(** C7 (as amended).  Whatever the batch size, the batches of
    [embed_text] put together hold one entry per text, in the order of
    the texts, made of the provider's vector for that text alone: the
    vector itself for [full_vector], the record of the text and its
    vector for [chunked_pairs].  What [embed_text] leaves as its output
    is that list for [chunked_pairs] only; for [full_vector] it is the
    one value that pooling makes of the vectors. *)
Theorem embed_batches_in_order (T : string) (texts : list value)
        (batch_size : Z) (w : World) :
  (1 <= batch_size)%Z ->
  getitem (info w) "target_index_type" = Ok (VStr T) ->
  (T = "full_vector" ->
   embed_batches model texts batch_size w = (Ok (map v texts), w)
   /\ (getitem (info w) "embedding_model" = Ok model ->
       batch_size_of model = Ok batch_size ->
       output w = VList texts ->
       exists w',
         embed_text w = (Ok tt, w')
         /\ output w' = np_mean (map v texts)))
  /\ (T = "chunked_pairs" ->
      embed_batches model texts batch_size w
      = (Ok (map (fun text => VDict [("text", text); ("vector", v text)])
                 texts),
         w)
      /\ (getitem (info w) "embedding_model" = Ok model ->
          batch_size_of model = Ok batch_size ->
          output w = VList texts ->
          exists w',
            embed_text w = (Ok tt, w')
            /\ output w'
               = VList (map (fun text =>
                               VDict [("text", text); ("vector", v text)])
                            texts))).
Proof.
  intros Hb HT.
  split; intros ->.
  - split.
    + now rewrite (@embed_batches_returns "full_vector" texts batch_size w
                     Hb HT (or_introl eq_refl)).
    + intros Hmodel Hsize Hout.
      eexists. split.
      * apply (@embed_text_output "full_vector" texts w Hmodel
                 ltac:(now rewrite Hsize) Hout HT (or_introl eq_refl)).
      * reflexivity.
  - split.
    + now rewrite (@embed_batches_returns "chunked_pairs" texts batch_size w
                     Hb HT (or_intror eq_refl)).
    + intros Hmodel Hsize Hout.
      eexists. split.
      * apply (@embed_text_output "chunked_pairs" texts w Hmodel
                 ltac:(now rewrite Hsize) Hout HT (or_intror eq_refl)).
      * reflexivity.
Qed.

End Batches.

(** The hypotheses of [embed_batches_in_order] hold of four chunks
    embedded two at a time by the test double, whose vector for a text
    is labelled with the text. *)
Lemma embed_batches_in_order_witness :
  embed_batches (C := Mock.collaborators) (VStr "text-embedding-ada-002")
    [VStr "a"; VStr "b"; VStr "c"; VStr "d"] 2
    (mkWorld (VDict [("target_index_type", VStr "chunked_pairs")]) VNone
             "embed_text" 512 VNone Mock.store0 0 [] [])
  = (Ok [ VDict [("text", VStr "a"); ("vector", VList [VStr "a"])];
          VDict [("text", VStr "b"); ("vector", VList [VStr "b"])];
          VDict [("text", VStr "c"); ("vector", VList [VStr "c"])];
          VDict [("text", VStr "d"); ("vector", VList [VStr "d"])] ],
     mkWorld (VDict [("target_index_type", VStr "chunked_pairs")]) VNone
             "embed_text" 512 VNone Mock.store0 0 [] []).
Proof.
  refine (proj1 (proj2 (@embed_batches_in_order Mock.collaborators
                          (VStr "text-embedding-ada-002")
                          (fun t => VList [t])
                          (fun texts => eq_refl) "chunked_pairs"
                          [VStr "a"; VStr "b"; VStr "c"; VStr "d"] 2 _ _ _)
                       eq_refl)).
  - lia.
  - reflexivity.
Defined.

(** C7 as stated fails for a [full_vector] job: of two chunks
    [embed_text] leaves the one pooled value, not a vector for each. *)
Lemma embed_text_pools_full_vector :
  let run :=
    embed_text (C := Mock.collaborators)
      (mkWorld (VDict [ ("target_index_type", VStr "full_vector");
                        ("embedding_model", VStr "embedding/e5") ])
               (VList [VStr "a"; VStr "b"])
               "chunk_text" 512 VNone Mock.store0 0 [] []) in
  fst run = Ok tt
  /\ output (snd run)
     = @np_mean Mock.collaborators [VList [VStr "a"]; VList [VStr "b"]]
  /\ output (snd run) <> VList [VList [VStr "a"]; VList [VStr "b"]].
Proof.
  split; [vm_compute; reflexivity|]. split; [vm_compute; reflexivity|].
  vm_compute. discriminate.
Qed.

End EmbedProps.

(* ================================================================== *)
(** * What [start_job] answers *)
(* ================================================================== *)

Module WorkerFacts.

Import Frame Execute ExecuteProps JobManagement Relations.

#[export] Instance grows_preorder {A} : PreOrder (@grows A).
Proof.
  split.
  - intros l. exists []. now rewrite app_nil_r.
  - intros a b c (l1 & ->) (l2 & ->). exists (l1 ++ l2).
    now rewrite app_assoc.
Qed.

Lemma logger_grows (l : log_level) (where_ : string) (e : option exn) :
  respects (via log grows) (logger l where_ e).
Proof.
  intros w r w' H. unfold logger in H. injection H as _ <-.
  unfold via. simpl. now exists [Log l where_ e].
Qed.

#[export] Hint Resolve logger_grows : respects.

#[export] Hint Extern 1 (respects _ (embed_loop _ _ _ _ _)) =>
  apply embed_loop_respects; order : respects.

#[export] Hint Unfold write_for update_metadata add_to_es embed_text start
  : methods.

Section Worker.

Context {C : Collaborators}.

Lemma start_returns_true (settings job_type text_file : value) (w : World)
      (v : value) (w' : World) :
  start settings job_type text_file w = (Ok v, w') -> v = VBool true.
Proof.
  intros H. unfold start in H.
  bind_step H u0 w0 H0; [discriminate Hr|].
  bind_step H u1 w1 H1; [discriminate Hr|].
  rewrite reset_returns in H. now injection H as <- _.
Qed.

Lemma start_log_grows (settings job_type text_file : value) :
  respects (via log grows) (start settings job_type text_file).
Proof. respects_steps. Qed.

(** The second [try] block of [start_job] with its handler. *)
Lemma start_job_answer (job : value) (w : World) (r : result value)
      (w' : World) :
  start_job job w = (r, w') ->
  exists result,
    r = Ok result
    /\ (result = VBool true \/ exists e, result = failure e).
Proof.
  unfold start_job. destruct (job_info job) as [ls err]. intros H.
  bind_step H u w1 H1.
  { destruct err; unfold logger in H; discriminate H. }
  unfold try_except in H.
  match type of H with
  | context [match ?body w1 with _ => _ end] =>
      destruct (body w1) as [[v|e] w2] eqn:E
  end.
  - injection H as <- <-. exists v. split; [reflexivity|]. left.
    bind_step E i w3 H3; [discriminate Hr|].
    bind_step E t w4 H4; [discriminate Hr|].
    bind_step E tf w5 H5; [discriminate Hr|].
    bind_step E res w6 H6; [discriminate Hr|].
    apply start_returns_true in H6. subst res.
    bind_step E ti w7 H7; [discriminate Hr|].
    unfold bind, logger, ret in E. now injection E as <- _.
  - unfold bind, logger, ret in H. injection H as <- <-.
    exists (failure e). split; [reflexivity|]. right. now exists e.
Qed.

Lemma start_job_log_grows (job : value) :
  respects (via log grows) (start_job job).
Proof.
  pose proof start_log_grows.
  unfold start_job. destruct (job_info job) as [ls err].
  respects_steps.
Qed.

End Worker.

Section Answers.

Context {C : Collaborators}.

(** When [execute.start] returns, it has reset the context. *)
Lemma start_returns_reset (settings job_type text_file : value) (w : World)
      (v : value) (w' : World) :
  start settings job_type text_file w = (Ok v, w') ->
  v = VBool true
  /\ info w' = VNone /\ output w' = VNone /\ current_step w' = "idle".
Proof.
  intros H. unfold start in H.
  bind_step H u0 w0 H0; [discriminate Hr|].
  bind_step H u1 w1 H1; [discriminate Hr|].
  rewrite reset_returns in H. injection H as <- <-. auto.
Qed.


End Answers.

End WorkerFacts.

(* ================================================================== *)
(** * Properties of the worker loop *)
(* ================================================================== *)

Module WorkerProps.

Import Frame Execute ExecuteProps JobManagement Relations WorkerFacts.

Section Worker.

Context {C : Collaborators}.

(** [start_job] catches whatever the executor raises: it always returns. *)
Lemma start_job_returns (job : value) (w : World) :
  exists result w', start_job job w = (Ok result, w').
Proof.
  unfold start_job. destruct (job_info job) as [ls err].
  unfold bind at 1.
  match goal with
  | |- context [match ?m w with _ => _ end] =>
      assert (Hlog : exists w1, m w = (Ok tt, w1))
        by (destruct err; unfold logger; eauto);
      destruct Hlog as (w1 & ->)
  end.
  unfold try_except.
  match goal with
  | |- context [match ?body w1 with _ => _ end] =>
      destruct (body w1) as [[r|e] w2]
  end.
  - eauto.
  - unfold bind, logger, ret. eauto.
Qed.

(** The loop empties the queue it finds, one job after the other, as
    soon as it has fuel for every queued job; no exception leaves it. *)
Lemma start_jobs_loop_drains (q : list value) :
  forall (fuel : nat) (m : JobManager),
    queue m = q ->
    length q <= fuel ->
    exists m',
      start_jobs_loop fuel m = Some (Ok tt, m')
      /\ queue m' = []
      /\ map fst (processed m') = map fst (processed m) ++ q
      /\ current_job m' = match q with [] => current_job m | _ => VDict [] end
      /\ status m' = status m
      /\ maxlen m' = maxlen m
      /\ jobs_history m' = jobs_history m.
Proof.
  induction q as [|job rest IH]; intros fuel m Hq Hfuel.
  - exists m. destruct fuel; simpl; rewrite Hq; simpl;
      rewrite app_nil_r; repeat split; auto.
  - destruct fuel as [|fuel]; [simpl in Hfuel; lia|].
    simpl. rewrite Hq. simpl.
    destruct (start_job_returns job (world m)) as (result & w' & ->).
    match goal with
    | |- context [start_jobs_loop fuel ?m1] =>
        destruct (IH fuel m1 eq_refl ltac:(simpl in Hfuel; lia))
          as (m' & Hrun & Hqueue & Hproc & Hjob & Hstatus & Hmax & Hhist)
    end.
    exists m'. split; [exact Hrun|]. split; [exact Hqueue|].
    simpl in *. split.
    + rewrite Hproc, map_app, <- app_assoc. reflexivity.
    + split; [destruct rest; exact Hjob|]. auto.
Qed.




End Worker.


(** A job that fails between two others: the first stage of the untitled
    job raises, [start_job] reports the failure, and the job queued
    behind it is run to completion and its document written. *)
Lemma failed_job_does_not_stall :
  let m := set_queue [Mock.untitled_job; Mock.full_text_job]
                     (init Mock.store0) in
  exists m',
    start_jobs (C := Mock.collaborators) 2 m = Some (Ok tt, m')
    /\ processed m'
       = [ (Mock.untitled_job,
            VDict [("status", VBool false); ("message", VStr "'title'")]);
           (Mock.full_text_job, VBool true) ]
    /\ status m' = "idle"
    /\ queue m' = []
    /\ indexed (es (world m')) = 1.
Proof.
  eexists. split; [vm_compute; reflexivity|]. repeat split.
Qed.


(** Whatever the queue, the worker loop leaves [jobs_history] as it
    found it. *)
Lemma start_jobs_keeps_history {C : Collaborators} (m : JobManager) :
  exists m',
    start_jobs (length (queue m)) m = Some (Ok tt, m')
    /\ jobs_history m' = jobs_history m.
Proof.
  destruct (@start_jobs_loop_drains C (queue m) (length (queue m)) m
              eq_refl (le_n _))
    as (m' & Hrun & _ & _ & _ & _ & _ & Hhist).
  exists (set_status "idle" m'). unfold start_jobs. rewrite Hrun.
  split; [reflexivity|exact Hhist].
Qed.

(** C9 (the code against the claim).  After the one queued job has
    completed successfully, the history still holds no entry under
    either outcome, the status summary carries the current job and the
    queue length and nothing else, and [record_job_history], had it been
    called, would have raised on the key it looks up. *)
Theorem job_outcome_is_not_recorded :
  let m := set_queue [Mock.full_text_job] (init Mock.store0) in
  exists m',
    start_jobs (C := Mock.collaborators) 1 m = Some (Ok tt, m')
    /\ processed m' = [(Mock.full_text_job, VBool true)]
    /\ jobs_history m'
       = VDict [("success", VList []); ("failed", VList [])]
    /\ get_status_summary m'
       = Ok (VDict
               [ ("Current Job info",
                   VDict [("Title", VNone); ("Type", VNone);
                          ("Step", VNone)]);
                 ("Queue info", VDict [("Length", VInt 0)]) ])
    /\ fst (record_job_history m' (VBool true)) = Raise (KeyError "Success").
Proof.
  eexists. split; [vm_compute; reflexivity|]. repeat split.
Qed.

End WorkerProps.

(* ================================================================== *)
(** * Further properties of the worker *)
(* ================================================================== *)

Module WorkerMore.

Import Frame Execute ExecuteProps JobManagement Relations WorkerFacts.

(** X1.  [start_job] never raises: it answers True, or the failure record
    of the exception it caught; it only ever adds to the log, and adds at
    least one entry. *)
Theorem start_job_never_raises {C : Collaborators} (job : value) (w : World) :
  exists result w' entries,
    start_job job w = (Ok result, w')
    /\ (result = VBool true \/ exists e, result = failure e)
    /\ log w' = log w ++ entries
    /\ entries <> [].
Proof.
  destruct (start_job job w) as [r w'] eqn:H.
  destruct (start_job_answer _ _ H) as (result & -> & Hresult).
  exists result, w'.
  unfold start_job in H. destruct (job_info job) as [ls err].
  bind_step H u w1 H1; [discriminate Hr|].
  assert (Hfirst : exists entry, log w1 = log w ++ [entry]).
  { destruct err; unfold logger in H1; injection H1 as _ <-; simpl; eauto. }
  destruct Hfirst as (entry & Hfirst).
  assert (Hrest : grows (log w1) (log w')).
  { pose proof (@start_log_grows C) as Hstart.
    assert (Hr : respects (via log grows)
              (try_except
                 (info <- lift (local "info" (l_info ls)) ;;
                  target_index_type <-
                    lift (local "target_index_type"
                                (l_target_index_type ls)) ;;
                  text_file <- lift (local "text_file" (l_text_file ls)) ;;
                  result <- start info target_index_type text_file ;;
                  _title <- lift (local "_title" (l_title ls)) ;;
                  logger INFO "start_job() - Jobs done" None ;;
                  ret result)
                 (fun e =>
                    logger EXCEPTION "Error in job manager start_job()"
                           (Some e) ;;
                    ret (VDict [("status", VBool false);
                                ("message", VStr (str_exn e))]))))
      by respects_steps.
    exact (Hr _ _ _ H). }
  destruct Hrest as (added & Hrest).
  exists (entry :: added). split; [reflexivity|]. split; [exact Hresult|].
  split; [|discriminate].
  rewrite Hrest, Hfirst, <- app_assoc. reflexivity.
Qed.

(** X2.  A job whose settings, text file or target type cannot be read
    never reaches the executor: [start_job] logs the lookup failure and
    the local it then reads unbound, answers the failure record with
    the interpreter's sentence for that local, and leaves the executor,
    the store and the clock as they were. *)
Theorem start_job_unreadable_job {C : Collaborators} (job : value)
        (w : World) (e : exn) :
  rbind (getitem job "settings") (fun settings =>
  rbind (getitem job "text_file") (fun _ =>
  getitem settings "target_index_type")) = Raise e ->
  exists name,
    (name = "info" \/ name = "target_index_type")
    /\ start_job job w
       = (Ok (VDict
                [ ("status", VBool false);
                  ("message",
                    VStr ("cannot access local variable '" ++ name
                            ++ "' where it is not associated with a value"))
                ]),
          with_log [ Log EXCEPTION retrieving_failed (Some e);
                     Log EXCEPTION job_failed
                         (Some (UnboundLocalError name)) ] w).
Proof.
  intros H. unfold start_job, job_info.
  destruct (getitem job "settings") as [settings|e1]; simpl in H.
  - destruct (getitem job "text_file") as [text_file|e2]; simpl in H.
    + rewrite H. exists "target_index_type". split; [now right|].
      unfold with_log. cbn. now rewrite <- app_assoc.
    + injection H as ->. exists "target_index_type". split; [now right|].
      unfold with_log. cbn. now rewrite <- app_assoc.
  - injection H as ->. exists "info". split; [now left|].
    unfold with_log. cbn. now rewrite <- app_assoc.
Qed.

(** The hypothesis of [start_job_unreadable_job] holds of the empty job. *)
Lemma start_job_unreadable_job_witness :
  exists name,
    (name = "info" \/ name = "target_index_type")
    /\ start_job (C := Mock.collaborators) (VDict []) Mock.world0
       = (Ok (VDict
                [ ("status", VBool false);
                  ("message",
                    VStr ("cannot access local variable '" ++ name
                            ++ "' where it is not associated with a value"))
                ]),
          with_log [ Log EXCEPTION retrieving_failed
                         (Some (KeyError "settings"));
                     Log EXCEPTION job_failed
                         (Some (UnboundLocalError name)) ]
                   Mock.world0).
Proof.
  exact (@start_job_unreadable_job Mock.collaborators (VDict []) Mock.world0
           (KeyError "settings") eq_refl).
Defined.

(** X3.  A job of another type than full_text whose settings lack the
    title of the original document is run all the same, since no stage
    reads that title: when the executor returns, the work is done and
    the context reset, yet [start_job] answers the failure record,
    because the message it logs on success reads the unbound local
    [_title]. *)
Theorem start_job_untitled_job_reported_failed {C : Collaborators}
        (job settings text_file t : value) (e : exn) (w : World)
        (v : value) (w' : World) :
  getitem job "settings" = Ok settings ->
  getitem job "text_file" = Ok text_file ->
  getitem settings "target_index_type" = Ok t ->
  eq_str t "full_text" = false ->
  property settings "original_full_text_data_title" = Raise e ->
  start settings t text_file
        (with_log [Log EXCEPTION retrieving_failed (Some e)] w)
  = (Ok v, w') ->
  start_job job w
  = (Ok (VDict
           [ ("status", VBool false);
             ("message",
               VStr "cannot access local variable '_title' where it is not associated with a value")
           ]),
     with_log [Log EXCEPTION job_failed (Some (UnboundLocalError "_title"))]
              w')
  /\ v = VBool true
  /\ info w' = VNone /\ output w' = VNone /\ current_step w' = "idle".
Proof.
  intros Hs Hf Ht Htype Htitle Hstart.
  split; [|exact (start_returns_reset _ _ _ _ Hstart)].
  unfold start_job, job_info. rewrite Hs, Hf, Ht, Htype, Htitle.
  unfold with_log, retrieving_failed in Hstart.
  unfold bind, try_except, lift, logger, ret.
  cbn [local l_info l_target_index_type l_text_file l_title].
  rewrite Hstart.
  reflexivity.
Qed.

(** The hypotheses of [start_job_untitled_job_reported_failed] hold of a
    full_vector job that names the original document by index and id
    only: the executor retrieves, chunks and embeds the document and
    writes the vector, and the job is reported as failed. *)
Lemma start_job_untitled_job_reported_failed_witness :
  let run := start_job (C := Mock.text_codec) Mock.vector_job
                       (Execute.init Mock.store1) in
  fst run
  = Ok (VDict
          [ ("status", VBool false);
            ("message",
              VStr "cannot access local variable '_title' where it is not associated with a value")
          ])
  /\ steps (snd run)
     = ["retrieve_text"; "chunk_text"; "embed_text"; "modify_properties";
        "add_to_es"; "modify_data"; "idle"]
  /\ indexed (es (snd run)) = S (indexed Mock.store1).
Proof.
  cbv zeta.
  rewrite (proj1
             (@start_job_untitled_job_reported_failed Mock.text_codec
                Mock.vector_job Mock.vector_settings VNone
                (VStr "full_vector")
                (KeyError "original_full_text_data_title")
                (Execute.init Mock.store1) (VBool true)
                (snd (start (C := Mock.text_codec) Mock.vector_settings
                            (VStr "full_vector") VNone
                            (with_log
                               [Log EXCEPTION retrieving_failed
                                    (Some (KeyError
                                             "original_full_text_data_title"))]
                               (Execute.init Mock.store1))))
                eq_refl eq_refl eq_refl eq_refl eq_refl
                ltac:(vm_compute; reflexivity))).
  split; [reflexivity|]. split; vm_compute; reflexivity.
Defined.

End WorkerMore.

(* ================================================================== *)
(** * Further properties of the queue and of submission *)
(* ================================================================== *)

Module QueueMore.

Import JobManagement QueueProps Relations WorkerProps.

(** X4.  [add_new_jobs] keeps the queue within its bound: whatever is
    submitted, the queue afterwards is the newest [maxlen] of the queued
    jobs followed by the submitted ones, in their order. *)
Theorem add_new_jobs_keeps_bound (jobs : list value) (m : JobManager) :
  length (queue m) <= maxlen m ->
  queue (add_new_jobs jobs m) = Deque.keep_last (maxlen m) (queue m ++ jobs)
  /\ length (queue (add_new_jobs jobs m)) <= maxlen m
  /\ maxlen (add_new_jobs jobs m) = maxlen m.
Proof.
  intros Hq. unfold add_new_jobs. simpl.
  rewrite fold_append_keep_last by exact Hq.
  split; [reflexivity|]. split; [|reflexivity].
  unfold Deque.keep_last. rewrite length_skipn. lia.
Qed.

Lemma add_new_jobs_keeps_bound_witness :
  length (queue (add_new_jobs [Mock.numbered_job 51; Mock.numbered_job 52]
                              Mock.full_manager)) <= 50.
Proof.
  refine (proj1 (proj2 (@add_new_jobs_keeps_bound
           [Mock.numbered_job 51; Mock.numbered_job 52] Mock.full_manager
           _))).
  apply Nat.leb_le. vm_compute. reflexivity.
Defined.

Lemma queue_below_capacity (jobs : list value) (m : JobManager) :
  length (queue m) + length jobs <= maxlen m ->
  queue (add_new_jobs jobs m) = queue m ++ jobs.
Proof.
  intros Hfit. unfold add_new_jobs. simpl.
  rewrite fold_append_keep_last by lia.
  unfold Deque.keep_last. rewrite length_app.
  replace (length (queue m) + length jobs - maxlen m) with 0 by lia.
  reflexivity.
Qed.

(** X5.  While the submitted jobs fit, nothing is lost and the order is
    kept: the queue afterwards is the old queue followed by the new
    jobs. *)
Theorem add_new_jobs_below_capacity (jobs : list value) (m : JobManager) :
  length (queue m) + length jobs <= maxlen m ->
  queue (add_new_jobs jobs m) = queue m ++ jobs.
Proof. exact (@queue_below_capacity jobs m). Qed.

Lemma add_new_jobs_below_capacity_witness :
  queue (add_new_jobs [Mock.full_text_job; Mock.untitled_job]
                      (init Mock.store0))
  = [Mock.full_text_job; Mock.untitled_job].
Proof.
  apply (@add_new_jobs_below_capacity
           [Mock.full_text_job; Mock.untitled_job] (init Mock.store0)).
  simpl. unfold cfg.max_queue_length. lia.
Defined.

Lemma nth_error_combine {A B} (l : list A) :
  forall (l' : list B) k x y,
    nth_error (combine l l') k = Some (x, y) ->
    nth_error l k = Some x /\ nth_error l' k = Some y.
Proof.
  induction l as [|a l IH]; intros [|b l'] [|k] x y H;
    try discriminate H; simpl in *.
  - injection H as -> ->. auto.
  - now apply IH.
Qed.

Section Submission.

Context {C : Collaborators}.

Lemma build_jobs_by_position (pairs : list (string * value)) :
  forall jobs,
    Main.build_jobs pairs = Ok jobs ->
    length jobs = length pairs
    /\ forall k job,
        nth_error jobs k = Some job ->
        exists setting parsed file,
          nth_error pairs k = Some (setting, file)
          /\ json_loads setting = Ok parsed
          /\ job = VDict [("settings", parsed); ("text_file", file)].
Proof.
  induction pairs as [|[setting file] pairs IH]; intros jobs H; simpl in H.
  - injection H as <-. split; [reflexivity|].
    intros [|k] job Hk; discriminate Hk.
  - destruct (json_loads setting) as [parsed|] eqn:Hparse; [|discriminate H].
    simpl in H.
    destruct (Main.build_jobs pairs) as [rest|] eqn:Hrest; [|discriminate H].
    simpl in H. injection H as <-.
    destruct (IH rest eq_refl) as [Hlen Hnth].
    split; [simpl; now rewrite Hlen|].
    intros [|k] job Hk; simpl in Hk.
    + injection Hk as <-. exists setting, parsed, file. auto.
    + apply Hnth in Hk. exact Hk.
Qed.

End Submission.

(** X6.  [add_jobs] pairs settings and files by position and stops at
    the shorter list: the k-th job holds the parsed k-th setting and the
    k-th file, and settings or files beyond the common length are left
    out of the submission. *)
Theorem add_jobs_pairs_by_position {C : Collaborators}
        (settings : list string) (file : value) (files : list value)
        (jobs : list value) :
  rbind (Main.zip_files settings (Some (file :: files))) Main.build_jobs
  = Ok jobs ->
  length jobs = Nat.min (length settings) (length (file :: files))
  /\ forall k job,
      nth_error jobs k = Some job ->
      exists setting parsed f,
        nth_error settings k = Some setting
        /\ nth_error (file :: files) k = Some f
        /\ json_loads setting = Ok parsed
        /\ job = VDict [("settings", parsed); ("text_file", f)].
Proof.
  unfold Main.zip_files. cbn [rbind]. intros H.
  destruct (@build_jobs_by_position C _ _ H) as [Hlen Hnth].
  split; [now rewrite Hlen, length_combine|].
  intros k job Hk. destruct (Hnth k job Hk) as (s & p & f & Hp & Hl & ->).
  destruct (nth_error_combine _ _ _ Hp) as [Hs Hf].
  exists s, p, f. auto.
Qed.

(** The hypothesis of [add_jobs_pairs_by_position] holds of three
    settings sent with one file: one job is built. *)
Lemma add_jobs_pairs_by_position_witness :
  length [VDict [("settings", VDict [("raw", VStr "a")]);
                 ("text_file", VBytes "%PDF")]]
  = Nat.min (length ["a"; "b"; "c"]) (length [VBytes "%PDF"]).
Proof.
  exact (proj1 (@add_jobs_pairs_by_position Mock.collaborators
                  ["a"; "b"; "c"] (VBytes "%PDF") [] _ eq_refl)).
Defined.



End QueueMore.

(* ================================================================== *)
(** * Further properties of the executor and of the store client *)
(* ================================================================== *)

Module ExecuteMore.

Import Frame Execute ExecuteProps ElasticSearch AddToEsProps EmbedProps.
Import Relations.

(** Settles the comparisons of a target type with the literals of an
    [if]/[elif] chain. *)
Ltac branch :=
  repeat match goal with
         | |- context [eq_str (VStr ?a) ?b] =>
             let r := eval vm_compute in (eq_str (VStr a) b) in
             change (eq_str (VStr a) b) with r
         end;
  cbv iota.

Section Stages.

Context {C : Collaborators}.

(** ** [post_add_data] *)

Lemma post_add_data_cases (index_name properties : value) (w : World) :
  (exists index document,
     index_name = VStr index /\ properties = VDict document
     /\ es_fault (calls (es w)) (Index index document) = false
     /\ post_add_data index_name properties w
        = (Ok (VDict
                 [ ("status", VStr "success");
                   ("response",
                     VDict [ ("_index", VStr index);
                             ("_id", VStr (es_new_id (indexed (es w))));
                             ("result", VStr "created") ]) ]),
           set_es (Store (put_doc (docs (es w)) index
                            (es_new_id (indexed (es w))) document)
                         (calls (es w) ++ [Index index document])
                         (S (indexed (es w)))) w))
  \/ (exists e,
        post_add_data index_name properties w
        = (Raise e, with_log [Log EXCEPTION "post_add_data" (Some e)] w)).
Proof.
  destruct index_name as [| | | |index| | |];
    try (right; exists TypeError; reflexivity).
  destruct properties as [| | | | | | |document];
    try (right; exists TypeError; reflexivity).
  destruct (es_fault (calls (es w)) (Index index document)) eqn:Hfault.
  - right. exists TransportError.
    unfold post_add_data, bind, try_except, lift, client_index. simpl.
    now rewrite Hfault.
  - left. exists index, document. repeat split; try assumption.
    now apply post_add_data_returns.
Qed.

(** ** A failed write *)

Lemma set_property_inv (k : string) (v : value) (w : World) (u : unit)
      (w1 : World) :
  set_property k v w = (Ok u, w1) ->
  exists d p,
    info w = VDict d
    /\ dict_get d "properties" = Some (VDict p)
    /\ w1 = mkWorld (VDict (dict_set d "properties" (VDict (dict_set p k v))))
                    (output w) (current_step w) (chunk_size w) (overlap w)
                    (es w) (clock w) (log w) (steps w).
Proof.
  unfold set_property. rewrite run_get_info. intros H.
  destruct (setitem2 (info w) "properties" k v) as [o'|e] eqn:Hset.
  - destruct (setitem2_properties _ _ _ Hset) as (d & p & Hd & Hp & ->).
    exists d, p. rewrite run_lift_ok in H. unfold set_info in H.
    injection H as _ <-. auto.
  - unfold bind, lift in H. discriminate H.
Qed.

Lemma set_property_keeps_es (k : string) (v : value) :
  respects (keeps (fun w => (es w, log w))) (set_property k v).
Proof. unfold keeps. respects_steps. Qed.

(** A write that raises has left the store as it was, and has logged
    nothing but the exception [post_add_data] passes on. *)
Lemma write_target_raises (field key : string) (keep : bool) (w : World)
      (e : exn) (w' : World) :
  write_target field key keep w = (Raise e, w') ->
  es w' = es w
  /\ (log w' = log w
      \/ log w' = log w ++ [Log EXCEPTION "post_add_data" (Some e)]).
Proof.
  unfold write_target. rewrite run_get_output. intros H.
  bind_step H u w1 H1.
  { apply set_property_keeps_es in H. unfold keeps, via in H.
    injection H as -> ->. auto. }
  destruct (set_property_inv _ _ _ H1) as (d & p & Hd & Hp & ->).
  rewrite run_get_info in H. fields_in H.
  destruct (getitem
              (VDict (dict_set d "properties"
                        (VDict (dict_set p field (output w))))) key)
    as [index_name|e1] eqn:Hkey.
  2: { unfold bind, lift in H. injection H as _ <-. auto. }
  rewrite run_lift_ok in H.
  unfold getitem at 1 in H. rewrite dict_get_set_same, run_lift_ok in H.
  destruct (post_add_data_cases index_name
              (VDict (dict_set p field (output w)))
              (mkWorld (VDict (dict_set d "properties"
                                 (VDict (dict_set p field (output w)))))
                       (output w) (current_step w) (chunk_size w)
                       (overlap w) (es w) (clock w) (log w) (steps w)))
    as [(index & document & -> & Hdoc & _ & Hrun)|(e2 & Hrun)].
  - injection Hdoc as <-.
    rewrite (@run_ok _ _ _ _ _ _ _ Hrun) in H. exfalso.
    destruct keep.
    + repeat (simpl getitem in H; rewrite run_lift_ok in H).
      erewrite set_property_returns in H;
        [|reflexivity|fields; apply dict_get_set_same].
      discriminate H.
    + discriminate H.
  - unfold bind in H. rewrite Hrun in H. injection H as <- <-.
    split; [reflexivity|]. right. reflexivity.
Qed.

Lemma write_for_raises (t : value) (w : World) (e : exn) (w' : World) :
  write_for t w = (Raise e, w') ->
  es w' = es w
  /\ (log w' = log w
      \/ log w' = log w ++ [Log EXCEPTION "post_add_data" (Some e)]).
Proof.
  unfold write_for.
  repeat match goal with
         | |- context [if ?b then _ else _] => destruct b
         end;
    try apply write_target_raises.
  discriminate.
Qed.

Lemma add_to_es_raises (w : World) (e : exn) (w' : World) :
  add_to_es w = (Raise e, w') ->
  es w' = es w
  /\ (log w' = log w
      \/ log w' = log w ++ [Log EXCEPTION "post_add_data" (Some e)]).
Proof.
  unfold add_to_es. rewrite run_set_current_step, run_get_info. fields.
  intros H.
  destruct (getitem (info w) "target_index_type") as [t|e1].
  2: { unfold bind, lift in H. injection H as _ <-. auto. }
  rewrite run_lift_ok in H.
  bind_step H u w1 H1.
  - injection Hr as ->. apply write_for_raises in H. exact H.
  - destruct (update_metadata_returns w1) as (w2 & Hmeta).
    rewrite Hmeta in H. discriminate H.
Qed.

(** ** Reading a document back *)

Lemma get_data_match_id_returns (index id : string) (fields : list string)
      (stored : dict) (w : World) :
  es_fault (calls (es w)) (Get index id fields) = false ->
  find_doc (docs (es w)) index id = Some stored ->
  get_data_match_id (VStr index) (VStr id) fields w
  = (Ok (VDict (source_filter fields stored)),
     set_es (Store (docs (es w)) (calls (es w) ++ [Get index id fields])
                   (indexed (es w))) w).
Proof.
  intros Hfault Hdoc. unfold get_data_match_id. cbn [as_str].
  rewrite !run_lift_ok.
  unfold bind, client_get. cbv zeta. rewrite Hfault, Hdoc. reflexivity.
Qed.

(** ** Documents the metadata update leaves alone *)

Lemma find_doc_put_other ds (index id index' id' : string) (d : dict) :
  index <> index' ->
  find_doc (put_doc ds index id d) index' id' = find_doc ds index' id'.
Proof.
  intros Hne.
  assert (Hnew : forall j, same_doc index' id' (index, j) = false).
  { intros j. unfold same_doc. cbn [fst snd].
    destruct (String.eqb_spec index index') as [->|_]; [now elim Hne|].
    reflexivity. }
  induction ds as [|[[i j] d'] ds IH]; cbn [put_doc find_doc].
  - now rewrite Hnew.
  - destruct (same_doc index id (i, j)) eqn:Hsame; cbn [find_doc].
    + unfold same_doc in Hsame. cbn [fst snd] in Hsame.
      apply andb_prop in Hsame. destruct Hsame as [Hi _].
      apply String.eqb_eq in Hi. subst i.
      now rewrite Hnew.
    + now rewrite IH.
Qed.

Lemma client_update_keeps_doc (name id' : string) (doc : dict)
      (index id : string) :
  name <> index ->
  respects (via (fun w => find_doc (docs (es w)) index id)
                (fun a b => b = a))
           (client_update name id' doc).
Proof.
  intros Hne w r w' H. unfold client_update in H. cbv zeta in H.
  unfold via.
  destruct (es_fault _ _); [now injection H as _ <-|].
  destruct (find_doc (docs (es w)) name id');
    injection H as _ <-; [|reflexivity].
  fields. now apply find_doc_put_other.
Qed.

Lemma post_modify_data_keeps_doc (type name : string) (target : value)
      (fields : list string) (a b c d : value) (index id : string) :
  name <> index ->
  respects (via (fun w => find_doc (docs (es w)) index id)
                (fun a b => b = a))
           (post_modify_data type name target fields a b c d).
Proof.
  intros Hne.
  pose proof (fun id' doc =>
                @client_update_keeps_doc name id' doc index id Hne)
    as Hupdate.
  unfold post_modify_data.
  repeat first
    [ apply Hupdate
    | apply respects_ret; order
    | apply respects_lift; order
    | apply respects_bind; order; [| intros ?]
    | match goal with
      | |- respects _ (if ?b then _ else _) => destruct b
      end
    | frame_primitive ].
Qed.

Lemma update_metadata_keeps_doc (index id : string) :
  String.prefix "metadata" index = false ->
  respects (via (fun w => find_doc (docs (es w)) index id)
                (fun a b => b = a))
           update_metadata.
Proof.
  intros Hindex.
  assert (Hmodify : forall name arg,
             respects (via (fun w => find_doc (docs (es w)) index id)
                           (fun a b => b = a))
                      (modify_data name arg)).
  { intros name arg. unfold modify_data.
    destruct (String.prefix "metadata" name) eqn:Hname;
      [|respects_steps].
    assert (Hne : name <> index) by (intros ->; congruence).
    pose proof (fun target fields a b c d =>
                  @post_modify_data_keeps_doc "metadata" name target fields
                    a b c d index id Hne) as Hpost.
    respects_steps. }
  unfold update_metadata. respects_steps.
Qed.

(** ** The stages of a full-text job *)

Lemma extract_text_returns (text_file title type extracted : value)
      (w : World) (d p : dict) :
  info w = VDict d ->
  dict_get d "properties" = Some (VDict p) ->
  dict_get p "title" = Some title ->
  dict_get p "source_type" = Some type ->
  text_extraction_start text_file title type = Ok extracted ->
  extract_text text_file w
  = (Ok tt,
     mkWorld (info w) (VStr (json_dumps extracted)) "extract_text"
             (chunk_size w) (overlap w) (es w) (clock w) (log w)
             (steps w ++ ["extract_text"])).
Proof.
  intros Hinfo Hp Htitle Htype Hx.
  unfold extract_text.
  rewrite run_set_current_step, run_get_info. fields.
  unfold property. rewrite Hinfo. unfold getitem. rewrite Hp. simpl rbind.
  rewrite Htitle, run_lift_ok, Htype, run_lift_ok, Hx, run_lift_ok.
  reflexivity.
Qed.

Lemma modify_properties_full_text (w : World) (d p : dict) (index : value) :
  info w = VDict d ->
  dict_get d "properties" = Some (VDict p) ->
  dict_get d "target_index_type" = Some (VStr "full_text") ->
  dict_get d "index_name_full_text" = Some index ->
  modify_properties w
  = (Ok tt,
     mkWorld (VDict (dict_set d "properties"
                       (VDict (dict_set p "added_date"
                                 (VStr (isoformat (clock w)))))))
             (output w) "modify_properties" (chunk_size w) (overlap w)
             (es w) (S (clock w)) (log w)
             (steps w ++ ["modify_properties"])).
Proof.
  intros Hinfo Hp Ht Hidx.
  unfold modify_properties.
  rewrite run_set_current_step.
  unfold bind at 1. unfold datetime_now at 1. fields.
  erewrite run_ok by (apply set_property_returns; [exact Hinfo|exact Hp]).
  rewrite run_get_info. fields.
  unfold getitem at 1. rewrite dict_get_set_other by discriminate.
  rewrite Ht, run_lift_ok. branch.
  unfold getitem at 1. rewrite dict_get_set_other by discriminate.
  rewrite Hidx, run_lift_ok. reflexivity.
Qed.

Lemma add_to_es_written (w : World) (d p : dict)
      (T field key idx : string) (keep : bool) :
  info w = VDict d ->
  dict_get d "target_index_type" = Some (VStr T) ->
  In (T, (field, key, keep)) targets ->
  dict_get d key = Some (VStr idx) ->
  dict_get d "properties" = Some (VDict p) ->
  es_fault (calls (es w)) (Index idx (dict_set p field (output w))) = false ->
  exists w' rest,
    add_to_es w = (Ok tt, w')
    /\ calls (es w')
       = calls (es w) ++ Index idx (dict_set p field (output w)) :: rest
    /\ Forall (fun c => is_index c = false) rest
    /\ indexed (es w') = S (indexed (es w))
    /\ (String.prefix "metadata" idx = false ->
        find_doc (docs (es w')) idx (es_new_id (indexed (es w)))
        = Some (dict_set p field (output w))).
Proof.
  intros Hinfo HT Hin Hidx Hp Hfault.
  destruct (write_for_target Hin) as [Hwf Hkey].
  unfold add_to_es.
  rewrite run_set_current_step, run_get_info. fields.
  rewrite Hinfo. unfold getitem at 1. rewrite HT, run_lift_ok, Hwf.
  destruct (@write_target_returns C field key keep
              (mkWorld (VDict d) (output w) "add_to_es" (chunk_size w)
                       (overlap w) (es w) (clock w) (log w)
                       (steps w ++ ["add_to_es"]))
              d p idx eq_refl Hp Hidx Hkey Hfault) as (info' & Hw).
  fields_in Hw.
  rewrite (@run_ok _ _ _ _ _ _ _ Hw).
  match goal with
  | |- context [update_metadata ?w2] =>
      destruct (update_metadata_returns w2) as (w3 & Hret);
      pose proof (@update_metadata_calls C _ _ _ Hret) as Hcalls;
      pose proof (@update_metadata_indexed C _ _ _ Hret) as Hindexed
  end.
  unfold keeps, via in Hcalls, Hindexed. fields_in Hcalls. fields_in Hindexed.
  destruct Hcalls as (rest & Hrest & Hnoindex).
  exists w3, rest. split; [exact Hret|].
  split; [rewrite Hrest, <- app_assoc; reflexivity|].
  split; [exact Hnoindex|]. split; [exact Hindexed|].
  intros Hprefix.
  pose proof (@update_metadata_keeps_doc idx (es_new_id (indexed (es w)))
                Hprefix _ _ _ Hret) as Hdoc.
  unfold via in Hdoc. fields_in Hdoc. rewrite Hdoc.
  apply find_doc_put_same.
Qed.

(** ** A full-text job, and reading its document back *)

Lemma full_text_job_returns (d p : dict)
      (title type extracted text_file : value)
      (idx : string) (w : World) :
  dict_get d "target_index_type" = Some (VStr "full_text") ->
  dict_get d "index_name_full_text" = Some (VStr idx) ->
  dict_get d "properties" = Some (VDict p) ->
  dict_get p "title" = Some title ->
  dict_get p "source_type" = Some type ->
  text_extraction_start text_file title type = Ok extracted ->
  let document :=
    dict_set (dict_set p "added_date" (VStr (isoformat (clock w))))
             "text" (VStr (json_dumps extracted)) in
  es_fault (calls (es w)) (Index idx document) = false ->
  exists w' rest,
    start (VDict d) (VStr "full_text") text_file w = (Ok (VBool true), w')
    /\ calls (es w') = calls (es w) ++ Index idx document :: rest
    /\ Forall (fun c => is_index c = false) rest
    /\ indexed (es w') = S (indexed (es w))
    /\ (String.prefix "metadata" idx = false ->
        find_doc (docs (es w')) idx (es_new_id (indexed (es w)))
        = Some document).
Proof.
  intros Ht Hidx Hp Htitle Htype Hx document Hfault.
  set (w1 := mkWorld (VDict d) (output w) (current_step w) (chunk_size w)
                     (overlap w) (es w) (clock w) (log w) (steps w)).
  assert (Hpipe : exists w3 rest,
             add_full_text (VDict d) text_file w1 = (Ok tt, w3)
             /\ calls (es w3) = calls (es w) ++ Index idx document :: rest
             /\ Forall (fun c => is_index c = false) rest
             /\ indexed (es w3) = S (indexed (es w))
             /\ (String.prefix "metadata" idx = false ->
                 find_doc (docs (es w3)) idx (es_new_id (indexed (es w)))
                 = Some document)).
  { unfold add_full_text.
    erewrite run_ok
      by (eapply extract_text_returns;
          [reflexivity|exact Hp|exact Htitle|exact Htype|exact Hx]).
    erewrite run_ok
      by (eapply modify_properties_full_text;
          [reflexivity|exact Hp|exact Ht|exact Hidx]).
    unfold w1. fields.
    match goal with
    | |- context [add_to_es ?w2] =>
        destruct (@add_to_es_written w2 _
                    (dict_set p "added_date" (VStr (isoformat (clock w))))
                    "full_text" "text" "index_name_full_text" idx false
                    eq_refl
                    ltac:(rewrite dict_get_set_other by discriminate;
                          exact Ht)
                    (or_introl eq_refl)
                    ltac:(rewrite dict_get_set_other by discriminate;
                          exact Hidx)
                    (dict_get_set_same _ _ _)
                    Hfault)
          as (w3 & rest & Hrun & Hcalls & Hrest & Hindexed & Hdoc)
    end.
    fields_in Hcalls. fields_in Hindexed. fields_in Hdoc.
    exists w3, rest. auto. }
  destruct Hpipe as (w3 & rest & Hrun & Hcalls & Hrest & Hindexed & Hdoc).
  unfold start. unfold bind at 1. unfold set_info at 1. fold w1.
  branch.
  rewrite (@run_ok _ _ _ _ _ _ _ Hrun), reset_returns.
  exists (mkWorld VNone VNone "idle" (chunk_size w3) (overlap w3) (es w3)
                  (clock w3) (log w3) (steps w3 ++ ["idle"])), rest.
  fields. auto.
Qed.

Lemma retrieve_text_returns (w : World) (d p stored : dict) (idx id s : string)
      (parsed : value) :
  info w = VDict d ->
  dict_get d "properties" = Some (VDict p) ->
  dict_get p "original_full_text_index_name" = Some (VStr idx) ->
  dict_get p "original_full_text_data_id" = Some (VStr id) ->
  es_fault (calls (es w)) (Get idx id ["text"]) = false ->
  find_doc (docs (es w)) idx id = Some stored ->
  dict_get stored "text" = Some (VStr s) ->
  json_loads s = Ok parsed ->
  retrieve_text w
  = (Ok tt,
     mkWorld (info w) parsed "retrieve_text" (chunk_size w) (overlap w)
             (Store (docs (es w)) (calls (es w) ++ [Get idx id ["text"]])
                    (indexed (es w)))
             (clock w) (log w) (steps w ++ ["retrieve_text"])).
Proof.
  intros Hinfo Hp Hidx Hid Hfault Hdoc Htext Hparse.
  unfold retrieve_text.
  rewrite run_set_current_step, run_get_info. fields.
  unfold property. rewrite Hinfo. unfold getitem at 1 3. rewrite Hp.
  cbn [rbind getitem]. rewrite Hidx, run_lift_ok, Hid, run_lift_ok.
  erewrite run_ok
    by (apply get_data_match_id_returns; [exact Hfault|exact Hdoc]).
  unfold getitem at 1. rewrite dict_get_source_filter.
  change (existsb (String.eqb "text") ["text"]) with true. cbv iota.
  rewrite Htext, run_lift_ok.
  unfold bind at 1. unfold set_output at 1.
  cbn [as_str rbind]. rewrite Hparse, run_lift_ok.
  reflexivity.
Qed.

End Stages.

(** X8.  Whatever the job and however it ends, [execute.start] assigns
    to [current_step] only the eight known step names, and the step the
    executor is left in is the last one assigned. *)
Theorem start_assigns_only_known_steps {C : Collaborators}
        (settings job_type text_file : value) (w : World) :
  exists assigned,
    steps (snd (start settings job_type text_file w)) = steps w ++ assigned
    /\ Forall (fun s => In s assigned_steps) assigned
    /\ current_step (snd (start settings job_type text_file w))
       = last assigned (current_step w).
Proof.
  destruct (start settings job_type text_file w) as [r w'] eqn:H.
  apply start_assigns_known in H. exact H.
Qed.

(** X9.  [post_add_data] either stores the document under a new id and
    answers with status success and that id, logging nothing, or logs
    the exception once and raises it again with the store untouched;
    it never answers a failure status. *)
Theorem post_add_data_outcomes {C : Collaborators}
        (index_name properties : value) (w : World) :
  match post_add_data index_name properties w with
  | (Ok answer, w') =>
      exists index document,
        index_name = VStr index /\ properties = VDict document
        /\ getitem answer "status" = Ok (VStr "success")
        /\ rbind (getitem answer "response") (fun r => getitem r "_id")
           = Ok (VStr (es_new_id (indexed (es w))))
        /\ find_doc (docs (es w')) index (es_new_id (indexed (es w)))
           = Some document
        /\ calls (es w') = calls (es w) ++ [Index index document]
        /\ log w' = log w
  | (Raise e, w') =>
      w' = with_log [Log EXCEPTION "post_add_data" (Some e)] w
  end.
Proof.
  destruct (post_add_data_cases index_name properties w)
    as [(index & document & -> & -> & _ & ->)|(e & ->)]; [|reflexivity].
  exists index, document. repeat split.
  simpl. apply find_doc_put_same.
Qed.

(** X10.  [add_to_es] raises only before or in its primary write:
    then the store is as it was (a call the transport fails writes
    nothing), no call of the metadata update was made, the log has
    received at most the entry of [post_add_data] for the exception
    raised, and the executor is left in the step add_to_es. *)
Theorem add_to_es_failure_writes_nothing {C : Collaborators}
        (w : World) (e : exn) (w' : World) :
  add_to_es w = (Raise e, w') ->
  es w' = es w
  /\ (log w' = log w
      \/ log w' = log w ++ [Log EXCEPTION "post_add_data" (Some e)])
  /\ steps w' = steps w ++ ["add_to_es"]
  /\ current_step w' = "add_to_es".
Proof.
  intros H.
  destruct (add_to_es_raises _ H) as [Hes Hlog].
  split; [exact Hes|]. split; [exact Hlog|].
  apply add_to_es_trace in H. now injection H as -> ->.
Qed.

(** The hypothesis of [add_to_es_failure_writes_nothing] holds of the
    frontend's full-text job about to be written through a transport
    that fails the call: the write is attempted, the exception is
    logged by [post_add_data] and leaves [add_to_es], and the store
    holds what it held. *)
Lemma add_to_es_failure_writes_nothing_witness :
  let w := mkWorld Mock.full_text_settings (VStr "{}") "modify_properties"
                   512 (VFloat (2 # 10)) Mock.store0 1 [] [] in
  let run := add_to_es (C := Mock.offline) w in
  fst run = Raise TransportError
  /\ es (snd run) = Mock.store0
  /\ log (snd run) = [Log EXCEPTION "post_add_data" (Some TransportError)]
  /\ current_step (snd run) = "add_to_es".
Proof.
  cbv zeta.
  destruct (@add_to_es_failure_writes_nothing Mock.offline
              (mkWorld Mock.full_text_settings (VStr "{}")
                       "modify_properties" 512 (VFloat (2 # 10))
                       Mock.store0 1 [] [])
              TransportError _ eq_refl)
    as (Hes & _ & _ & Hstep).
  split; [reflexivity|]. split; [exact Hes|].
  split; [reflexivity|exact Hstep].
Defined.

(** X11.  A full-text job that the extractor and the store accept: the
    executor returns True, having created exactly one document, in the
    job's index; the document is the job's properties with [added_date]
    set to the clock reading and [text] set to the serialised
    extraction. *)
Theorem full_text_job_writes_extraction {C : Collaborators}
        (d p : dict) (title type extracted text_file : value)
        (idx : string) (w : World) :
  dict_get d "target_index_type" = Some (VStr "full_text") ->
  dict_get d "index_name_full_text" = Some (VStr idx) ->
  dict_get d "properties" = Some (VDict p) ->
  dict_get p "title" = Some title ->
  dict_get p "source_type" = Some type ->
  text_extraction_start text_file title type = Ok extracted ->
  let document :=
    dict_set (dict_set p "added_date" (VStr (isoformat (clock w))))
             "text" (VStr (json_dumps extracted)) in
  es_fault (calls (es w)) (Index idx document) = false ->
  exists w' rest,
    start (VDict d) (VStr "full_text") text_file w = (Ok (VBool true), w')
    /\ calls (es w') = calls (es w) ++ Index idx document :: rest
    /\ Forall (fun c => is_index c = false) rest
    /\ indexed (es w') = S (indexed (es w))
    /\ (String.prefix "metadata" idx = false ->
        find_doc (docs (es w')) idx (es_new_id (indexed (es w)))
        = Some document).
Proof.
  intros Ht Hidx Hp Htitle Htype Hx document Hfault.
  exact (@full_text_job_returns C d p title type extracted text_file idx w
           Ht Hidx Hp Htitle Htype Hx Hfault).
Qed.

(** The hypotheses of [full_text_job_writes_extraction] hold of the
    frontend's full-text job run by the test double. *)
Lemma full_text_job_writes_extraction_witness :
  exists w' rest,
    start (C := Mock.collaborators) Mock.full_text_settings
          (VStr "full_text") (VBytes "%PDF") Mock.world0
    = (Ok (VBool true), w')
    /\ calls (es w')
       = Index "papers"
               [ ("title", VStr "Report"); ("source_type", VStr "pdf");
                 ("added_date", VStr "0"); ("text", VStr "{}") ] :: rest
    /\ Forall (fun c => is_index c = false) rest
    /\ indexed (es w') = 1
    /\ find_doc (docs (es w')) "papers" "0"
       = Some [ ("title", VStr "Report"); ("source_type", VStr "pdf");
                ("added_date", VStr "0"); ("text", VStr "{}") ].
Proof.
  destruct (@full_text_job_writes_extraction Mock.collaborators
           [ ("target_index_type", VStr "full_text");
             ("index_name_full_text", VStr "papers");
             ("index_name_full_vector", VNone);
             ("index_name_chunked_pairs", VNone);
             ("properties",
               VDict [("title", VStr "Report"); ("source_type", VStr "pdf")]);
             ("embedding_model", VNone);
             ("metadata_index_modify_id", VStr "m1") ]
           [("title", VStr "Report"); ("source_type", VStr "pdf")]
           (VStr "Report") (VStr "pdf") Mock.extracted_page (VBytes "%PDF")
           "papers" Mock.world0
           eq_refl eq_refl eq_refl eq_refl eq_refl eq_refl eq_refl)
    as (w' & rest & Hrun & Hcalls & Hrest & Hindexed & Hdoc).
  exists w', rest. repeat split; try assumption.
  exact (Hdoc eq_refl).
Defined.

(** X12.  For a [full_vector] job [chunk_text] reads the chunk size off
    the model registry, so a model the registry does not list stops the
    job with a KeyError before anything is chunked, although
    [embed_text] would have fallen back to the base batch size for
    it. *)
Theorem chunk_text_unregistered_model {C : Collaborators}
        (w : World) (m : string) :
  getitem (info w) "target_index_type" = Ok (VStr "full_vector") ->
  getitem (info w) "embedding_model" = Ok (VStr m) ->
  dict_get cfg.embedding_models_info m = None ->
  chunk_text w
  = (Raise (KeyError m),
     mkWorld (info w) (output w) "chunk_text" (chunk_size w) (overlap w)
             (es w) (clock w) (log w) (steps w ++ ["chunk_text"]))
  /\ batch_size_of (VStr m) = Ok cfg.batch_size_base.
Proof.
  intros Ht Hm Hnone. split.
  - unfold chunk_text.
    rewrite run_set_current_step, run_get_info. fields.
    rewrite Ht, run_lift_ok. branch.
    rewrite Hm, run_lift_ok.
    unfold model_info, getitem. rewrite Hnone. reflexivity.
  - unfold batch_size_of. now rewrite Hnone.
Qed.

(** The hypotheses of [chunk_text_unregistered_model] hold of a job
    that names a model outside the registry. *)
Lemma chunk_text_unregistered_model_witness :
  fst (chunk_text (C := Mock.collaborators)
         (mkWorld (VDict [ ("target_index_type", VStr "full_vector");
                           ("embedding_model", VStr "embedding/e5") ])
                  Mock.extracted_page "retrieve_text" 512 (VFloat (2 # 10))
                  Mock.store0 0 [] []))
  = Raise (KeyError "embedding/e5").
Proof.
  rewrite (proj1 (@chunk_text_unregistered_model Mock.collaborators
                    (mkWorld (VDict [ ("target_index_type",
                                        VStr "full_vector");
                                      ("embedding_model",
                                        VStr "embedding/e5") ])
                             Mock.extracted_page "retrieve_text" 512
                             (VFloat (2 # 10)) Mock.store0 0 [] [])
                    "embedding/e5" eq_refl eq_refl eq_refl)).
  reflexivity.
Defined.

(** X13.  For a [full_vector] job with a registered model [chunk_text]
    sets the chunker to a chunk size of 2048 words, a quarter of the
    model's sequence length, and to the configured overlap, whatever
    they were before, and leaves the chunks of the retrieved text in
    [output]. *)
Theorem chunk_text_registered_model {C : Collaborators}
        (w : World) (m : string) (chunks : list string) :
  getitem (info w) "target_index_type" = Ok (VStr "full_vector") ->
  getitem (info w) "embedding_model" = Ok (VStr m) ->
  dict_mem cfg.embedding_models_info m = true ->
  Chunking.naive_sentence_chunking_start 2048 (output w) = Ok chunks ->
  chunk_text w
  = (Ok tt,
     mkWorld (info w) (VList (map VStr chunks)) "chunk_text" 2048
             (VFloat (2 # 10)) (es w) (clock w) (log w)
             (steps w ++ ["chunk_text"])).
Proof.
  intros Ht Hm Hreg Hchunks.
  assert (Hinfo : model_info (VStr m) = Ok (VDict cfg.bge_m3_info)).
  { unfold model_info, getitem. unfold dict_mem in Hreg.
    unfold cfg.embedding_models_info in *.
    cbn [dict_get] in Hreg. cbn [dict_get].
    destruct (String.eqb "embedding/BAAI/bge-m3" m); [reflexivity|].
    destruct (String.eqb "text-embedding-ada-002" m); [reflexivity|].
    discriminate Hreg. }
  unfold chunk_text.
  rewrite run_set_current_step, run_get_info. fields.
  rewrite Ht, run_lift_ok. branch.
  rewrite Hm, run_lift_ok, Hinfo, run_lift_ok.
  change (getitem (VDict cfg.bge_m3_info) "sequence_length")
    with (Ok (VInt 8192)).
  rewrite run_lift_ok.
  change (floordiv4 (VInt 8192)) with (Ok 2048%Z).
  rewrite run_lift_ok.
  unfold bind at 1. unfold set_chunk_size at 1. fields.
  change (getitem (VDict cfg.chunking_methods) "naive_sentence_chunking")
    with (Ok (VDict [("chunk_size", VInt 512);
                     ("overlap", VFloat (2 # 10))])).
  rewrite run_lift_ok. simpl getitem. rewrite run_lift_ok.
  unfold bind at 1. unfold set_overlap at 1. fields.
  rewrite run_get_output. fields.
  rewrite Hchunks, run_lift_ok. reflexivity.
Qed.

(** The hypotheses of [chunk_text_registered_model] hold of a job that
    names a registered model, with no page retrieved. *)
Lemma chunk_text_registered_model_witness :
  chunk_size
    (snd (chunk_text (C := Mock.collaborators)
            (mkWorld (VDict [ ("target_index_type", VStr "full_vector");
                              ("embedding_model",
                                VStr "text-embedding-ada-002") ])
                     (VDict [ ("document_title", VStr "Report");
                              ("document_type", VStr "pdf");
                              ("contents_index_type", VStr "page_number");
                              ("contents", VDict []) ])
                     "retrieve_text" 512 VNone Mock.store0 0 [] [])))
  = 2048%Z.
Proof.
  rewrite (@chunk_text_registered_model Mock.collaborators
             (mkWorld (VDict [ ("target_index_type", VStr "full_vector");
                               ("embedding_model",
                                 VStr "text-embedding-ada-002") ])
                      (VDict [ ("document_title", VStr "Report");
                               ("document_type", VStr "pdf");
                               ("contents_index_type", VStr "page_number");
                               ("contents", VDict []) ])
                      "retrieve_text" 512 VNone Mock.store0 0 [] [])
             "text-embedding-ada-002" [] eq_refl eq_refl eq_refl eq_refl).
  reflexivity.
Defined.

(** X14.  [retrieve_text] asks the store for the [text] field of the
    original full-text document only, and leaves in [output] the parsed
    form of the string stored there; the store's documents are as they
    were. *)
Theorem retrieve_text_reads_stored_text {C : Collaborators}
        (w : World) (d p stored : dict) (idx id s : string)
        (parsed : value) :
  info w = VDict d ->
  dict_get d "properties" = Some (VDict p) ->
  dict_get p "original_full_text_index_name" = Some (VStr idx) ->
  dict_get p "original_full_text_data_id" = Some (VStr id) ->
  es_fault (calls (es w)) (Get idx id ["text"]) = false ->
  find_doc (docs (es w)) idx id = Some stored ->
  dict_get stored "text" = Some (VStr s) ->
  json_loads s = Ok parsed ->
  retrieve_text w
  = (Ok tt,
     mkWorld (info w) parsed "retrieve_text" (chunk_size w) (overlap w)
             (Store (docs (es w)) (calls (es w) ++ [Get idx id ["text"]])
                    (indexed (es w)))
             (clock w) (log w) (steps w ++ ["retrieve_text"])).
Proof.
  intros Hinfo Hp Hidx Hid Hfault Hdoc Htext Hparse.
  exact (@retrieve_text_returns C w d p stored idx id s parsed
           Hinfo Hp Hidx Hid Hfault Hdoc Htext Hparse).
Qed.

(** The hypotheses of [retrieve_text_reads_stored_text] hold of a job
    that points at a stored document. *)
Lemma retrieve_text_reads_stored_text_witness :
  output
    (snd (retrieve_text (C := Mock.collaborators)
            (mkWorld
               (VDict [("properties",
                         VDict [ ("original_full_text_index_name",
                                   VStr "papers");
                                 ("original_full_text_data_id", VStr "0") ])])
               VNone "idle" 512 VNone
               (Store [(("papers", "0"),
                        [("title", VStr "Report"); ("text", VStr "{}")])]
                      [] 1)
               0 [] [])))
  = VDict [("raw", VStr "{}")].
Proof.
  rewrite (@retrieve_text_reads_stored_text Mock.collaborators
             (mkWorld
                (VDict [("properties",
                          VDict [ ("original_full_text_index_name",
                                    VStr "papers");
                                  ("original_full_text_data_id",
                                    VStr "0") ])])
                VNone "idle" 512 VNone
                (Store [(("papers", "0"),
                         [("title", VStr "Report"); ("text", VStr "{}")])]
                       [] 1)
                0 [] [])
             _ _ _ "papers" "0" "{}" (VDict [("raw", VStr "{}")])
             eq_refl eq_refl eq_refl eq_refl eq_refl eq_refl eq_refl
             eq_refl).
  reflexivity.
Defined.

(** X15.  With a provider that returns one vector per text, in order,
    [embed_text] leaves in [output] the mean of the chunk vectors for a
    [full_vector] job, and for a [chunked_pairs] job the list of the
    records that hold a chunk as text and its own vector as vector, one
    per chunk in order; nothing else of the executor changes but the
    step. *)
Theorem embed_text_pools_or_pairs {C : Collaborators}
        (model : value) (v : value -> value) (T : string)
        (texts : list value) (w : World) :
  (forall batch, embedding model batch = Ok (map v batch)) ->
  getitem (info w) "embedding_model" = Ok model ->
  is_ok (batch_size_of model) = true ->
  output w = VList texts ->
  getitem (info w) "target_index_type" = Ok (VStr T) ->
  T = "full_vector" \/ T = "chunked_pairs" ->
  embed_text w
  = (Ok tt,
     mkWorld (info w)
             (if String.eqb T "full_vector"
              then np_mean (map v texts)
              else VList (map (fun text =>
                                 VDict [("text", text); ("vector", v text)])
                              texts))
             "embed_text" (chunk_size w) (overlap w) (es w) (clock w)
             (log w) (steps w ++ ["embed_text"])).
Proof.
  intros Hprovider Hmodel Hsize Hout HT Htype.
  rewrite (@embed_text_output C model v Hprovider T texts w
             Hmodel Hsize Hout HT Htype).
  unfold embed_each. destruct (String.eqb T "full_vector"); reflexivity.
Qed.

(** The hypotheses of [embed_text_pools_or_pairs] hold of three chunks
    embedded for a [chunked_pairs] job by the test double. *)
Lemma embed_text_pools_or_pairs_witness :
  output
    (snd (embed_text (C := Mock.collaborators)
            (mkWorld (VDict [ ("target_index_type", VStr "chunked_pairs");
                              ("embedding_model", VStr "embedding/e5") ])
                     (VList [VStr "a"; VStr "b"; VStr "c"])
                     "chunk_text" 512 VNone Mock.store0 0 [] [])))
  = VList [ VDict [("text", VStr "a"); ("vector", VList [VStr "a"])];
            VDict [("text", VStr "b"); ("vector", VList [VStr "b"])];
            VDict [("text", VStr "c"); ("vector", VList [VStr "c"])] ].
Proof.
  rewrite (@embed_text_pools_or_pairs Mock.collaborators
             (VStr "embedding/e5") (fun t => VList [t]) "chunked_pairs"
             [VStr "a"; VStr "b"; VStr "c"]
             (mkWorld (VDict [ ("target_index_type", VStr "chunked_pairs");
                               ("embedding_model", VStr "embedding/e5") ])
                      (VList [VStr "a"; VStr "b"; VStr "c"])
                      "chunk_text" 512 VNone Mock.store0 0 [] [])
             (fun _ => eq_refl) eq_refl eq_refl eq_refl eq_refl
             (or_intror eq_refl)).
  reflexivity.
Defined.

(** X16.  Round trip through the store: after a full-text job, a job
    that points at the document it created retrieves what parsing makes
    of the serialised extraction the full-text job started from (the
    extraction itself only where parsing undoes the serialisation),
    provided that the job's index is not a metadata index. *)
Theorem retrieve_text_after_full_text_job {C : Collaborators}
        (d p : dict) (title type extracted parsed text_file : value)
        (idx : string) (w : World) :
  dict_get d "target_index_type" = Some (VStr "full_text") ->
  dict_get d "index_name_full_text" = Some (VStr idx) ->
  dict_get d "properties" = Some (VDict p) ->
  dict_get p "title" = Some title ->
  dict_get p "source_type" = Some type ->
  text_extraction_start text_file title type = Ok extracted ->
  es_fault (calls (es w))
    (Index idx
       (dict_set (dict_set p "added_date" (VStr (isoformat (clock w))))
                 "text" (VStr (json_dumps extracted)))) = false ->
  String.prefix "metadata" idx = false ->
  json_loads (json_dumps extracted) = Ok parsed ->
  exists w1,
    start (VDict d) (VStr "full_text") text_file w = (Ok (VBool true), w1)
    /\ forall (w2 : World) (d2 p2 : dict),
        docs (es w2) = docs (es w1) ->
        info w2 = VDict d2 ->
        dict_get d2 "properties" = Some (VDict p2) ->
        dict_get p2 "original_full_text_index_name" = Some (VStr idx) ->
        dict_get p2 "original_full_text_data_id"
        = Some (VStr (es_new_id (indexed (es w)))) ->
        es_fault (calls (es w2))
                 (Get idx (es_new_id (indexed (es w))) ["text"]) = false ->
        exists w3,
          retrieve_text w2 = (Ok tt, w3)
          /\ output w3 = parsed
          /\ current_step w3 = "retrieve_text"
          /\ docs (es w3) = docs (es w1).
Proof.
  intros Ht Hidx Hp Htitle Htype Hx Hfault Hprefix Hjson.
  destruct (@full_text_job_returns C d p title type extracted text_file
              idx w Ht Hidx Hp Htitle Htype Hx Hfault)
    as (w1 & rest & Hrun & _ & _ & _ & Hdoc).
  exists w1. split; [exact Hrun|].
  intros w2 d2 p2 Hdocs Hinfo Hp2 Hname Hid Hget.
  specialize (Hdoc Hprefix). rewrite <- Hdocs in Hdoc.
  eexists. split.
  - eapply retrieve_text_returns;
      [exact Hinfo|exact Hp2|exact Hname|exact Hid|exact Hget|exact Hdoc
      |apply dict_get_set_same|exact Hjson].
  - cbn [output current_step es docs]. auto.
Qed.

(** The hypotheses of [retrieve_text_after_full_text_job] hold of the
    frontend's full-text job with a codec that writes a report as the
    text of its page: a second job that names the new document reads
    the report back. *)
Lemma retrieve_text_after_full_text_job_witness :
  exists w1 w3,
    start (C := Mock.text_codec) Mock.full_text_settings
          (VStr "full_text") (VBytes "%PDF") Mock.world0
    = (Ok (VBool true), w1)
    /\ retrieve_text (C := Mock.text_codec)
         (mkWorld
            (VDict [("properties",
                      VDict [ ("original_full_text_index_name",
                                VStr "papers");
                              ("original_full_text_data_id", VStr "0") ])])
            VNone "idle" 512 VNone (es w1) 0 [] [])
       = (Ok tt, w3)
    /\ output w3 = Mock.one_page "Hello world.".
Proof.
  destruct (@retrieve_text_after_full_text_job Mock.text_codec
              [ ("target_index_type", VStr "full_text");
                ("index_name_full_text", VStr "papers");
                ("index_name_full_vector", VNone);
                ("index_name_chunked_pairs", VNone);
                ("properties",
                  VDict [("title", VStr "Report");
                         ("source_type", VStr "pdf")]);
                ("embedding_model", VNone);
                ("metadata_index_modify_id", VStr "m1") ]
              [("title", VStr "Report"); ("source_type", VStr "pdf")]
              (VStr "Report") (VStr "pdf") Mock.extracted_page
              (Mock.one_page "Hello world.")
              (VBytes "%PDF") "papers" Mock.world0
              eq_refl eq_refl eq_refl eq_refl eq_refl eq_refl eq_refl
              eq_refl eq_refl)
    as (w1 & Hrun & Hread).
  destruct (Hread
              (mkWorld
                 (VDict [("properties",
                           VDict [ ("original_full_text_index_name",
                                     VStr "papers");
                                   ("original_full_text_data_id",
                                     VStr "0") ])])
                 VNone "idle" 512 VNone (es w1) 0 [] [])
              _ _ eq_refl eq_refl eq_refl eq_refl eq_refl eq_refl)
    as (w3 & Hretrieve & Hout & _).
  exists w1, w3. auto.
Defined.

End ExecuteMore.

(* ================================================================== *)
(** * Properties of the text extraction *)
(* ================================================================== *)

Module ExtractionProps.

Import TextExtraction Chunking ChunkingProps ExecuteProps.

(** ** The clean-up of newlines and spaces *)

Lemma cap_runs_bounded (c : ascii) (n : nat) (text : string) :
  forall run,
    run_bounded c n (Nat.min run n) (cap_runs c n run text) = true.
Proof.
  induction text as [|x rest IH]; intros run; cbn [cap_runs run_bounded];
    [reflexivity|].
  destruct (Ascii.eqb x c) eqn:Hx.
  - destruct (Nat.ltb_spec run n) as [Hlt|Hge].
    + cbn [run_bounded]. rewrite Hx.
      replace (Nat.min run n) with run by lia.
      specialize (IH (S run)).
      replace (Nat.min (S run) n) with (S run) in IH by lia.
      rewrite IH, andb_true_r. apply Nat.leb_le. lia.
    + specialize (IH (S run)).
      replace (Nat.min (S run) n) with n in IH by lia.
      now replace (Nat.min run n) with n by lia.
  - cbn [run_bounded]. rewrite Hx. apply (IH 0).
Qed.

Lemma cap_runs_id (c : ascii) (n : nat) (text : string) :
  forall run,
    run_bounded c n run text = true -> cap_runs c n run text = text.
Proof.
  induction text as [|x rest IH]; intros run H; cbn [cap_runs run_bounded] in *;
    [reflexivity|].
  destruct (Ascii.eqb x c).
  - apply andb_prop in H. destruct H as [Hle H].
    apply Nat.leb_le in Hle.
    destruct (Nat.ltb_spec run n) as [_|Hge]; [|lia].
    now rewrite IH.
  - now rewrite IH.
Qed.

Lemma cap_runs_keeps_bound (c c' : ascii) (m n : nat) (text : string) :
  Ascii.eqb c c' = false ->
  1 <= m ->
  forall k r,
    (0 < k -> r = 0) ->
    run_bounded c' n r text = true ->
    run_bounded c' n r (cap_runs c m k text) = true.
Proof.
  intros Hcc Hm.
  induction text as [|x rest IH]; intros k r Hk H;
    cbn [cap_runs run_bounded] in *; [reflexivity|].
  destruct (Ascii.eqb x c) eqn:Hx.
  - apply Ascii.eqb_eq in Hx. subst x. rewrite Hcc in H.
    destruct (Nat.ltb_spec k m) as [Hlt|Hge].
    + cbn [run_bounded]. rewrite Hcc. apply IH; [reflexivity|exact H].
    + rewrite (Hk ltac:(lia)). apply IH; [reflexivity|exact H].
  - cbn [run_bounded].
    destruct (Ascii.eqb x c') eqn:Hx'.
    + apply andb_prop in H. destruct H as [Hle H].
      rewrite Hle. cbn [andb]. apply IH; [lia|exact H].
    + apply IH; [lia|exact H].
Qed.

Lemma run_bounded_run (c : ascii) (n : nat) (rest : string) :
  forall k r,
    run_bounded c n r (run_of c (S k) ++ rest) = true -> r + S k <= n.
Proof.
  induction k as [|k IH]; intros r H;
    change (run_of c (S ?k) ++ rest)%string
      with (String c (run_of c k ++ rest)) in H;
    cbn [run_bounded] in H;
    rewrite Ascii.eqb_refl in H; apply andb_prop in H;
    destruct H as [Hle H]; apply Nat.leb_le in Hle.
  - lia.
  - specialize (IH (S r) H). lia.
Qed.

Lemma run_bounded_weaken (c : ascii) (n : nat) (text : string) :
  forall r r',
    r' <= r -> run_bounded c n r text = true ->
    run_bounded c n r' text = true.
Proof.
  destruct text as [|x rest]; intros r r' Hle H; cbn [run_bounded] in *;
    [reflexivity|].
  destruct (Ascii.eqb x c); [|exact H].
  apply andb_prop in H. destruct H as [Hb H]. apply Nat.leb_le in Hb.
  apply andb_true_intro. split; [apply Nat.leb_le; lia|].
  revert H. generalize (S r), (S r'), (le_n_S _ _ Hle). clear.
  induction rest as [|y rest IH]; intros r r' Hle H; cbn [run_bounded] in *;
    [reflexivity|].
  destruct (Ascii.eqb y c); [|exact H].
  apply andb_prop in H. destruct H as [Hb H]. apply Nat.leb_le in Hb.
  apply andb_true_intro. split; [apply Nat.leb_le; lia|].
  apply (IH (S r) (S r')); [lia|exact H].
Qed.

Lemma run_bounded_no_long_run (c : ascii) (n : nat) (before after : string) :
  forall text r,
    run_bounded c n r text = true ->
    text <> (before ++ run_of c (S n) ++ after)%string.
Proof.
  induction before as [|y before IH]; intros text r H Heq; subst text.
  - cbn [append] in H. apply run_bounded_run in H. lia.
  - cbn [append run_bounded] in H.
    destruct (Ascii.eqb y c).
    + apply andb_prop in H. destruct H as [_ H].
      exact (IH _ _ H eq_refl).
    + exact (IH _ _ H eq_refl).
Qed.

Lemma cleaned_bounded (text : string) :
  run_bounded newline 3 0 (remove_excessive_lines_and_spaces text) = true
  /\ run_bounded space 3 0 (remove_excessive_lines_and_spaces text) = true.
Proof.
  unfold remove_excessive_lines_and_spaces, line_num_threshold,
    space_num_threshold.
  split.
  - apply cap_runs_keeps_bound; [reflexivity|lia|lia|].
    apply (cap_runs_bounded newline 3 text 0).
  - apply (cap_runs_bounded space 3 _ 0).
Qed.

Lemma cap_runs_filter (p : ascii -> bool) (c : ascii) (n : nat)
      (text : string) :
  p c = false ->
  forall run,
    filter p (list_ascii_of_string (cap_runs c n run text))
    = filter p (list_ascii_of_string text).
Proof.
  intros Hp.
  induction text as [|x rest IH]; intros run;
    cbn [cap_runs list_ascii_of_string filter]; [reflexivity|].
  destruct (Ascii.eqb x c) eqn:Hx.
  - apply Ascii.eqb_eq in Hx. subst x. rewrite Hp.
    destruct (run <? n)%nat; cbn [list_ascii_of_string filter];
      rewrite ?Hp; apply IH.
  - cbn [list_ascii_of_string filter]. now rewrite IH.
Qed.

Lemma cap_runs_length (c : ascii) (n : nat) (text : string) :
  forall run,
    String.length (cap_runs c n run text) <= String.length text.
Proof.
  induction text as [|x rest IH]; intros run;
    cbn [cap_runs String.length]; [lia|].
  destruct (Ascii.eqb x c); [destruct (run <? n)%nat|];
    cbn [String.length].
  - specialize (IH (S run)). lia.
  - specialize (IH (S run)). lia.
  - specialize (IH 0). lia.
Qed.

(** X17.  After the clean-up no run of newlines and no run of spaces is
    longer than three: the cleaned text contains neither four newlines
    nor four spaces in a row. *)
Theorem cleaned_text_has_no_long_run (text before after : string) :
  remove_excessive_lines_and_spaces text
  <> (before ++ run_of newline 4 ++ after)%string
  /\ remove_excessive_lines_and_spaces text
     <> (before ++ run_of space 4 ++ after)%string.
Proof.
  destruct (cleaned_bounded text) as [Hlines Hspaces].
  split; eapply run_bounded_no_long_run; eassumption.
Qed.

(** X18.  The clean-up is idempotent: cleaning a cleaned text changes
    nothing. *)
Theorem remove_excessive_lines_and_spaces_idempotent (text : string) :
  remove_excessive_lines_and_spaces (remove_excessive_lines_and_spaces text)
  = remove_excessive_lines_and_spaces text.
Proof.
  destruct (cleaned_bounded text) as [Hlines Hspaces].
  unfold remove_excessive_lines_and_spaces at 1.
  unfold line_num_threshold, space_num_threshold.
  rewrite (cap_runs_id _ _ _ _ Hlines).
  apply cap_runs_id. exact Hspaces.
Qed.

(** X19.  The clean-up only leaves out newlines and spaces: every other
    character of the text is kept, in order, and the text does not
    grow. *)
Theorem remove_excessive_lines_and_spaces_keeps_text (text : string) :
  other_characters (remove_excessive_lines_and_spaces text)
  = other_characters text
  /\ String.length (remove_excessive_lines_and_spaces text)
     <= String.length text.
Proof.
  unfold remove_excessive_lines_and_spaces, other_characters. split.
  - rewrite !cap_runs_filter; try reflexivity.
  - etransitivity; apply cap_runs_length.
Qed.

(** ** Units and their keys *)

Lemma to_uint_not_nil (n : nat) : Nat.to_uint n <> Decimal.Nil.
Proof.
  intros H. pose proof (DecimalNat.Unsigned.of_to n) as Hn.
  rewrite H in Hn. cbn in Hn. subst n. discriminate H.
Qed.

Lemma key_inj (n m : nat) : key n = key m -> n = m.
Proof.
  unfold key. intros H.
  apply (f_equal NilZero.uint_of_string) in H.
  rewrite !NilZero.usu in H by apply to_uint_not_nil.
  injection H as H. now apply DecimalNat.Unsigned.to_uint_inj.
Qed.

Lemma dict_set_fresh (d : dict) (k : string) (v : value) :
  dict_get d k = None -> dict_set d k v = d ++ [(k, v)].
Proof.
  induction d as [|[k' v'] d IH]; cbn [dict_get dict_set app];
    [reflexivity|].
  destruct (String.eqb k' k); [discriminate|].
  intros H. now rewrite IH.
Qed.

Lemma dict_get_app (a b : dict) (k : string) :
  dict_get (a ++ b) k
  = match dict_get a k with
    | Some v => Some v
    | None => dict_get b k
    end.
Proof.
  induction a as [|[k' v'] a IH]; cbn [dict_get app]; [reflexivity|].
  destruct (String.eqb k' k); [reflexivity|exact IH].
Qed.

Lemma fresh_after (units : dict) (c : nat) (v : value) :
  (forall j, c <= j -> dict_get units (key j) = None) ->
  forall j, S c <= j -> dict_get (units ++ [(key c, v)]) (key j) = None.
Proof.
  intros Hfresh j Hj. rewrite dict_get_app, Hfresh by lia.
  cbn [dict_get].
  destruct (String.eqb_spec (key c) (key j)) as [Heq|_]; [|reflexivity].
  apply key_inj in Heq. lia.
Qed.

Lemma flat_map_map {A B D} (f : B -> list D) (g : A -> B) (l : list A) :
  flat_map f (map g l) = flat_map (fun a => f (g a)) l.
Proof.
  induction l as [|a l IH]; cbn [map flat_map]; [reflexivity|].
  now rewrite IH.
Qed.

Lemma flat_map_nothing {A B} (l : list A) :
  flat_map (fun _ : A => @nil B) l = [].
Proof. induction l as [|a l IH]; [reflexivity|exact IH]. Qed.

Lemma append_empty (a b : string) :
  (a ++ b)%string = "" -> a = "" /\ b = "".
Proof. destruct a; cbn [append]; [auto|discriminate]. Qed.

Section Start.

Context {C : Collaborators} {R : Readers}.

(** The sentence chunker on units that hold a text, a table or both: the
    chunks of the texts, unit by unit; a unit without text adds
    nothing. *)
Lemma sentence_units_of (chunk_size : Z) (title type index_type : value)
      (units : list (string * (option string * option string))) :
  forall a b,
    sentence_units chunk_size
      [ ("document_title", title); ("document_type", type);
        ("content_index", a); ("content", b);
        ("content_index_type", index_type) ]
      (map (fun u => (fst u, unit_of (fst (snd u)) (snd (snd u)))) units)
    = Ok (flat_map
            (fun u =>
               match fst (snd u) with
               | Some text =>
                   map (fun chunk =>
                          json_dumps
                            (chunk_record title type (fst u) chunk
                                          index_type))
                       (sentence_chunks chunk_size text)
               | None => []
               end)
            units).
Proof.
  induction units as [|[idx [[text|] [table|]]] units IH]; intros a b;
    [reflexivity| | | |];
    cbn [map fst snd unit_of app sentence_units unit_text dict_get
         String.eqb Ascii.eqb Bool.eqb rbind flat_map];
    cbn [dict_set String.eqb Ascii.eqb Bool.eqb];
    rewrite IH; reflexivity.
Qed.

Lemma chunking_of_units (chunk_size : Z) (title type index_type : value)
      (units : list (string * (option string * option string))) :
  naive_sentence_chunking_start chunk_size
    (VDict [ ("contents",
               VDict (map (fun u => (fst u,
                                     unit_of (fst (snd u)) (snd (snd u))))
                          units));
             ("document_title", title);
             ("document_type", type);
             ("contents_index_type", index_type) ])
  = Ok (flat_map
          (fun u =>
             match fst (snd u) with
             | Some text =>
                 map (fun chunk =>
                        json_dumps
                          (chunk_record title type (fst u) chunk index_type))
                     (sentence_chunks chunk_size text)
             | None => []
             end)
          units).
Proof.
  unfold naive_sentence_chunking_start. simpl.
  apply sentence_units_of.
Qed.

Lemma pdf_pages_units (pages : list pdf_page) (tail : dict) :
  forall units,
    NoDup (map page_number pages) ->
    (forall page, In page pages ->
                  dict_get units (key (page_number page)) = None) ->
    pdf_pages pages (VDict (("contents", VDict units) :: tail))
    = Ok (VDict
            (("contents",
               VDict (units
                        ++ map (fun page =>
                                  (key (page_number page),
                                   VDict [("text", VStr (page_text page))]))
                               pages))
               :: tail)).
Proof.
  induction pages as [|page pages IH]; intros units Hnodup Hfresh;
    cbn [pdf_pages map].
  - now rewrite app_nil_r.
  - change (setitem2 (VDict (("contents", VDict units) :: tail)) "contents"
                     (key (page_number page))
                     (VDict [("text", VStr (page_text page))]))
      with (Ok (VDict (("contents",
                         VDict (dict_set units (key (page_number page))
                                  (VDict [("text", VStr (page_text page))])))
                         :: tail))).
    cbn [rbind].
    rewrite dict_set_fresh by (apply Hfresh; now left).
    inversion Hnodup as [|n ns Hnotin Hrest]; subst.
    rewrite IH; [now rewrite <- app_assoc|exact Hrest|].
    intros other Hin. rewrite dict_get_app, Hfresh by now right.
    cbn [dict_get].
    destruct (String.eqb_spec (key (page_number page))
                              (key (page_number other))) as [Heq|_];
      [|reflexivity].
    apply key_inj in Heq. elim Hnotin. rewrite Heq. now apply in_map.
Qed.

Lemma docx_tables_fresh (tables : list (list (list string))) (tail : dict) :
  forall c units,
    (forall j, c <= j -> dict_get units (key j) = None) ->
    docx_tables tables c (VDict (("contents", VDict units) :: tail))
    = Ok (VDict
            (("contents",
               VDict (units
                        ++ map (fun kt =>
                                  (key (fst kt),
                                   VDict [("table",
                                            VStr (csv_of (map (map strip)
                                                              (snd kt))))]))
                               (combine (seq c (length tables)) tables)))
               :: tail)).
Proof.
  induction tables as [|table tables IH]; intros c units Hfresh;
    cbn [docx_tables length seq combine map].
  - now rewrite app_nil_r.
  - change (getitem (VDict (("contents", VDict units) :: tail)) "contents")
      with (Ok (VDict units)).
    cbn [rbind]. unfold Execute.has_key, getitem at 1.
    rewrite (Hfresh c (le_n c)). cbn [is_ok rbind].
    change (setitem2 (VDict (("contents", VDict units) :: tail)) "contents"
                     (key c) ?v)
      with (Ok (VDict (("contents", VDict (dict_set units (key c) v))
                         :: tail))).
    cbn [rbind].
    rewrite dict_set_fresh by (apply Hfresh; lia).
    rewrite IH by (apply fresh_after; exact Hfresh).
    now rewrite <- app_assoc.
Qed.

Lemma ppt_slides_fresh (slides : list (list shape)) (tail : dict) :
  forall c units,
    (forall j, c <= j -> dict_get units (key j) = None) ->
    ppt_slides slides c (VDict (("contents", VDict units) :: tail))
    = Ok (VDict
            (("contents",
               VDict (units
                        ++ map (fun ks => (key (fst ks),
                                           VDict (slide_unit (snd ks))))
                               (combine (seq c (length slides)) slides)))
               :: tail)).
Proof.
  induction slides as [|shapes slides IH]; intros c units Hfresh;
    cbn [ppt_slides length seq combine map].
  - now rewrite app_nil_r.
  - change (setitem2 (VDict (("contents", VDict units) :: tail)) "contents"
                     (key c) ?v)
      with (Ok (VDict (("contents", VDict (dict_set units (key c) v))
                         :: tail))).
    cbn [rbind].
    rewrite dict_set_fresh by (apply Hfresh; lia).
    rewrite IH by (apply fresh_after; exact Hfresh).
    now rewrite <- app_assoc.
Qed.

Lemma slide_texts_empty (shapes : list shape) :
  String.eqb (slide_texts shapes) ""
  = forallb (fun s => match text_frame s with
                      | Some _ => false
                      | None => true
                      end) shapes.
Proof.
  unfold slide_texts.
  assert (H : forall acc,
             String.eqb
               (fold_left (fun texts s => (texts ++ shape_texts s)%string)
                          shapes acc) ""
             = String.eqb acc ""
               && forallb (fun s => match text_frame s with
                                    | Some _ => false
                                    | None => true
                                    end) shapes).
  { induction shapes as [|s shapes IH]; intros acc; cbn [fold_left forallb].
    - now rewrite andb_true_r.
    - rewrite IH. unfold shape_texts.
      destruct (text_frame s) as [paragraphs|].
      + cbn [andb]. rewrite andb_false_r.
        destruct (String.eqb_spec
                    (acc ++ fold_left
                              (fun text run =>
                                 (text ++ run ++ String newline "")%string)
                              (concat paragraphs) ""
                         ++ String newline (String newline ""))%string "")
          as [Heq|_]; [|reflexivity].
        apply append_empty in Heq. destruct Heq as [_ Heq].
        apply append_empty in Heq. destruct Heq as [_ Heq].
        discriminate Heq.
      + cbn [andb].
        replace (acc ++ "")%string with acc; [reflexivity|].
        clear. induction acc as [|x acc IHacc]; cbn [append];
          [reflexivity|now rewrite <- IHacc]. }
  apply (H "").
Qed.

Lemma slide_unit_text (shapes : list shape) :
  dict_get (slide_unit shapes) "text"
  = if forallb (fun s => match text_frame s with
                         | Some _ => false
                         | None => true
                         end) shapes
    then None
    else Some (VStr (remove_excessive_lines_and_spaces (slide_texts shapes))).
Proof.
  unfold slide_unit. rewrite slide_texts_empty.
  destruct (forallb _ shapes); cbn [negb];
    destruct (negb (String.eqb (slide_tables shapes) "")); reflexivity.
Qed.

Lemma slide_unit_of (shapes : list shape) :
  VDict (slide_unit shapes)
  = unit_of
      (if String.eqb (slide_texts shapes) "" then None
       else Some (remove_excessive_lines_and_spaces (slide_texts shapes)))
      (if String.eqb (slide_tables shapes) "" then None
       else Some (slide_tables shapes)).
Proof.
  unfold slide_unit.
  destruct (String.eqb (slide_texts shapes) "");
    destruct (String.eqb (slide_tables shapes) ""); reflexivity.
Qed.

End Start.

(** X20.  A document whose type is none of pdf, docx, pptx and ppt is
    accepted by the extraction, which reads no file and returns no
    contents and no [contents_index_type]; the sentence chunker then
    fails on the missing key. *)
Theorem start_unsupported_type {C : Collaborators} {R : Readers}
        (file_instance doc_title : value) (t : string) :
  ~ In (lower t) ["pdf"; "docx"; "pptx"; "ppt"] ->
  start file_instance doc_title (VStr t)
  = Ok (VDict [ ("contents", VDict []);
                ("document_title", doc_title);
                ("document_type", VStr t) ])
  /\ forall chunk_size,
      naive_sentence_chunking_start chunk_size
        (VDict [ ("contents", VDict []);
                 ("document_title", doc_title);
                 ("document_type", VStr t) ])
      = Raise (KeyError "contents_index_type").
Proof.
  intros Hnot. split; [|reflexivity].
  unfold start, lower_of. cbn [rbind].
  destruct (String.eqb_spec (lower t) "pdf") as [H|_];
    [elim Hnot; rewrite H; simpl; tauto|].
  destruct (String.eqb_spec (lower t) "docx") as [H|_];
    [elim Hnot; rewrite H; simpl; tauto|].
  destruct (String.eqb_spec (lower t) "pptx") as [H|_];
    [elim Hnot; rewrite H; simpl; tauto|].
  destruct (String.eqb_spec (lower t) "ppt") as [H|_];
    [elim Hnot; rewrite H; simpl; tauto|].
  reflexivity.
Qed.

(** The hypothesis of [start_unsupported_type] holds of a text file. *)
Lemma start_unsupported_type_witness :
  start (R := Mock.readers) (VBytes "notes") (VStr "Notes") (VStr "TXT")
  = Ok (VDict [ ("contents", VDict []);
                ("document_title", VStr "Notes");
                ("document_type", VStr "TXT") ]).
Proof.
  apply (@start_unsupported_type Mock.collaborators Mock.readers
           (VBytes "notes") (VStr "Notes") "TXT").
  cbn. intros [H|[H|[H|[H|[]]]]]; discriminate H.
Defined.

(** X21.  A pdf, whatever the case its type is written in: the
    extraction stores one unit per page, under the page number, holding
    the cleaned text of the page, the empty string for a page without
    text; the sentence chunker then chunks the pages one by one, in
    page order, each record naming its page. *)
Theorem pdf_extraction_then_chunking {C : Collaborators} {R : Readers}
        (file_instance doc_title : value) (t : string)
        (pages : list pdf_page) :
  lower t = "pdf" ->
  read_pdf file_instance = Ok pages ->
  NoDup (map page_number pages) ->
  exists extracted,
    start file_instance doc_title (VStr t) = Ok extracted
    /\ getitem extracted "contents"
       = Ok (VDict (map (fun page =>
                           (key (page_number page),
                            VDict [("text", VStr (page_text page))]))
                        pages))
    /\ getitem extracted "contents_index_type" = Ok (VStr "page_number")
    /\ forall chunk_size,
        naive_sentence_chunking_start chunk_size extracted
        = Ok (flat_map
                (fun page =>
                   map (fun chunk =>
                          json_dumps
                            (chunk_record doc_title (VStr t)
                                          (key (page_number page)) chunk
                                          (VStr "page_number")))
                       (sentence_chunks chunk_size (page_text page)))
                pages).
Proof.
  intros Hlower Hread Hnodup.
  unfold start, lower_of. cbn [rbind]. rewrite Hlower.
  change (String.eqb "pdf" "pdf") with true. cbv iota.
  unfold parse_pdf.
  change (setitem _ "contents_index_type" (VStr "page_number"))
    with (Ok (VDict [ ("contents", VDict []);
                      ("document_title", doc_title);
                      ("document_type", VStr t);
                      ("contents_index_type", VStr "page_number") ])).
  cbn [rbind]. rewrite Hread. cbn [rbind].
  rewrite pdf_pages_units; [|exact Hnodup|reflexivity].
  cbn [app]. eexists. split; [reflexivity|].
  split; [reflexivity|]. split; [reflexivity|].
  intros chunk_size.
  replace (map (fun page => (key (page_number page),
                             VDict [("text", VStr (page_text page))]))
               pages)
    with (map (fun u => (fst u, unit_of (fst (snd u)) (snd (snd u))))
              (map (fun page => (key (page_number page),
                                 (Some (page_text page), @None string)))
                   pages))
    by (rewrite map_map; reflexivity).
  rewrite chunking_of_units, flat_map_map. reflexivity.
Qed.

(** The hypotheses of [pdf_extraction_then_chunking] hold of a pdf of
    two pages, the second without text. *)
Lemma pdf_extraction_then_chunking_witness :
  exists extracted,
    start (R := Mock.readers) (VBytes "%PDF") (VStr "Report") (VStr "PDF")
    = Ok extracted
    /\ getitem extracted "contents"
       = Ok (VDict [ ("1", VDict [("text", VStr "Hello   world.")]);
                     ("2", VDict [("text", VStr "")]) ]).
Proof.
  destruct (@pdf_extraction_then_chunking Mock.collaborators Mock.readers
              (VBytes "%PDF") (VStr "Report") "PDF" Mock.two_pages
              eq_refl eq_refl)
    as (extracted & Hstart & Hcontents & _).
  - repeat constructor; cbn; intuition discriminate.
  - exists extracted. split; [exact Hstart|exact Hcontents].
Defined.

(** X22.  A docx: the extraction stores the cleaned text of the
    paragraphs that are neither empty nor a single space under index 1,
    together with the first table; every further table gets a unit of
    its own, without text.  The sentence chunker then chunks the text
    of unit 1 and nothing else: no table reaches a chunk. *)
Theorem docx_extraction_then_chunking {C : Collaborators} {R : Readers}
        (file_instance doc_title : value) (t : string)
        (doc : docx_document) :
  lower t = "docx" ->
  read_docx file_instance = Ok doc ->
  let full_text :=
    remove_excessive_lines_and_spaces (docx_full_text (paragraphs doc)) in
  let csv table := csv_of (map (map strip) table) in
  exists extracted,
    start file_instance doc_title (VStr t) = Ok extracted
    /\ getitem extracted "contents"
       = Ok (VDict
               ((key 1,
                 unit_of (Some full_text)
                         (option_map csv (hd_error (tables doc))))
                  :: map (fun kt =>
                            (key (fst kt),
                             unit_of None (Some (csv (snd kt)))))
                         (combine (seq 2 (length (tl (tables doc))))
                                  (tl (tables doc)))))
    /\ forall chunk_size,
        naive_sentence_chunking_start chunk_size extracted
        = Ok (map (fun chunk =>
                     json_dumps
                       (chunk_record doc_title (VStr t) (key 1) chunk
                                     (VStr "whole_text_or_table_number")))
                  (sentence_chunks chunk_size full_text)).
Proof.
  intros Hlower Hread full_text csv.
  set (index_type := VStr "whole_text_or_table_number").
  assert (Hstart :
            start file_instance doc_title (VStr t)
            = Ok (VDict
                    [ ("contents",
                        VDict
                          (map (fun u => (fst u,
                                          unit_of (fst (snd u))
                                                  (snd (snd u))))
                               ((key 1,
                                 (Some full_text,
                                  option_map csv (hd_error (tables doc))))
                                  :: map (fun kt =>
                                            (key (fst kt),
                                             (None, Some (csv (snd kt)))))
                                         (combine
                                            (seq 2 (length (tl (tables doc))))
                                            (tl (tables doc))))));
                      ("document_title", doc_title);
                      ("document_type", VStr t);
                      ("contents_index_type", index_type) ])).
  { unfold start, lower_of. cbn [rbind]. rewrite Hlower.
    change (String.eqb "docx" "pdf") with false.
    change (String.eqb "docx" "docx") with true. cbv iota.
    unfold parse_docx. rewrite Hread. cbn [rbind].
    change (setitem _ "contents_index_type"
                    (VStr "whole_text_or_table_number"))
      with (Ok (VDict [ ("contents", VDict []);
                        ("document_title", doc_title);
                        ("document_type", VStr t);
                        ("contents_index_type", index_type) ])).
    cbn [rbind]. cbv zeta. fold full_text.
    change (setitem2 _ "contents" (key 1) (VDict [("text", VStr full_text)]))
      with (Ok (VDict [ ("contents",
                          VDict [(key 1, VDict [("text", VStr full_text)])]);
                        ("document_title", doc_title);
                        ("document_type", VStr t);
                        ("contents_index_type", index_type) ])).
    cbn [rbind].
    destruct (tables doc) as [|first others]; [reflexivity|].
    cbn [docx_tables].
    change (getitem (VDict (("contents", ?c) :: _)) "contents")
      with (Ok c).
    cbn [rbind].
    change (Execute.has_key
              (VDict [(key 1, VDict [("text", VStr full_text)])]) (key 1))
      with true.
    cbv iota.
    change (getitem (VDict [(key 1, VDict [("text", VStr full_text)])])
                    (key 1))
      with (Ok (VDict [("text", VStr full_text)])).
    cbn [rbind].
    change (setitem (VDict [("text", VStr full_text)]) "table" ?v)
      with (Ok (VDict [("text", VStr full_text); ("table", v)])).
    cbn [rbind].
    change (setitem2 (VDict (("contents", VDict [(key 1, ?old)]) :: ?tail))
                     "contents" (key 1) ?v)
      with (Ok (VDict (("contents", VDict [(key 1, v)]) :: tail))).
    cbn [rbind].
    rewrite docx_tables_fresh.
    - cbn [hd_error tl option_map map fst snd unit_of app].
      rewrite map_map. reflexivity.
    - intros j Hj. cbn [dict_get].
      destruct (String.eqb_spec (key 1) (key j)) as [Heq|_]; [|reflexivity].
      apply key_inj in Heq. lia. }
  eexists. split; [exact Hstart|]. split.
  - cbn [getitem dict_get String.eqb Ascii.eqb Bool.eqb map fst snd].
    rewrite map_map. reflexivity.
  - intros chunk_size. rewrite chunking_of_units.
    cbn [flat_map fst snd]. rewrite flat_map_map. cbn [fst snd].
    replace (flat_map (fun _ : nat * list (list string) => [])
                      (combine (seq 2 (length (tl (tables doc))))
                               (tl (tables doc))))
      with (@nil string)
      by (symmetry; apply flat_map_nothing).
    now rewrite app_nil_r.
Qed.

(** The hypotheses of [docx_extraction_then_chunking] hold of a docx
    with two paragraphs and two tables. *)
Lemma docx_extraction_then_chunking_witness :
  exists extracted,
    start (R := Mock.readers) (VBytes "PK") (VStr "Minutes") (VStr "docx")
    = Ok extracted
    /\ getitem extracted "contents"
       = Ok (VDict [ ("1", VDict [ ("text", VStr "Agenda
Decisions
");
                                   ("table", VStr "a,b
c,d") ]);
                     ("2", VDict [("table", VStr "x")]) ]).
Proof.
  destruct (@docx_extraction_then_chunking Mock.collaborators Mock.readers
              (VBytes "PK") (VStr "Minutes") "docx" Mock.minutes
              eq_refl eq_refl)
    as (extracted & Hstart & Hcontents & _).
  exists extracted. split; [exact Hstart|exact Hcontents].
Defined.

(** X23.  A presentation: the extraction stores one unit per slide,
    under the slide's position; the unit holds a text exactly when some
    shape of the slide has a text frame.  The sentence chunker then
    skips the slides without text frames and chunks the others. *)
Theorem ppt_extraction_then_chunking {C : Collaborators} {R : Readers}
        (file_instance doc_title : value) (t : string)
        (slides : list (list shape)) :
  lower t = "pptx" \/ lower t = "ppt" ->
  read_pptx file_instance = Ok slides ->
  let numbered := combine (seq 1 (length slides)) slides in
  let no_text_frame shapes :=
    forallb (fun s => match text_frame s with
                      | Some _ => false
                      | None => true
                      end) shapes in
  exists extracted,
    start file_instance doc_title (VStr t) = Ok extracted
    /\ getitem extracted "contents"
       = Ok (VDict (map (fun ks => (key (fst ks),
                                    VDict (slide_unit (snd ks))))
                        numbered))
    /\ (forall k shapes,
          In (k, shapes) numbered ->
          dict_get (slide_unit shapes) "text"
          = if no_text_frame shapes then None
            else Some (VStr (remove_excessive_lines_and_spaces
                               (slide_texts shapes))))
    /\ forall chunk_size,
        naive_sentence_chunking_start chunk_size extracted
        = Ok (flat_map
                (fun ks =>
                   if no_text_frame (snd ks) then []
                   else
                     map (fun chunk =>
                            json_dumps
                              (chunk_record doc_title (VStr t)
                                            (key (fst ks)) chunk
                                            (VStr "slide_number")))
                         (sentence_chunks chunk_size
                            (remove_excessive_lines_and_spaces
                               (slide_texts (snd ks)))))
                numbered).
Proof.
  intros Hlower Hread numbered no_text_frame.
  assert (Hstart :
            start file_instance doc_title (VStr t)
            = Ok (VDict
                    [ ("contents",
                        VDict (map (fun ks => (key (fst ks),
                                               VDict (slide_unit (snd ks))))
                                   numbered));
                      ("document_title", doc_title);
                      ("document_type", VStr t);
                      ("contents_index_type", VStr "slide_number") ])).
  { unfold start, lower_of. cbn [rbind].
    assert (Htype : String.eqb (lower t) "pdf" = false
                    /\ String.eqb (lower t) "docx" = false
                    /\ (String.eqb (lower t) "pptx"
                        || String.eqb (lower t) "ppt") = true)
      by (destruct Hlower as [-> | ->]; repeat split; reflexivity).
    destruct Htype as (-> & -> & ->).
    unfold parse_ppt. rewrite Hread. cbn [rbind].
    change (setitem _ "contents_index_type" (VStr "slide_number"))
      with (Ok (VDict [ ("contents", VDict []);
                        ("document_title", doc_title);
                        ("document_type", VStr t);
                        ("contents_index_type", VStr "slide_number") ])).
    cbn [rbind].
    rewrite ppt_slides_fresh by reflexivity. reflexivity. }
  eexists. split; [exact Hstart|]. split; [reflexivity|]. split.
  - intros k shapes _. apply slide_unit_text.
  - intros chunk_size.
    replace (map (fun ks => (key (fst ks), VDict (slide_unit (snd ks))))
                 numbered)
      with (map (fun u => (fst u, unit_of (fst (snd u)) (snd (snd u))))
                (map (fun ks =>
                        (key (fst ks),
                         (if String.eqb (slide_texts (snd ks)) "" then None
                          else Some (remove_excessive_lines_and_spaces
                                       (slide_texts (snd ks))),
                          if String.eqb (slide_tables (snd ks)) "" then None
                          else Some (slide_tables (snd ks)))))
                     numbered)).
    2: { rewrite map_map. apply map_ext. intros ks. cbn [fst snd].
         now rewrite slide_unit_of. }
    rewrite chunking_of_units, flat_map_map.
    apply f_equal. apply flat_map_ext. intros ks. cbn [fst snd].
    unfold no_text_frame. rewrite <- slide_texts_empty.
    destruct (String.eqb (slide_texts (snd ks)) ""); reflexivity.
Qed.

(** The hypotheses of [ppt_extraction_then_chunking] hold of a deck of
    two slides, the second holding a table only. *)
Lemma ppt_extraction_then_chunking_witness :
  exists extracted,
    start (R := Mock.readers) (VBytes "PK") (VStr "Deck") (VStr "pptx")
    = Ok extracted
    /\ getitem extracted "contents"
       = Ok (VDict [ ("1", VDict [("text", VStr "Title


")]);
                     ("2", VDict [("table", VStr "p,q

")]) ]).
Proof.
  destruct (@ppt_extraction_then_chunking Mock.collaborators Mock.readers
              (VBytes "PK") (VStr "Deck") "pptx" Mock.deck
              (or_introl eq_refl) eq_refl)
    as (extracted & Hstart & Hcontents & _).
  exists extracted. split; [exact Hstart|exact Hcontents].
Defined.

End ExtractionProps.

(* ================================================================== *)
(** * Properties of the semantic chunker *)
(* ================================================================== *)

Module SemanticProps.

Import Chunking SemanticChunking.

Section Splitter.

Context {C : Collaborators}.

Variable splitter : string -> result (list (list string)).

Lemma append_nil_r (s : string) : (s ++ "")%string = s.
Proof. induction s as [|x s IH]; cbn [append]; [reflexivity|now rewrite IH]. Qed.

Lemma append_assoc (a b c : string) :
  ((a ++ b) ++ c)%string = (a ++ b ++ c)%string.
Proof. induction a as [|x a IH]; cbn [append]; [reflexivity|now rewrite IH]. Qed.

Lemma integrated_text_texts (units : dict) :
  Forall (fun kv =>
            exists d,
              snd kv = VDict d
              /\ (dict_get d "text" = None
                  \/ exists t, dict_get d "text" = Some (VStr t)))
         units ->
  forall chunked_text,
    integrated_text units chunked_text
    = Ok (chunked_text ++ String.concat "" (texts_of units))%string.
Proof.
  induction 1 as [|[idx content] units (d & Hd & Htext) _ IH];
    intros chunked_text.
  - cbn. now rewrite append_nil_r.
  - cbn [snd] in Hd. subst content.
    cbn [integrated_text unit_text rbind texts_of flat_map snd].
    destruct Htext as [->|(t & ->)].
    + cbn [app]. apply IH.
    + rewrite IH. cbn [app]. fold (texts_of units).
      destruct (texts_of units) as [|t' ts]; cbn [String.concat append].
      * now rewrite append_nil_r.
      * now rewrite append_assoc.
Qed.

Lemma split_units_missing_text (before after : dict) (idx : string)
      (d : dict) :
  Forall (fun kv =>
            exists t,
              getitem (snd kv) "text" = Ok (VStr t)
              /\ is_ok (splitter t) = true)
         before ->
  dict_get d "text" = None ->
  forall template,
    split_units splitter template (before ++ (idx, VDict d) :: after)
    = Raise (KeyError "text").
Proof.
  intros Hbefore Hd.
  induction Hbefore as [|[i content] before (t & Ht & Hsplit) _ IH];
    intros template; cbn [app split_units].
  - cbn [getitem]. now rewrite Hd.
  - cbn [snd] in Ht. rewrite Ht. cbn [rbind as_str].
    destruct (splitter t) as [splits|]; [|discriminate Hsplit].
    cbn [rbind]. now rewrite IH.
Qed.

End Splitter.

(** X24.  The semantic chunker, as the job manager builds it, chunks
    the document as a whole: the splitter sees the texts of the units
    concatenated without separator, units without text being skipped,
    and every record carries the index "integrated"; so the result
    depends on the units only through that concatenation. *)
Theorem semantic_chunking_integrates {C : Collaborators}
        (splitter : string -> result (list (list string)))
        (retrieved_text title type index_type : value) (units : dict) :
  getitem retrieved_text "document_title" = Ok title ->
  getitem retrieved_text "document_type" = Ok type ->
  getitem retrieved_text "contents_index_type" = Ok index_type ->
  getitem retrieved_text "contents" = Ok (VDict units) ->
  Forall (fun kv =>
            exists d,
              snd kv = VDict d
              /\ (dict_get d "text" = None
                  \/ exists t, dict_get d "text" = Some (VStr t)))
         units ->
  start (Ok tt) splitter true retrieved_text
  = rbind (splitter (String.concat "" (texts_of units))) (fun splits =>
    Ok (map (fun docs =>
               json_dumps
                 (chunk_record title type "integrated" (join " " docs)
                               index_type))
            splits)).
Proof.
  intros Htitle Htype Hindex Hcontents Hunits.
  unfold start. cbn [rbind].
  rewrite Htitle, Htype, Hindex. cbn [rbind]. rewrite Hcontents.
  cbn [rbind]. rewrite (integrated_text_texts Hunits). cbn [rbind].
  cbn [append].
  destruct (splitter _) as [splits|e]; reflexivity.
Qed.

(** The hypotheses of [semantic_chunking_integrates] hold of a document
    of a text unit, a table unit and another text unit, with a splitter
    that makes one split of its text. *)
Lemma semantic_chunking_integrates_witness :
  start (C := Mock.collaborators) (Ok tt) Mock.one_split true
        Mock.mixed_document
  = Ok ["{}"].
Proof.
  rewrite (@semantic_chunking_integrates Mock.collaborators
             Mock.one_split Mock.mixed_document (VStr "Report")
             (VStr "docx") (VStr "whole_text_or_table_number")
             Mock.mixed_units eq_refl eq_refl eq_refl eq_refl).
  - reflexivity.
  - repeat (apply Forall_cons; [eexists; split; [reflexivity|]|]);
      [right; eexists; reflexivity | left; reflexivity
      | right; eexists; reflexivity | apply Forall_nil].
Defined.

(** X25.  Without integration the semantic chunker reads the text of
    every unit: the first unit that holds none stops it with a KeyError,
    whatever the units before it produced, where the integrating branch
    and the sentence chunker skip such a unit. *)
Theorem semantic_chunking_unit_without_text {C : Collaborators}
        (splitter : string -> result (list (list string)))
        (retrieved_text title type index_type : value)
        (before after : dict) (idx : string) (d : dict) :
  getitem retrieved_text "document_title" = Ok title ->
  getitem retrieved_text "document_type" = Ok type ->
  getitem retrieved_text "contents_index_type" = Ok index_type ->
  getitem retrieved_text "contents"
  = Ok (VDict (before ++ (idx, VDict d) :: after)) ->
  Forall (fun kv =>
            exists t,
              getitem (snd kv) "text" = Ok (VStr t)
              /\ is_ok (splitter t) = true)
         before ->
  dict_get d "text" = None ->
  start (Ok tt) splitter false retrieved_text = Raise (KeyError "text").
Proof.
  intros Htitle Htype Hindex Hcontents Hbefore Hd.
  unfold start. cbn [rbind].
  rewrite Htitle, Htype, Hindex. cbn [rbind]. rewrite Hcontents.
  cbn [rbind]. now apply split_units_missing_text.
Qed.

(** The hypotheses of [semantic_chunking_unit_without_text] hold of a
    document whose second unit is a table. *)
Lemma semantic_chunking_unit_without_text_witness :
  start (C := Mock.collaborators) (Ok tt) Mock.one_split false
        Mock.mixed_document
  = Raise (KeyError "text").
Proof.
  apply (@semantic_chunking_unit_without_text Mock.collaborators
           Mock.one_split Mock.mixed_document (VStr "Report") (VStr "docx")
           (VStr "whole_text_or_table_number")
           [("1", VDict [("text", VStr "One.")])]
           [("3", VDict [("text", VStr "Two.")])] "2"
           [("table", VStr "a,b")] eq_refl eq_refl eq_refl eq_refl).
  - apply Forall_cons; [|apply Forall_nil].
    exists "One.". split; reflexivity.
  - reflexivity.
Defined.

End SemanticProps.

(* ================================================================== *)
(** * Properties of the routes *)
(* ================================================================== *)

Module RoutesProps.

Import Frame Execute ExecuteProps ElasticSearch AddToEsProps ExecuteMore.
Import Relations Routes.

Lemma dict_get_keys (d : dict) (k : string) :
  dict_get d k <> None <-> In k (map fst d).
Proof.
  induction d as [|[k' v] d IH]; cbn [dict_get map fst In].
  - split; [congruence|tauto].
  - destruct (String.eqb_spec k' k) as [->|Hne].
    + split; [auto|discriminate].
    + rewrite IH. split; [auto|intros [H|H]; [contradiction|exact H]].
Qed.

Lemma dict_set_keys (d : dict) (k : string) (v : value) (k' : string) :
  In k' (map fst (dict_set d k v)) <-> k' = k \/ In k' (map fst d).
Proof.
  rewrite <- !dict_get_keys.
  destruct (String.eqb_spec k' k) as [->|Hne].
  - rewrite dict_get_set_same. split; [auto|discriminate].
  - rewrite dict_get_set_other by exact Hne. tauto.
Qed.

Section Routes.

Context {C : Collaborators}.

(** The dict built by the comprehension: its keys are the ids, its
    values are empty. *)
Lemma models_by_id_returns (data : list value) (ids : list string) :
  Forall2 (fun model id => getitem model "id" = Ok (VStr id)) data ids ->
  forall m,
    exists m0,
      models_by_id data m = Ok m0
      /\ (forall k, In k (map fst m0) <-> In k (map fst m) \/ In k ids)
      /\ ((forall k v, dict_get m k = Some v -> v = VDict []) ->
          forall k v, dict_get m0 k = Some v -> v = VDict []).
Proof.
  induction 1 as [|model id data ids Hid _ IH]; intros m;
    cbn [models_by_id].
  - exists m. split; [reflexivity|]. split; [cbn; tauto|auto].
  - rewrite Hid. cbn [rbind as_str].
    destruct (IH (dict_set m id (VDict []))) as (m0 & Hrun & Hkeys & Hvals).
    exists m0. split; [exact Hrun|]. split.
    + intros k. rewrite Hkeys, dict_set_keys. cbn [In].
      split; [intros [[->|H]|H]|intros [H|[<-|H]]]; auto.
    + intros Hm. apply Hvals. intros k v.
      destruct (String.eqb_spec k id) as [->|Hne].
      * rewrite dict_get_set_same. now intros [= <-].
      * rewrite dict_get_set_other by exact Hne. apply Hm.
Qed.

Lemma embedding_info_returns (keys : list string) :
  (forall k, In k keys -> contains "embedding" k = true ->
             dict_get cfg.embedding_models_info k <> None) ->
  forall m,
    exists m',
      embedding_info keys m = Ok m'
      /\ (forall id, In id keys ->
                     dict_get m' id
                     = if contains "embedding" id
                       then dict_get cfg.embedding_models_info id
                       else dict_get m id)
      /\ (forall id, ~ In id keys -> dict_get m' id = dict_get m id).
Proof.
  induction keys as [|k keys IH]; intros Hreg m; cbn [embedding_info].
  - exists m. split; [reflexivity|]. split; [intros id []|auto].
  - assert (Hrest : forall k', In k' keys ->
                               contains "embedding" k' = true ->
                               dict_get cfg.embedding_models_info k' <> None)
      by (intros k' Hin; apply Hreg; now right).
    destruct (contains "embedding" k) eqn:Hk.
    + unfold getitem.
      destruct (dict_get cfg.embedding_models_info k) as [info|] eqn:Hinfo;
        [|now elim (Hreg k (or_introl eq_refl) Hk)].
      cbn [rbind].
      destruct (IH Hrest (dict_set m k info)) as (m' & Hrun & Hin & Hout).
      exists m'. split; [exact Hrun|]. split.
      * intros id Hid.
        destruct (in_dec string_dec id keys) as [Hkeys|Hkeys].
        -- rewrite (Hin id Hkeys).
           destruct (contains "embedding" id) eqn:Hcid; [reflexivity|].
           apply dict_get_set_other. intros ->. congruence.
        -- destruct Hid as [<-|Hid]; [|contradiction].
           rewrite (Hout k Hkeys), dict_get_set_same, Hk.
           now rewrite Hinfo.
      * intros id Hid. cbn [In] in Hid.
        rewrite Hout by tauto.
        apply dict_get_set_other. intros ->. tauto.
    + destruct (IH Hrest m) as (m' & Hrun & Hin & Hout).
      exists m'. split; [exact Hrun|]. split.
      * intros id Hid.
        destruct (in_dec string_dec id keys) as [Hkeys|Hkeys];
          [now apply Hin|].
        destruct Hid as [<-|Hid]; [|contradiction].
        now rewrite (Hout k Hkeys), Hk.
      * intros id Hid. cbn [In] in Hid. apply Hout. tauto.
Qed.

Lemma embedding_info_raises (keys : list string) :
  (exists k, In k keys /\ contains "embedding" k = true
             /\ dict_get cfg.embedding_models_info k = None) ->
  forall m,
    exists k,
      In k keys /\ contains "embedding" k = true
      /\ dict_get cfg.embedding_models_info k = None
      /\ embedding_info keys m = Raise (KeyError k).
Proof.
  induction keys as [|k keys IH]; intros (bad & Hin & Hbad & Hnone) m;
    [destruct Hin|].
  cbn [embedding_info].
  destruct (contains "embedding" k) eqn:Hk.
  - unfold getitem.
    destruct (dict_get cfg.embedding_models_info k) as [info|] eqn:Hinfo.
    + cbn [rbind].
      destruct Hin as [->|Hin]; [congruence|].
      destruct (IH (ex_intro _ bad (conj Hin (conj Hbad Hnone)))
                   (dict_set m k info))
        as (k' & Hin' & Hk' & Hnone' & Hrun).
      exists k'. cbn [In]. auto.
    + exists k. cbn [In rbind]. auto.
  - destruct Hin as [->|Hin]; [congruence|].
    destruct (IH (ex_intro _ bad (conj Hin (conj Hbad Hnone))) m)
      as (k' & Hin' & Hk' & Hnone' & Hrun).
    exists k'. cbn [In]. auto.
Qed.

End Routes.

(** X26.  [get_models_list] looks up in the registry every model id
    that contains "embedding": if one of them is not registered the
    route fails with a KeyError that names it; otherwise the answer
    lists exactly the ids the provider reported, each id that contains
    "embedding" with its registry entry and every other id with an
    empty dict. *)
Theorem get_models_list_outcomes
        (models_list : value) (data : list value) (ids : list string) :
  getitem models_list "data" = Ok (VList data) ->
  Forall2 (fun model id => getitem model "id" = Ok (VStr id)) data ids ->
  (exists id,
      In id ids /\ contains "embedding" id = true
      /\ dict_get cfg.embedding_models_info id = None
      /\ get_models_list models_list = Raise (KeyError id))
  \/ (exists models,
        get_models_list models_list = Ok models
        /\ (forall id, In id ids ->
                       dict_get models id
                       = if contains "embedding" id
                         then dict_get cfg.embedding_models_info id
                         else Some (VDict []))
        /\ (forall id, In id ids -> dict_get models id <> None)
        /\ (forall id, ~ In id ids -> dict_get models id = None)).
Proof.
  intros Hdata Hids.
  unfold get_models_list. rewrite Hdata. cbn [rbind as_list].
  destruct (models_by_id_returns Hids []) as (m0 & -> & Hkeys & Hvals).
  cbn [rbind].
  assert (Hkeys' : forall k, In k (map fst m0) <-> In k ids)
    by (intros k; rewrite Hkeys; cbn; tauto).
  assert (Hblank : forall k, In k ids -> dict_get m0 k = Some (VDict [])).
  { intros k Hk. apply Hkeys', dict_get_keys in Hk.
    destruct (dict_get m0 k) as [v|] eqn:Hv; [|congruence].
    f_equal. apply (Hvals ltac:(intros ? ? [=]) k v Hv). }
  destruct (existsb (fun id => contains "embedding" id
                               && negb (dict_mem cfg.embedding_models_info id))
                    ids) eqn:Hbad.
  - left. apply existsb_exists in Hbad.
    destruct Hbad as (bad & Hin & Hb). apply andb_prop in Hb.
    destruct Hb as [Hc Hn]. unfold dict_mem in Hn.
    assert (Hnone : dict_get cfg.embedding_models_info bad = None)
      by (destruct (dict_get cfg.embedding_models_info bad);
          [discriminate Hn|reflexivity]).
    destruct (@embedding_info_raises (map fst m0)
                (ex_intro _ bad (conj (proj2 (Hkeys' bad) Hin)
                                      (conj Hc Hnone))) m0)
      as (k & Hk & Hck & Hnk & Hrun).
    exists k. rewrite <- Hkeys'. auto.
  - right.
    assert (Hreg : forall k, In k (map fst m0) ->
                             contains "embedding" k = true ->
                             dict_get cfg.embedding_models_info k <> None).
    { intros k Hk Hc Hnone. apply Hkeys' in Hk.
      assert (Hfound :
                existsb (fun id =>
                           contains "embedding" id
                           && negb (dict_mem cfg.embedding_models_info id))
                        ids = true).
      { apply existsb_exists. exists k. split; [exact Hk|].
        unfold dict_mem. now rewrite Hc, Hnone. }
      congruence. }
    destruct (@embedding_info_returns (map fst m0) Hreg m0)
      as (m' & Hrun & Hin & Hout).
    exists m'. split; [exact Hrun|]. split; [|split].
    + intros id Hid. rewrite (Hin id (proj2 (Hkeys' id) Hid)).
      now rewrite (Hblank id Hid).
    + intros id Hid. rewrite (Hin id (proj2 (Hkeys' id) Hid)).
      destruct (contains "embedding" id) eqn:Hc.
      * apply Hreg; [now apply Hkeys'|exact Hc].
      * now rewrite (Hblank id Hid).
    + intros id Hid. rewrite Hout by now rewrite Hkeys'.
      destruct (dict_get m0 id) eqn:Hget; [|reflexivity].
      elim Hid. apply Hkeys', dict_get_keys. congruence.
Qed.

(** The hypotheses of [get_models_list_outcomes] hold of a provider
    that reports a chat model and an embedding model the registry does
    not list. *)
Lemma get_models_list_outcomes_witness :
  get_models_list
    (VDict [("data", VList [ VDict [("id", VStr "gpt-4")];
                             VDict [("id", VStr "embedding/e5")] ])])
  = Raise (KeyError "embedding/e5").
Proof.
  assert (Hids : Forall2 (fun model id => getitem model "id" = Ok (VStr id))
                         [ VDict [("id", VStr "gpt-4")];
                           VDict [("id", VStr "embedding/e5")] ]
                         ["gpt-4"; "embedding/e5"])
    by (repeat constructor).
  destruct (@get_models_list_outcomes
              (VDict [("data", VList [ VDict [("id", VStr "gpt-4")];
                                       VDict [("id",
                                                VStr "embedding/e5")] ])])
              _ _ eq_refl Hids)
    as [(id & Hin & Hc & _ & Hrun)|(models & Hrun & _)].
  - destruct Hin as [<-|[<-|[]]]; [discriminate Hc|exact Hrun].
  - discriminate Hrun.
Defined.

(** X27.  [add_data_to_metadata_index] tests the answer of
    [post_add_data] for a failure status, which that method never
    gives: the route either returns the success answer of a completed
    write to the metadata index of the type, or lets the exception of
    the store through, logged once; it never answers the HTTP error. *)
Theorem add_data_to_metadata_index_outcomes {C : Collaborators}
        (index_type : string) (metadata_properties : value) (w : World) :
  match add_data_to_metadata_index index_type metadata_properties w with
  | (Ok answer, w') =>
      getitem answer "status" = Ok (VStr "success")
      /\ (forall detail, answer <> HTTPException 400 detail)
      /\ exists document,
          metadata_properties = VDict document
          /\ calls (es w')
             = calls (es w) ++ [Index ("metadata_" ++ index_type) document]
  | (Raise e, w') =>
      w' = with_log [Log EXCEPTION "post_add_data" (Some e)] w
  end.
Proof.
  unfold add_data_to_metadata_index.
  destruct (post_add_data_cases (VStr ("metadata_" ++ index_type))
                                metadata_properties w)
    as [(index & document & Hindex & -> & _ & Hrun)|(e & Hrun)].
  - injection Hindex as <-.
    rewrite (@run_ok _ _ _ _ _ _ _ Hrun).
    cbn [getitem dict_get String.eqb Ascii.eqb Bool.eqb].
    rewrite run_lift_ok.
    change (eq_str (VStr "success") "success") with true. cbn [negb].
    unfold ret. split; [reflexivity|].
    split; [intros detail; discriminate|].
    exists document. split; reflexivity.
  - unfold bind. now rewrite Hrun.
Qed.

End RoutesProps.

(* ================================================================== *)
(** * Further properties of the sentence chunker and of the status *)
(* ================================================================== *)

Module ChunkingMore.

Import Chunking ChunkingProps.

Lemma sentence_loop_within (chunk_size : Z) (sentences : list string) :
  Forall (fun sentence => (words sentence < chunk_size)%Z) sentences ->
  forall chunked_text,
    (words chunked_text < chunk_size)%Z ->
    Forall (fun chunk => (words chunk < chunk_size)%Z)
           (fst (sentence_loop chunk_size sentences chunked_text))
    /\ (words (snd (sentence_loop chunk_size sentences chunked_text))
        < chunk_size)%Z.
Proof.
  induction 1 as [|sentence rest Hs _ IH]; intros chunked_text Hct;
    cbn [sentence_loop fst snd].
  - split; [apply Forall_nil|exact Hct].
  - change (Z.of_nat (length (split_space sentence))) with (words sentence).
    destruct (words chunked_text + words sentence <? chunk_size)%Z eqn:Hfit.
    + apply IH. rewrite words_append. now apply Z.ltb_lt.
    + destruct (sentence_loop chunk_size rest sentence) as [more final] eqn:Hl.
      specialize (IH sentence Hs). rewrite Hl in IH. cbn [fst snd] in *.
      destruct IH as [Hmore Hfinal]. split; [|exact Hfinal].
      apply Forall_cons; [|exact Hmore].
      pose proof (words_strip chunked_text). lia.
Qed.

(** X28.  When the chunk size is at least two and every sentence of a
    text has fewer words than the chunk size, every chunk of the text
    has fewer words than the chunk size. *)
Theorem sentence_chunks_within_chunk_size (chunk_size : Z) (text : string) :
  (2 <= chunk_size)%Z ->
  Forall (fun sentence => (words sentence < chunk_size)%Z)
         (re_split_sentences text) ->
  Forall (fun chunk => (words chunk < chunk_size)%Z)
         (sentence_chunks chunk_size text).
Proof.
  intros Hsize Hsentences. unfold sentence_chunks.
  destruct (sentence_loop_within Hsentences "") as [Hflushed Hfinal].
  { change (words "") with 1%Z. lia. }
  destruct (sentence_loop chunk_size (re_split_sentences text) "")
    as [flushed final].
  cbn [fst snd] in *.
  apply Forall_app. split; [exact Hflushed|].
  apply Forall_cons; [|apply Forall_nil].
  pose proof (words_strip final). lia.
Qed.

(** The hypotheses of [sentence_chunks_within_chunk_size] hold of two
    short sentences and a chunk size of five. *)
Lemma sentence_chunks_within_chunk_size_witness :
  Forall (fun chunk => (words chunk < 5)%Z) (sentence_chunks 5 "a b. c d.").
Proof.
  apply (@sentence_chunks_within_chunk_size 5 "a b. c d.");
    [lia|repeat constructor].
Defined.

(** X29.  When the first sentence of a text, counted with the one token
    of the empty buffer, reaches the chunk size, the first chunk of the
    text is the empty string: the empty buffer is flushed before the
    sentence is taken. *)
Theorem sentence_chunks_leading_empty_chunk (chunk_size : Z) (text : string) :
  (chunk_size <= 1 + words (hd "" (re_split_sentences text)))%Z ->
  exists rest, sentence_chunks chunk_size text = "" :: rest.
Proof.
  unfold sentence_chunks, re_split_sentences, split_by.
  destruct (split_aux sentence_sep None text) as [first others].
  cbn [hd sentence_loop]. intros Hfull.
  change (Z.of_nat (length (split_space first))) with (words first).
  change (words "") with 1%Z.
  destruct (1 + words first <? chunk_size)%Z eqn:Hfit;
    [apply Z.ltb_lt in Hfit; lia|].
  destruct (sentence_loop chunk_size others first) as [more final].
  eexists. reflexivity.
Qed.

(** The hypothesis of [sentence_chunks_leading_empty_chunk] holds of a
    sentence of three words and a chunk size of four. *)
Lemma sentence_chunks_leading_empty_chunk_witness :
  exists rest, sentence_chunks 4 "a b c. d" = "" :: rest.
Proof.
  apply (@sentence_chunks_leading_empty_chunk 4 "a b c. d").
  vm_compute. discriminate.
Defined.

End ChunkingMore.

Module StatusMore.

Import JobManagement WorkerProps.

(** X30.  Once the worker has drained a queue that held a job, the
    status summary shows no current job, neither title nor type nor
    step, and a queue of length zero. *)
Theorem get_status_summary_after_start_jobs {C : Collaborators}
        (m : JobManager) (fuel : nat) :
  queue m <> [] ->
  length (queue m) <= fuel ->
  exists m',
    start_jobs fuel m = Some (Ok tt, m')
    /\ status m' = "idle"
    /\ get_status_summary m'
       = Ok (VDict
               [ ("Current Job info",
                   VDict [("Title", VNone); ("Type", VNone);
                          ("Step", VNone)]);
                 ("Queue info", VDict [("Length", VInt 0)]) ]).
Proof.
  intros Hqueue Hfuel.
  destruct (@start_jobs_loop_drains C (queue m) fuel m eq_refl Hfuel)
    as (m' & Hrun & Hempty & _ & Hjob & _).
  exists (set_status "idle" m').
  split; [unfold start_jobs; now rewrite Hrun|].
  split; [reflexivity|].
  unfold get_status_summary.
  change (current_job (set_status "idle" m')) with (current_job m').
  change (queue (set_status "idle" m')) with (queue m').
  rewrite Hjob, Hempty.
  destruct (queue m) as [|job rest]; [now elim Hqueue|].
  reflexivity.
Qed.

(** The hypotheses of [get_status_summary_after_start_jobs] hold of the
    manager that holds one job. *)
Lemma get_status_summary_after_start_jobs_witness :
  exists m',
    start_jobs (C := Mock.collaborators) 1
               (set_queue [Mock.full_text_job] (init Mock.store0))
    = Some (Ok tt, m')
    /\ status m' = "idle".
Proof.
  destruct (@get_status_summary_after_start_jobs Mock.collaborators
              (set_queue [Mock.full_text_job] (init Mock.store0)) 1)
    as (m' & Hrun & Hidle & _).
  - discriminate.
  - cbn. lia.
  - exists m'. split; [exact Hrun|exact Hidle].
Defined.

End StatusMore.
